(** * IcyPaw: a shallow embedding of the Sparkplug-B runtime core

    The development follows the layout of the Python package [icypaw]:

    - [tahu_interface.py]: the wire messages (Payload, Metric, Template,
      DataSet), the integer conversions, the sequence counter [Seq], the
      [MetricOrganizer] and the [TahuServerInterface];
    - [topic.py]: the topic codec;
    - [types.py]: the Icypaw value types and their wire encodings;
    - [client_endpoint.py]: the client-side liveness record and metric table;
    - [server_engine.py]: the scheduler step that runs a scheduled function;
    - [client.py]: message de-duplication in the client facade.

    Python exceptions are modelled by the sum type [result]; objects that the
    source mutates in place are modelled by explicit state passing. *)

From Stdlib Require Import ZArith List String Ascii Bool Lia PrimFloat Uint63 SpecFloat FloatOps.
From stdpp Require Import base option gmap strings.
Import ListNotations.

Local Open Scope string_scope.
Local Open Scope Z_scope.

(** ** Exceptions and results *)

Inductive exn : Type :=
| TahuInterfaceError (msg : string)
| IcypawException (msg : string)
| IcypawEngineError (msg : string)
| TypeError (msg : string)
| ValueError (msg : string)
| KeyError (key : string)
| IndexError
| AttributeError (attr : string)
| UserError (msg : string).

Inductive result (A : Type) : Type :=
| OK (a : A)
| Raise (e : exn).
Arguments OK {A} a.
Arguments Raise {A} e.

Definition bind {A B : Type} (r : result A) (k : A -> result B) : result B :=
  match r with
  | OK a => k a
  | Raise e => Raise e
  end.

Notation "'do' x <- r ; k" := (bind r (fun x => k))
  (at level 10, x pattern, r at level 100, k at level 200).

Definition is_OK {A : Type} (r : result A) : bool :=
  match r with OK _ => true | Raise _ => false end.

(** ** Python dictionaries

    A Python [dict] keeps insertion order: assigning to an existing key keeps
    the key's position, assigning to a new key appends it.  Iteration order is
    observable in the source ([get_all], the NBIRTH template list), so
    dictionaries that are iterated are association lists with unique keys. *)

Section PyDict.
Context {K V : Type} `{EqDecision K}.

Fixpoint dict_get (d : list (K * V)) (k : K) : option V :=
  match d with
  | [] => None
  | (k', v) :: d' => if decide (k = k') then Some v else dict_get d' k
  end.

Fixpoint dict_set (d : list (K * V)) (k : K) (v : V) : list (K * V) :=
  match d with
  | [] => [(k, v)]
  | (k', v') :: d' =>
      if decide (k = k') then (k, v) :: d' else (k', v') :: dict_set d' k v
  end.

Fixpoint dict_del (d : list (K * V)) (k : K) : list (K * V) :=
  match d with
  | [] => []
  | (k', v') :: d' =>
      if decide (k = k') then dict_del d' k else (k', v') :: dict_del d' k
  end.

Definition dict_keys (d : list (K * V)) : list K := List.map fst d.

Definition dict_contains (d : list (K * V)) (k : K) : bool :=
  match dict_get d k with Some _ => true | None => false end.

(** [d.update(other)] *)
Definition dict_update (d other : list (K * V)) : list (K * V) :=
  fold_left (fun acc kv => dict_set acc (fst kv) (snd kv)) other d.
End PyDict.

(** ** Wire messages ([proto/sparkplug_b.proto] as used by the package) *)

Module DataType.
(** Values copied from a comment in the Sparkplug B protocol. *)
Inductive t : Type :=
| Unknown | Int8 | Int16 | Int32 | Int64 | UInt8 | UInt16 | UInt32 | UInt64
| Float | Double | Boolean | String | DateTime | Text
| UUID | DataSet | Bytes | File | Template
| PropertySet | PropertySetList.

Definition value (d : t) : Z :=
  match d with
  | Unknown => 0 | Int8 => 1 | Int16 => 2 | Int32 => 3 | Int64 => 4
  | UInt8 => 5 | UInt16 => 6 | UInt32 => 7 | UInt64 => 8
  | Float => 9 | Double => 10 | Boolean => 11 | String => 12
  | DateTime => 13 | Text => 14
  | UUID => 15 | DataSet => 16 | Bytes => 17 | File => 18 | Template => 19
  | PropertySet => 20 | PropertySetList => 21
  end.
End DataType.

(** The scalar members of the [value] one-of, shared by [Metric],
    [DataSet.DataSetValue] and [PropertyValue]. *)
Inductive ScalarField : Type :=
| int_value (z : Z)
| long_value (z : Z)
| float_value (f : float)
| double_value (f : float)
| boolean_value (b : bool)
| string_value (s : string).

(** Reading a member of a one-of that is not the one set gives the
    protobuf default. *)
Definition get_int_value (v : option ScalarField) : Z :=
  match v with Some (int_value z) => z | _ => 0 end.
Definition get_long_value (v : option ScalarField) : Z :=
  match v with Some (long_value z) => z | _ => 0 end.
Definition get_double_value (v : option ScalarField) : float :=
  match v with Some (double_value f) => f | _ => PrimFloat.zero end.
Definition get_boolean_value (v : option ScalarField) : bool :=
  match v with Some (boolean_value b) => b | _ => false end.
Definition get_string_value (v : option ScalarField) : string :=
  match v with Some (string_value s) => s | _ => "" end.

Record DataSet : Type := mkDataSet {
  d_num_of_columns : Z;
  d_columns : list string;
  d_types : list Z;
  d_rows : list (list (option ScalarField))
}.

Inductive PropertyValue : Type :=
| mkPropertyValue (type : Z) (value : PropertyOneof)
with PropertyOneof : Type :=
| property_unset
| property_scalar (s : ScalarField)
| propertyset_value (keys : list string) (values : list PropertyValue)
| propertysets_value (sets : list (list string * list PropertyValue)).

Record PropertySet : Type := mkPropertySet {
  ps_keys : list string;
  ps_values : list PropertyValue
}.

Record TemplateOf (M : Type) : Type := mkTemplate {
  t_metrics : list M;
  t_template_ref : option string;
  t_is_definition : option bool
}.
Arguments mkTemplate {M}.
Arguments t_metrics {M}.
Arguments t_template_ref {M}.
Arguments t_is_definition {M}.

Inductive ValueOf (M : Type) : Type :=
| value_unset
| scalar_value (s : ScalarField)
| dataset_value (d : DataSet)
| template_value (t : TemplateOf M).
Arguments value_unset {M}.
Arguments scalar_value {M}.
Arguments dataset_value {M}.
Arguments template_value {M}.

#[warnings="-register-all"]
Inductive Metric : Type := mkMetric {
  m_name : option string;
  m_alias : option Z;
  m_timestamp : option Z;
  m_datatype : Z;
  m_is_historical : bool;
  m_is_transient : bool;
  m_is_null : bool;
  m_properties : PropertySet;
  m_value : ValueOf Metric
}.

Definition Template : Type := TemplateOf Metric.
Definition MetricValue : Type := ValueOf Metric.

Record Payload : Type := mkPayload {
  p_timestamp : option Z;
  p_seq : option Z;
  p_metrics : list Metric
}.

(** [Metric()]: a message with no field set. *)
Definition empty_PropertySet : PropertySet := mkPropertySet [] [].
Definition Metric_new : Metric :=
  mkMetric None None None 0 false false false empty_PropertySet value_unset.

(** [metric.name] read as an attribute: the empty string when unset. *)
Definition name_of (m : Metric) : string :=
  match m_name m with Some n => n | None => "" end.

Definition scalar_of (v : MetricValue) : option ScalarField :=
  match v with scalar_value s => Some s | _ => None end.

(** [metric.template_value] read as an attribute: the empty template when the
    one-of holds something else. *)
Definition template_value_of (m : Metric) : Template :=
  match m_value m with
  | template_value t => t
  | _ => mkTemplate [] None None
  end.

Definition dataset_value_of (m : Metric) : DataSet :=
  match m_value m with
  | dataset_value d => d
  | _ => mkDataSet 0 [] [] []
  end.

Definition set_name (n : string) (m : Metric) : Metric :=
  mkMetric (Some n) (m_alias m) (m_timestamp m) (m_datatype m)
    (m_is_historical m) (m_is_transient m) (m_is_null m) (m_properties m) (m_value m).
Definition clear_name (m : Metric) : Metric :=
  mkMetric None (m_alias m) (m_timestamp m) (m_datatype m)
    (m_is_historical m) (m_is_transient m) (m_is_null m) (m_properties m) (m_value m).
Definition set_alias (a : Z) (m : Metric) : Metric :=
  mkMetric (m_name m) (Some a) (m_timestamp m) (m_datatype m)
    (m_is_historical m) (m_is_transient m) (m_is_null m) (m_properties m) (m_value m).
Definition set_timestamp (t : Z) (m : Metric) : Metric :=
  mkMetric (m_name m) (m_alias m) (Some t) (m_datatype m)
    (m_is_historical m) (m_is_transient m) (m_is_null m) (m_properties m) (m_value m).
Definition set_datatype (d : Z) (m : Metric) : Metric :=
  mkMetric (m_name m) (m_alias m) (m_timestamp m) d
    (m_is_historical m) (m_is_transient m) (m_is_null m) (m_properties m) (m_value m).
Definition set_value (v : MetricValue) (m : Metric) : Metric :=
  mkMetric (m_name m) (m_alias m) (m_timestamp m) (m_datatype m)
    (m_is_historical m) (m_is_transient m) (m_is_null m) (m_properties m) v.

(** ** Client endpoint liveness ([client_endpoint.py])

    Of [ClientEndpoint] the record keeps the alias map and the two lifetime
    sequence numbers; the metric, command and template tables do not take
    part in the liveness decision. *)

Record ClientEndpoint : Type := mkClientEndpoint {
  _alias_map : gmap Z string;
  _last_birth_seq : option Z;
  _last_death_seq : option Z
}.

(** [ClientEndpoint.__init__] without a birth message. *)
Definition ClientEndpoint_new : ClientEndpoint :=
  mkClientEndpoint ∅ None None.

Definition is_online (self : ClientEndpoint) : bool :=
  match _last_birth_seq self with
  | Some birth =>
      match _last_death_seq self with
      | Some death => (death <? birth) || ((death =? 255) && (birth <? 255))
      | None => true
      end
  | None => false
  end.

(** [_get_metric_name] with [fill_in=False]. *)
Definition _get_metric_name (self : ClientEndpoint) (metric : Metric) : result string :=
  match m_name metric with
  | Some n => OK n
  | None =>
      match m_alias metric with
      | None => Raise (ValueError "Malformed message has metric with no name and no alias")
      | Some a =>
          match _alias_map self !! a with
          | Some n => OK n
          | None => Raise (KeyError "alias")
          end
      end
  end.

Fixpoint find_bdSeq (self : ClientEndpoint) (metrics : list Metric) : result (option Z) :=
  match metrics with
  | [] => OK None
  | metric :: rest =>
      do n <- _get_metric_name self metric;
      if String.eqb n "bdSeq"
      then OK (Some (get_long_value (scalar_of (m_value metric))))
      else find_bdSeq self rest
  end.

Definition _get_lifetime_sequence (self : ClientEndpoint) (message : Payload)
  : result (option Z) :=
  do found <- find_bdSeq self (p_metrics message);
  match found with
  | Some s => OK (Some s)
  | None => OK (p_timestamp message)
  end.

(** [x or 0] on an optional integer. *)
Definition or_zero (x : option Z) : Z :=
  match x with Some v => v | None => 0 end.

Definition update_from_tahu_death (self : ClientEndpoint) (message : Payload)
  : result ClientEndpoint :=
  do seq <- _get_lifetime_sequence self message;
  OK (mkClientEndpoint (_alias_map self) (_last_birth_seq self)
        (Some (match seq with
               | Some s => s
               | None => or_zero (_last_death_seq self) + 1
               end))).

(** The part of [update_from_tahu_birth] that touches the modelled fields:
    the alias of every metric that carries one is recorded, then the birth
    sequence is taken from the message. *)
Definition record_aliases (am : gmap Z string) (metrics : list Metric) : gmap Z string :=
  fold_left (fun acc metric =>
               match m_alias metric with
               | Some a => <[a := name_of metric]> acc
               | None => acc
               end) metrics am.

Definition update_from_tahu_birth (self : ClientEndpoint) (message : Payload)
  : result ClientEndpoint :=
  let self1 := mkClientEndpoint (record_aliases (_alias_map self) (p_metrics message))
                 (_last_birth_seq self) (_last_death_seq self) in
  do seq <- _get_lifetime_sequence self1 message;
  OK (mkClientEndpoint (_alias_map self1)
        (Some (match seq with
               | Some s => s
               | None => or_zero (_last_birth_seq self1) + 1
               end))
        (_last_death_seq self1)).

(** ** Python string helpers used by the topic codec *)

(** [s.split(sep)] for a one-character separator. *)
Fixpoint split (sep : ascii) (s : string) : list string :=
  match s with
  | EmptyString => [EmptyString]
  | String.String c s' =>
      if Ascii.eqb c sep then EmptyString :: split sep s'
      else match split sep s' with
           | [] => [String.String c EmptyString]
           | h :: t => String.String c h :: t
           end
  end.

(** [sep.join(l)] *)
Definition join (sep : string) (l : list string) : string := String.concat sep l.

(** [s.upper()] and [s.lower()] on ASCII text (topics are ASCII). *)
Definition ascii_upper (c : ascii) : ascii :=
  let n := nat_of_ascii c in
  if ((97 <=? n) && (n <=? 122))%nat then ascii_of_nat (n - 32) else c.
Definition ascii_lower (c : ascii) : ascii :=
  let n := nat_of_ascii c in
  if ((65 <=? n) && (n <=? 90))%nat then ascii_of_nat (n + 32) else c.
Fixpoint upper (s : string) : string :=
  match s with
  | EmptyString => EmptyString
  | String.String c s' => String.String (ascii_upper c) (upper s')
  end.
Fixpoint lower (s : string) : string :=
  match s with
  | EmptyString => EmptyString
  | String.String c s' => String.String (ascii_lower c) (lower s')
  end.

(** [c in s] for a character [c]. *)
Fixpoint contains_char (c : ascii) (s : string) : bool :=
  match s with
  | EmptyString => false
  | String.String c' s' => Ascii.eqb c c' || contains_char c s'
  end.

(** ** Topics ([topic.py]) *)

Definition DEFAULT_NAMESPACE : string := "spBv1.0".

Definition validate_topic_component (component : string) : result string :=
  if String.eqb component "+" then OK component
  else if contains_char "#" component || contains_char "/" component
          || contains_char "+" component
       then Raise (TahuInterfaceError "Topic component contains one of '#', '/', or '+'")
       else OK component.

Inductive Topic : Type :=
| NodeTopic (_namespace _group_id _message_type _edge_node_id : string)
| DeviceTopic (_namespace _group_id _message_type _edge_node_id _device_id : string)
| StateTopic (_scada_host_id : string).

(** The three [__init__] methods. *)
Definition NodeTopic_init (namespace group_id message_type edge_node_id : string)
  : result Topic :=
  do ns <- validate_topic_component namespace;
  do g <- validate_topic_component group_id;
  do mt <- validate_topic_component message_type;
  do n <- validate_topic_component edge_node_id;
  OK (NodeTopic ns g (upper mt) n).

Definition DeviceTopic_init (namespace group_id message_type edge_node_id device_id : string)
  : result Topic :=
  do ns <- validate_topic_component namespace;
  do g <- validate_topic_component group_id;
  do mt <- validate_topic_component message_type;
  do n <- validate_topic_component edge_node_id;
  do d <- validate_topic_component device_id;
  OK (DeviceTopic ns g (upper mt) n d).

Definition StateTopic_init (scada_host_id : string) : result Topic :=
  do h <- validate_topic_component scada_host_id;
  OK (StateTopic h).

(** The [topic] property.  [StateTopic.topic] returns a plain string literal
    in the source (the literal has no [f] prefix). *)
Definition topic (self : Topic) : string :=
  match self with
  | NodeTopic ns g mt n => ns ++ "/" ++ g ++ "/" ++ mt ++ "/" ++ n
  | DeviceTopic ns g mt n d => ns ++ "/" ++ g ++ "/" ++ mt ++ "/" ++ n ++ "/" ++ d
  | StateTopic _ => "STATE/{self._scada_host_id}"
  end.

Definition message_type (self : Topic) : string :=
  match self with
  | NodeTopic _ _ mt _ => mt
  | DeviceTopic _ _ mt _ _ => mt
  | StateTopic _ => ""
  end.

Definition parse_topic (topic_string : string) : result Topic :=
  let fields := split "/" topic_string in
  match fields with
  | [f0; f1] =>
      if String.eqb (upper f0) "STATE" then StateTopic_init f1
      else Raise (TahuInterfaceError "Topic must have 2, 4, or 5 fields")
  | [namespace; group_id; message_type; edge_node_id] =>
      NodeTopic_init namespace group_id message_type edge_node_id
  | [namespace; group_id; message_type; edge_node_id; device_id] =>
      DeviceTopic_init namespace group_id message_type edge_node_id device_id
  | _ => Raise (TahuInterfaceError "Topic must have 2, 4, or 5 fields")
  end.

(** ** Integer conversions ([tahu_interface.py]) *)

Definition convert_to_unsigned32 (value : Z) : result Z :=
  if 0xffffffff <? value
  then Raise (TahuInterfaceError "Cannot convert large integer to 32-bit")
  else if 0 <? value then OK value
  else if value <? - 0x80000000
  then Raise (TahuInterfaceError "Cannot convert small negative integer to 32-bit")
  else OK (value mod 2 ^ 32).

Definition convert_to_unsigned64 (value : Z) : result Z :=
  if 0xffffffffffffffff <? value
  then Raise (TahuInterfaceError "Cannot convert large integer to 64-bit")
  else if 0 <? value then OK value
  else if value <? - 0x8000000000000000
  then Raise (TahuInterfaceError "Cannot convert small negative integer to 64-bit")
  else OK (value mod 2 ^ 64).

(** [struct.unpack('i', struct.pack('I', value))]: the same 32 bits read as a
    two's-complement number. *)
Definition reinterpret_signed (bits : Z) (value : Z) : Z :=
  if value <? 2 ^ (bits - 1) then value else value - 2 ^ bits.

Definition convert_to_signed32 (value : Z) : result Z :=
  if 0xffffffff <? value
  then Raise (TahuInterfaceError "Cannot convert large integer to 32-bit")
  else if value <? - 0x80000000
  then Raise (TahuInterfaceError "Cannot convert small negative integer to 32-bit")
  else if value <? 0 then OK value
  else OK (reinterpret_signed 32 value).

Definition convert_to_signed64 (value : Z) : result Z :=
  if 0xffffffffffffffff <? value
  then Raise (TahuInterfaceError "Cannot convert large integer to 64-bit")
  else if value <? - 0x8000000000000000
  then Raise (TahuInterfaceError "Cannot convert small negative integer to 64-bit")
  else if value <? 0 then OK value
  else OK (reinterpret_signed 64 value).

(** ** Python values carried by the Icypaw types ([types.py]) *)

(** A [datetime.datetime]: the wall-clock reading in microseconds counted
    from 1970-01-01T00:00:00 on the same wall clock, and the UTC offset of
    its [tzinfo] in microseconds ([None] for a naive value). *)
Record datetime : Type := mkdatetime {
  dt_wall_us : Z;
  dt_utcoffset : option Z
}.

(** What the host provides to the [DateTime] type: the clock, the
    floating-point conversions of the [datetime] module, and the local time
    zone of [dateutil.tz.tzlocal()]. *)
Record Host : Type := mkHost {
  (** [datetime.now()] *)
  host_now : datetime;
  (** [int(d.replace(tzinfo=timezone.utc).timestamp() * 1000)], as a function
      of the wall-clock microseconds of [d] *)
  host_timestamp_ms : Z -> Z;
  (** the instant, in microseconds since the epoch, that
      [datetime.fromtimestamp(ms / 1000, tz)] denotes; it raises for an
      instant outside the range of [datetime] *)
  host_fromtimestamp_us : Z -> result Z;
  (** the UTC offset of the local zone at an instant, in microseconds *)
  host_tzlocal_utcoffset : Z -> Z
}.

(** The plain Python values the scalar types wrap, and the protobuf
    messages that [set_in_tahu_object] also accepts. *)
Inductive PyValue : Type :=
| py_int (z : Z)
| py_float (f : float)
| py_bool (b : bool)
| py_str (s : string)
| py_datetime (d : datetime)
| py_Template (t : Template)
| py_DataSet (d : DataSet).

(** The subclasses of [IcypawScalarType]. *)
Inductive ScalarClass : Type :=
| cUInt32 | cInt32 | cInt64 | cUInt64 | cDouble | cBoolean | cString | cDateTime.

Definition scalar_datatype (c : ScalarClass) : DataType.t :=
  match c with
  | cUInt32 => DataType.UInt32
  | cInt32 => DataType.Int32
  | cInt64 => DataType.Int64
  | cUInt64 => DataType.UInt64
  | cDouble => DataType.Double
  | cBoolean => DataType.Boolean
  | cString => DataType.String
  | cDateTime => DataType.DateTime
  end.

(** An instance of a scalar type: the class and its [_value]. *)
Inductive ScalarValue : Type :=
| UInt32 (_value : Z)
| Int32 (_value : Z)
| Int64 (_value : Z)
| UInt64 (_value : Z)
| Double (_value : float)
| Boolean (_value : bool)
| String_ (_value : string)
| DateTime (_value : datetime).

Definition scalar_class_of (s : ScalarValue) : ScalarClass :=
  match s with
  | UInt32 _ => cUInt32 | Int32 _ => cInt32 | Int64 _ => cInt64
  | UInt64 _ => cUInt64 | Double _ => cDouble | Boolean _ => cBoolean
  | String_ _ => cString | DateTime _ => cDateTime
  end.

(** The [icpw_value] property. *)
Definition icpw_value (s : ScalarValue) : PyValue :=
  match s with
  | UInt32 v | Int32 v | Int64 v | UInt64 v => py_int v
  | Double v => py_float v
  | Boolean v => py_bool v
  | String_ v => py_str v
  | DateTime v => py_datetime v
  end.

(** The range checks of the [__init__] methods on an integer argument. *)
Definition UInt32_init (value : Z) : result ScalarValue :=
  if (0 <=? value) && (value <=? 0xffffffff) then OK (UInt32 value)
  else Raise (TypeError "Bad value for 64-bit unsigned integer").
Definition Int32_init (value : Z) : result ScalarValue :=
  if (- 0x80000000 <=? value) && (value <=? 0x7fffffff) then OK (Int32 value)
  else Raise (TypeError "Bad value for 32-bit integer").
Definition Int64_init (value : Z) : result ScalarValue :=
  if (- 0x8000000000000000 <=? value) && (value <=? 0x7fffffffffffffff)
  then OK (Int64 value)
  else Raise (TypeError "Bad value for 64-bit integer").
Definition UInt64_init (value : Z) : result ScalarValue :=
  if (0 <=? value) && (value <=? 0xffffffffffffffff) then OK (UInt64 value)
  else Raise (TypeError "Bad value for 64-bit unsigned integer").

(** [cls()]: the value built from no argument. *)
Definition scalar_default (host : Host) (c : ScalarClass) : ScalarValue :=
  match c with
  | cUInt32 => UInt32 0
  | cInt32 => Int32 0
  | cInt64 => Int64 0
  | cUInt64 => UInt64 0
  | cDouble => Double PrimFloat.zero
  | cBoolean => Boolean false
  | cString => String_ ""
  | cDateTime => DateTime (host_now host)
  end.

(** ** Writing values into wire objects ([tahu_interface.py]) *)

(** [float(value)].  Integers beyond 2^53 in magnitude are rounded by Python;
    that rounding is not modelled and no caller in the package relies on it
    (the [Double] type always passes a float). *)
Definition py_float_of (value : PyValue) : result float :=
  match value with
  | py_float f => OK f
  | py_bool b => OK (if b then PrimFloat.one else PrimFloat.zero)
  | py_int z =>
      if (Z.abs z <=? 2 ^ 53)
      then let f := PrimFloat.of_uint63 (Uint63.of_Z (Z.abs z)) in
           OK (if z <? 0 then PrimFloat.opp f else f)
      else Raise (UserError "float() of an integer beyond 2**53 is outside the model")
  | _ => Raise (TypeError "float() argument must be a string or a number")
  end.

(** [bool(value)] *)
Definition py_bool_of (value : PyValue) : bool :=
  match value with
  | py_bool b => b
  | py_int z => negb (z =? 0)
  | py_float f => negb (PrimFloat.eqb f PrimFloat.zero)
  | py_str s => negb (String.eqb s "")
  | _ => true
  end.

(** A Python number used where the source compares or converts an integer. *)
Definition py_int_of (value : PyValue) : result Z :=
  match value with
  | py_int z => OK z
  | py_bool b => OK (if b then 1 else 0)
  | _ => Raise (TypeError "an integer is required")
  end.

(** [set_in_tahu_object(value, datatype, tahu_object)] for a [Metric]: the
    new content of the metric's [value] one-of.  An [ArrayType] instance
    passed as [value] for a DataSet is not a [PyValue]; the package passes
    the finished [DataSet] message. *)
Definition set_in_tahu_object (value : PyValue) (datatype : DataType.t)
  : result MetricValue :=
  match datatype with
  | DataType.Int8 | DataType.Int16 | DataType.Int32 =>
      do z <- py_int_of value;
      do u <- convert_to_unsigned32 z;
      OK (scalar_value (int_value u))
  | DataType.UInt8 | DataType.UInt16 | DataType.UInt32 =>
      do z <- py_int_of value;
      if z <? 0 then Raise (TahuInterfaceError "Negative number passed for unsigned type")
      else do u <- convert_to_unsigned32 z; OK (scalar_value (int_value u))
  | DataType.Int64 =>
      do z <- py_int_of value;
      do u <- convert_to_unsigned64 z;
      OK (scalar_value (long_value u))
  | DataType.UInt64 =>
      do z <- py_int_of value;
      if z <? 0 then Raise (TahuInterfaceError "Negative number passed for unsigned type")
      else do u <- convert_to_unsigned64 z; OK (scalar_value (long_value u))
  | DataType.Float =>
      do f <- py_float_of value; OK (scalar_value (float_value f))
  | DataType.Double =>
      do f <- py_float_of value; OK (scalar_value (double_value f))
  | DataType.Boolean => OK (scalar_value (boolean_value (py_bool_of value)))
  | DataType.String | DataType.Text =>
      match value with
      | py_str s => OK (scalar_value (string_value s))
      | _ => Raise (UserError "str() of a non-string value is outside the model")
      end
  | DataType.DateTime =>
      match value with
      | py_int z =>
          if (0 <=? z) && (z <? 2 ^ 64) then OK (scalar_value (long_value z))
          else Raise (ValueError "Value out of range")
      | py_bool b => OK (scalar_value (long_value (if b then 1 else 0)))
      | _ => Raise (TypeError "long_value has type int")
      end
  | DataType.Template =>
      match value with
      | py_Template t => OK (template_value t)
      | _ => Raise (TypeError "Cannot copy")
      end
  | DataType.DataSet =>
      match value with
      | py_DataSet d => OK (dataset_value d)
      | _ => Raise (TahuInterfaceError "Cannot convert to a DataSet")
      end
  | DataType.PropertySet => Raise (AttributeError "propertyset_value")
  | DataType.PropertySetList => Raise (AttributeError "propertysets_value")
  | _ => Raise (TahuInterfaceError "Yet unsupported type")
  end.

(** The same call on a [DataSet.DataSetValue], which has scalar members
    only. *)
Definition set_in_dataset_value (value : PyValue) (datatype : DataType.t)
  : result (option ScalarField) :=
  do v <- set_in_tahu_object value datatype;
  match v with
  | scalar_value s => OK (Some s)
  | value_unset => OK None
  | dataset_value _ => Raise (AttributeError "dataset_value")
  | template_value _ => Raise (AttributeError "template_value")
  end.

Definition set_metric_value (value : PyValue) (datatype : DataType.t) (metric : Metric)
  : result Metric :=
  do v <- set_in_tahu_object value datatype;
  OK (set_value v (set_datatype (DataType.value datatype) metric)).

(** ** Icypaw values and types ([types.py]) *)

(** The element type of an [Array[...]] class: one scalar class, or a tuple
    of scalar classes. *)
Inductive ArrayElem : Type :=
| elem_scalar (c : ScalarClass)
| elem_tuple (cs : list ScalarClass).

Inductive ArrayItem : Type :=
| item_scalar (s : ScalarValue)
| item_tuple (l : list ScalarValue).

(** An instance of an [IcypawType]: a scalar, a [Struct] with its class's
    [network_name] and its [_value] dictionary, or an [ArrayType] with its
    class's [_type] and its [_value] list. *)
#[warnings="-register-all"]
Inductive IcypawValue : Type :=
| Scalar (s : ScalarValue)
| Struct (network_name : string) (_value : list (string * IcypawValue))
| Array (_type : ArrayElem) (_value : list ArrayItem).

(** An [IcypawType] subclass.  A [Struct] subclass lists its [Field]s in
    declaration order; each field has a type and, when the field's default
    is not [None], the value [obj.type(obj.default)] builds from it. *)
#[warnings="-register-all"]
Inductive IcypawClass : Type :=
| scalar_class (c : ScalarClass)
| struct_class (network_name : string)
    (fields : list (string * (IcypawClass * option IcypawValue)))
| array_class (_type : ArrayElem).

(** [cls()] *)
Fixpoint new_instance (host : Host) (cls : IcypawClass) : IcypawValue :=
  match cls with
  | scalar_class c => Scalar (scalar_default host c)
  | struct_class nn fields =>
      Struct nn
        (List.map (fun f =>
                     (fst f, match snd (snd f) with
                             | Some v => v
                             | None => new_instance host (fst (snd f))
                             end)) fields)
  | array_class e => Array e []
  end.

(** *** set_in_metric *)

Definition scalar_set_in_metric (host : Host) (self : ScalarValue) (metric : Metric)
  : result Metric :=
  match self with
  | DateTime v =>
      set_metric_value (py_int (host_timestamp_ms host (dt_wall_us v)))
        DataType.DateTime metric
  | _ => set_metric_value (icpw_value self) (scalar_datatype (scalar_class_of self)) metric
  end.

Section MapM.
Context {A B : Type} (f : A -> result B).
Fixpoint mapM (l : list A) : result (list B) :=
  match l with
  | [] => OK []
  | x :: l' => do y <- f x; do ys <- mapM l'; OK (y :: ys)
  end.
End MapM.

(** [zip(a, b)] *)
Fixpoint zip {A B : Type} (a : list A) (b : list B) : list (A * B) :=
  match a, b with
  | x :: a', y :: b' => (x, y) :: zip a' b'
  | _, _ => []
  end.

Definition array_row_to_dataset (ty : ArrayElem) (item : ArrayItem)
  : result (list (option ScalarField)) :=
  match ty, item with
  | elem_scalar c, item_scalar s =>
      do e <- set_in_dataset_value (icpw_value s) (scalar_datatype c); OK [e]
  | elem_scalar c, item_tuple _ => Raise (AttributeError "icpw_value")
  | elem_tuple cs, item_tuple l =>
      if (Z.of_nat (List.length l) =? Z.of_nat (List.length cs))
      then mapM (fun p => set_in_dataset_value (icpw_value (fst p))
                            (scalar_datatype (snd p))) (zip l cs)
      else Raise (UserError "AssertionError")
  | elem_tuple cs, item_scalar _ => Raise (TypeError "object has no len()")
  end.

Definition array_to_dataset (ty : ArrayElem) (items : list ArrayItem) : result DataSet :=
  let types := match ty with
               | elem_scalar c => [c]
               | elem_tuple cs => cs
               end in
  do rows <- mapM (array_row_to_dataset ty) items;
  OK (mkDataSet (Z.of_nat (List.length types))
        (List.map (fun _ => "") types)
        (List.map (fun c => DataType.value (scalar_datatype c)) types)
        rows).

Fixpoint set_in_metric (host : Host) (self : IcypawValue) (metric : Metric)
  : result Metric :=
  match self with
  | Scalar s => scalar_set_in_metric host s metric
  | Struct nn fields =>
      (* make_tahu_template *)
      do metrics <- mapM (fun f => set_in_metric host (snd f) (set_name (fst f) Metric_new))
                      fields;
      set_metric_value (py_Template (mkTemplate metrics (Some nn) None))
        DataType.Template metric
  | Array ty items =>
      do dataset <- array_to_dataset ty items;
      set_metric_value (py_DataSet dataset) DataType.DataSet metric
  end.

(** *** merge_with_metric *)

(** The scalar [merge_with_metric] methods.  They read the wire object
    through its attributes, so they apply to a [Metric] and to a
    [DataSetValue] alike; [obj_is_null] is the object's [is_null] attribute,
    absent on a [DataSetValue]. *)
Definition scalar_merge_with_metric (host : Host) (self : ScalarValue)
    (obj_is_null : option bool) (v : option ScalarField) : result ScalarValue :=
  match self with
  | UInt32 _ => OK (UInt32 (get_int_value v))
  | Int32 _ => do z <- convert_to_signed32 (get_int_value v); OK (Int32 z)
  | Int64 _ => do z <- convert_to_signed64 (get_long_value v); OK (Int64 z)
  | UInt64 _ => OK (UInt64 (get_long_value v))
  | Double _ => OK (Double (get_double_value v))
  | Boolean _ => OK (Boolean (get_boolean_value v))
  | String_ _ => OK (String_ (get_string_value v))
  | DateTime _ =>
      match obj_is_null with
      | None => Raise (AttributeError "is_null")
      | Some true => OK (DateTime (mkdatetime 0 None))
      | Some false =>
          do instant <- host_fromtimestamp_us host (get_long_value v);
          let offset := host_tzlocal_utcoffset host instant in
          OK (DateTime (mkdatetime (instant + offset) (Some offset)))
      end
  end.

(** [value_from_metric(elem, icpw_type)] on one element of a data set row. *)
Definition scalar_value_from_element (host : Host) (c : ScalarClass)
    (elem : option ScalarField) : result ScalarValue :=
  scalar_merge_with_metric host (scalar_default host c) None elem.

Definition array_item_from_row (host : Host) (ty : ArrayElem)
    (row : list (option ScalarField)) : result ArrayItem :=
  match ty with
  | elem_scalar c =>
      match row with
      | [] => Raise IndexError
      | elem :: _ => do s <- scalar_value_from_element host c elem; OK (item_scalar s)
      end
  | elem_tuple cs =>
      do l <- mapM (fun p => scalar_value_from_element host (snd p) (fst p)) (zip row cs);
      OK (item_tuple l)
  end.

Fixpoint merge_with_metric (host : Host) (metric : Metric) (self : IcypawValue)
    {struct metric} : result IcypawValue :=
  match self with
  | Scalar s =>
      do s' <- scalar_merge_with_metric host s (Some (m_is_null metric))
                 (scalar_of (m_value metric));
      OK (Scalar s')
  | Struct nn fields =>
      match m_value metric with
      | template_value t =>
          do fields' <-
            (fix merge_fields (submetrics : list Metric)
                 (fields : list (string * IcypawValue)) {struct submetrics}
               : result (list (string * IcypawValue)) :=
               match submetrics with
               | [] => OK fields
               | submetric :: rest =>
                   match dict_get fields (name_of submetric) with
                   | None => Raise (KeyError (name_of submetric))
                   | Some field =>
                       do field' <- merge_with_metric host submetric field;
                       merge_fields rest (dict_set fields (name_of submetric) field')
                   end
               end) (t_metrics t) fields;
          OK (Struct nn fields')
      | _ => OK (Struct nn fields)
      end
  | Array ty _ =>
      do items <- mapM (array_item_from_row host ty) (d_rows (dataset_value_of metric));
      OK (Array ty items)
  end.

(** The same loop over the fields of a record, as a function of its own (it
    unfolds to the local loop of [merge_with_metric]). *)
Fixpoint merge_fields (host : Host) (submetrics : list Metric)
    (fields : list (string * IcypawValue)) : result (list (string * IcypawValue)) :=
  match submetrics with
  | [] => OK fields
  | submetric :: rest =>
      match dict_get fields (name_of submetric) with
      | None => Raise (KeyError (name_of submetric))
      | Some field =>
          do field' <- merge_with_metric host submetric field;
          merge_fields host rest (dict_set fields (name_of submetric) field')
      end
  end.

(** The module-level [merge_with_metric(icpw_value, metric, icpw_type)]. *)
Definition merge_with_metric_opt (host : Host) (icpw_value : option IcypawValue)
    (metric : Metric) (icpw_type : IcypawClass) : result (option IcypawValue) :=
  if m_is_null metric then OK None
  else
    let v := match icpw_value with
             | Some v => v
             | None => new_instance host icpw_type
             end in
    do v' <- merge_with_metric host metric v;
    OK (Some v').

(** [value_from_metric(metric, icpw_type)] with the type given. *)
Definition value_from_metric (host : Host) (metric : Metric) (icpw_type : IcypawClass)
  : result IcypawValue :=
  merge_with_metric host metric (new_instance host icpw_type).

(** The table entry the client keeps for one metric
    ([client_endpoint.py], [ClientEndpointMetric]). *)
Record ClientEndpointMetric : Type := mkClientEndpointMetric {
  cem_name : string;
  cem_value : option IcypawValue;
  cem_type : IcypawClass;
  cem_alias : option Z;
  cem_properties : PropertySet;
  cem_is_fresh : bool;
  cem_is_historical : bool;
  cem_is_null : bool;
  cem_is_transient : bool
}.

Definition update_from_tahu (host : Host) (self : ClientEndpointMetric)
    (tahu_metric : Metric) : result ClientEndpointMetric :=
  do v <- merge_with_metric_opt host (cem_value self) tahu_metric (cem_type self);
  OK (mkClientEndpointMetric (cem_name self) v (cem_type self) (cem_alias self)
        (cem_properties self) true (m_is_historical tahu_metric)
        (m_is_null tahu_metric) (m_is_transient tahu_metric)).

(** *** Equality ([IcypawType.__eq__]: [self._value == other._value])

    The comparison of two distinct objects; Python's identity shortcut inside
    container comparisons is not modelled. *)

(** [f == z] for a float and an integer: exact, as Python compares them. *)
Definition float_eq_int (f : float) (z : Z) : bool :=
  match FloatOps.Prim2SF f with
  | SpecFloat.S754_zero _ => z =? 0
  | SpecFloat.S754_finite s m e =>
      let mag := if s then - Z.pos m else Z.pos m in
      if 0 <=? e then z =? mag * 2 ^ e else z * 2 ^ (- e) =? mag
  | _ => false
  end.

Definition datetime_eq (a b : datetime) : bool :=
  match dt_utcoffset a, dt_utcoffset b with
  | None, None => dt_wall_us a =? dt_wall_us b
  | Some oa, Some ob => dt_wall_us a - oa =? dt_wall_us b - ob
  | _, _ => false
  end.

Definition py_eq (a b : PyValue) : bool :=
  match a, b with
  | py_int x, py_int y => x =? y
  | py_int x, py_bool y => x =? (if y then 1 else 0)
  | py_bool x, py_int y => (if x then 1 else 0) =? y
  | py_bool x, py_bool y => Bool.eqb x y
  | py_float x, py_float y => PrimFloat.eqb x y
  | py_float x, py_int y => float_eq_int x y
  | py_int x, py_float y => float_eq_int y x
  | py_float x, py_bool y => float_eq_int x (if y then 1 else 0)
  | py_bool x, py_float y => float_eq_int y (if x then 1 else 0)
  | py_str x, py_str y => String.eqb x y
  | py_datetime x, py_datetime y => datetime_eq x y
  | _, _ => false
  end.

Definition scalar_eq (a b : ScalarValue) : bool := py_eq (icpw_value a) (icpw_value b).

Fixpoint list_eq {A : Type} (eq : A -> A -> bool) (a b : list A) : bool :=
  match a, b with
  | [], [] => true
  | x :: a', y :: b' => eq x y && list_eq eq a' b'
  | _, _ => false
  end.

Definition item_eq (a b : ArrayItem) : bool :=
  match a, b with
  | item_scalar x, item_scalar y => scalar_eq x y
  | item_tuple x, item_tuple y => list_eq scalar_eq x y
  | _, _ => false
  end.

Fixpoint icpw_eq (self other : IcypawValue) : bool :=
  match self, other with
  | Scalar a, Scalar b => scalar_eq a b
  | Struct _ fa, Struct _ fb =>
      (Nat.eqb (List.length fa) (List.length fb))
      && forallb (fun f => match dict_get fb (fst f) with
                           | Some v => icpw_eq (snd f) v
                           | None => false
                           end) fa
  | Array _ ia, Array _ ib => list_eq item_eq ia ib
  | _, _ => false
  end.

(** *** Values of a type

    [well_typed v cls]: [v] is an instance of [cls] as the constructors build
    it: a scalar within the range its [__init__] checks, a record with the
    fields of its class in declaration order, an array whose items match the
    element type. *)

#[global] Instance ScalarClass_eq_dec : EqDecision ScalarClass.
Proof. solve_decision. Defined.
#[global] Instance ArrayElem_eq_dec : EqDecision ArrayElem.
Proof. solve_decision. Defined.

Definition scalar_well_typed (s : ScalarValue) (c : ScalarClass) : bool :=
  match s, c with
  | UInt32 v, cUInt32 => (0 <=? v) && (v <=? 0xffffffff)
  | Int32 v, cInt32 => (- 0x80000000 <=? v) && (v <=? 0x7fffffff)
  | Int64 v, cInt64 => (- 0x8000000000000000 <=? v) && (v <=? 0x7fffffffffffffff)
  | UInt64 v, cUInt64 => (0 <=? v) && (v <=? 0xffffffffffffffff)
  | Double _, cDouble => true
  | Boolean _, cBoolean => true
  | String_ _, cString => true
  | DateTime _, cDateTime => true
  | _, _ => false
  end.

Fixpoint scalars_well_typed (l : list ScalarValue) (cs : list ScalarClass) : bool :=
  match l, cs with
  | [], [] => true
  | s :: l', c :: cs' => scalar_well_typed s c && scalars_well_typed l' cs'
  | _, _ => false
  end.

Definition item_well_typed (e : ArrayElem) (item : ArrayItem) : bool :=
  match e, item with
  | elem_scalar c, item_scalar s => scalar_well_typed s c
  | elem_tuple cs, item_tuple l => scalars_well_typed l cs
  | _, _ => false
  end.

Fixpoint well_typed (v : IcypawValue) (cls : IcypawClass) {struct v} : bool :=
  match v, cls with
  | Scalar s, scalar_class c => scalar_well_typed s c
  | Struct nn fields, struct_class nn' decls =>
      String.eqb nn nn'
      && (fix fields_well_typed (fields : list (string * IcypawValue))
              (decls : list (string * (IcypawClass * option IcypawValue))) : bool :=
            match fields, decls with
            | [], [] => true
            | f :: fields', d :: decls' =>
                String.eqb (fst f) (fst d)
                && well_typed (snd f) (fst (snd d))
                && fields_well_typed fields' decls'
            | _, _ => false
            end) fields decls
  | Array e items, array_class e' =>
      bool_decide (e = e') && forallb (item_well_typed e) items
  | _, _ => false
  end.

(** A class that can be instantiated: field names are distinct and every
    field default is a value of the field's type. *)
Fixpoint nodup_names (names : list string) : bool :=
  match names with
  | [] => true
  | n :: rest => negb (existsb (String.eqb n) rest) && nodup_names rest
  end.

Fixpoint class_wf (cls : IcypawClass) : bool :=
  match cls with
  | struct_class _ decls =>
      nodup_names (List.map fst decls)
      && forallb (fun d => class_wf (fst (snd d))
                           && match snd (snd d) with
                              | Some v => well_typed v (fst (snd d))
                              | None => true
                              end) decls
  | _ => true
  end.

(** The classes that do not involve [DateTime]. *)
Definition scalar_class_datetime_free (c : ScalarClass) : bool :=
  match c with cDateTime => false | _ => true end.

Fixpoint datetime_free (cls : IcypawClass) : bool :=
  match cls with
  | scalar_class c => scalar_class_datetime_free c
  | struct_class _ decls => forallb (fun d => datetime_free (fst (snd d))) decls
  | array_class (elem_scalar c) => scalar_class_datetime_free c
  | array_class (elem_tuple cs) => forallb scalar_class_datetime_free cs
  end.

(** The values that hold no NaN. *)
Definition scalar_nan_free (s : ScalarValue) : bool :=
  match s with
  | Double f => PrimFloat.eqb f f
  | _ => true
  end.

Definition item_nan_free (item : ArrayItem) : bool :=
  match item with
  | item_scalar s => scalar_nan_free s
  | item_tuple l => forallb scalar_nan_free l
  end.

Fixpoint nan_free (v : IcypawValue) : bool :=
  match v with
  | Scalar s => scalar_nan_free s
  | Struct _ fields => forallb (fun f => nan_free (snd f)) fields
  | Array _ items => forallb item_nan_free items
  end.

(** ** The sequence counter ([tahu_interface.py], class [Seq]) *)

Record Seq : Type := mkSeq { seq_value : Z }.

Definition Seq_new : Seq := mkSeq 0.
Definition Seq_reset (self : Seq) : Seq := mkSeq 0.
Definition Seq__advance (self : Seq) : Seq := mkSeq (Z.land (seq_value self + 1) 0xff).
Definition Seq_get_and_advance (self : Seq) : Z * Seq :=
  (seq_value self, Seq__advance self).
Definition Seq_reset_and_advance (self : Seq) : Z * Seq :=
  Seq_get_and_advance (Seq_reset self).

(** ** The metric organizer ([tahu_interface.py], class [MetricOrganizer]) *)

Record MetricOrganizer : Type := mkMetricOrganizer {
  _metrics : list (string * Metric);
  _uncommitted_metrics : list Metric;
  _next_alias : Z;
  _metric_names_to_aliases : list (string * Z);
  _template_definitions : list (string * Template);
  _committed : bool
}.

Definition MetricOrganizer_new : MetricOrganizer :=
  mkMetricOrganizer [] [] 0 [] [] false.

(** The [_metric_aliases_to_names] property: [{v: k for k, v in ...items()}]. *)
Definition _metric_aliases_to_names (self : MetricOrganizer) : list (Z * string) :=
  fold_left (fun acc kv => dict_set acc (snd kv) (fst kv))
    (_metric_names_to_aliases self) [].

Definition clear_value_unless_dataset (metric : Metric) : Metric :=
  if m_datatype metric =? DataType.value DataType.DataSet then metric
  else set_value value_unset metric.

Definition _make_template_definition (template_instance : Template) : Template * string :=
  let name := match t_template_ref template_instance with
              | Some r => r
              | None => ""
              end in
  (mkTemplate (List.map clear_value_unless_dataset (t_metrics template_instance))
     None (Some true), name).

Definition _extract_store_template_definition (self : MetricOrganizer) (metric : Metric)
  : MetricOrganizer :=
  match m_value metric with
  | template_value t =>
      let '(template_def, name) := _make_template_definition t in
      mkMetricOrganizer (_metrics self) (_uncommitted_metrics self) (_next_alias self)
        (_metric_names_to_aliases self)
        (dict_set (_template_definitions self) name template_def)
        (_committed self)
  | _ => self
  end.

(** [_add_metric] writes the alias into the caller's metric; the metric as
    stored is returned with the new organizer. *)
Definition _add_metric (self : MetricOrganizer) (metric : Metric)
  : result (MetricOrganizer * Metric) :=
  match m_name metric with
  | None => Raise (TahuInterfaceError "Initial metrics must have a name")
  | Some n =>
      let '(alias, self1) :=
        match dict_get (_metric_names_to_aliases self) n with
        | Some a => (a, self)
        | None =>
            (_next_alias self,
             mkMetricOrganizer (_metrics self) (_uncommitted_metrics self)
               (_next_alias self + 1)
               (dict_set (_metric_names_to_aliases self) n (_next_alias self))
               (_template_definitions self) (_committed self))
        end in
      let metric' := set_alias alias metric in
      let self2 := _extract_store_template_definition self1 metric' in
      OK (mkMetricOrganizer (dict_set (_metrics self2) n metric')
            (_uncommitted_metrics self2) (_next_alias self2)
            (_metric_names_to_aliases self2) (_template_definitions self2)
            (_committed self2), metric')
  end.

(** The loop of [set_initial_metrics]: metrics added before a failing one
    stay in the organizer. *)
Fixpoint add_metrics (self : MetricOrganizer) (metrics : list Metric)
  : MetricOrganizer * result unit :=
  match metrics with
  | [] => (self, OK tt)
  | metric :: rest =>
      match _add_metric self metric with
      | OK (self', _) => add_metrics self' rest
      | Raise e => (self, Raise e)
      end
  end.

Definition set_committed (self : MetricOrganizer) : MetricOrganizer :=
  mkMetricOrganizer (_metrics self) (_uncommitted_metrics self) (_next_alias self)
    (_metric_names_to_aliases self) (_template_definitions self) true.

Definition set_initial_metrics (self : MetricOrganizer) (metrics : list Metric)
  : MetricOrganizer * result (list (string * Template)) :=
  match add_metrics self metrics with
  | (self', OK _) =>
      (set_committed self', OK (_template_definitions self'))
  | (self', Raise e) => (self', Raise e)
  end.

Definition _validate_metric (self : MetricOrganizer) (metric : Metric) : result unit :=
  match m_name metric with
  | Some n =>
      match dict_get (_metrics self) n with
      | None => Raise (TahuInterfaceError "Metric not found in registered metrics")
      | Some model_metric =>
          if m_datatype metric =? m_datatype model_metric then OK tt
          else Raise (TahuInterfaceError "Metric has bad data type")
      end
  | None =>
      match m_alias metric with
      | None => Raise (TahuInterfaceError "Metric has neither name nor alias provided")
      | Some _ => OK tt
      end
  end.

Definition append_uncommitted (self : MetricOrganizer) (metric : Metric) : MetricOrganizer :=
  mkMetricOrganizer (_metrics self) (_uncommitted_metrics self ++ [metric])
    (_next_alias self) (_metric_names_to_aliases self) (_template_definitions self)
    (_committed self).

(** [MetricOrganizer.set] *)
Definition organizer_set (self : MetricOrganizer) (metric : Metric) (add_if_missing : bool)
  : MetricOrganizer * result unit :=
  let added :=
    match m_name metric with
    | Some n =>
        if add_if_missing && negb (dict_contains (_metrics self) n)
        then _add_metric self metric
        else OK (self, metric)
    | None => OK (self, metric)
    end in
  match added with
  | Raise e => (self, Raise e)
  | OK (self1, metric1) =>
      match _validate_metric self1 metric1 with
      | Raise e => (self1, Raise e)
      | OK _ => (append_uncommitted self1 metric1, OK tt)
      end
  end.

(** [MetricOrganizer.delete] *)
Definition delete (self : MetricOrganizer) (name : string) : MetricOrganizer :=
  if dict_contains (_metrics self) name
  then mkMetricOrganizer (dict_del (_metrics self) name)
         (List.filter (fun metric => negb (String.eqb (name_of metric) name))
            (_uncommitted_metrics self))
         (_next_alias self) (_metric_names_to_aliases self)
         (_template_definitions self) (_committed self)
  else self.

Definition _commit_metrics (self : MetricOrganizer) : MetricOrganizer :=
  mkMetricOrganizer
    (fold_left (fun acc metric => dict_set acc (name_of metric) metric)
       (_uncommitted_metrics self) (_metrics self))
    [] (_next_alias self) (_metric_names_to_aliases self)
    (_template_definitions self) (_committed self).

Definition _copy_with_alias (self : MetricOrganizer) (metric : Metric) : result Metric :=
  match m_name metric with
  | Some n =>
      match dict_get (_metric_names_to_aliases self) n with
      | Some a => OK (clear_name (set_alias a metric))
      | None => Raise (KeyError n)
      end
  | None => OK metric
  end.

Definition get_and_commit (self : MetricOrganizer) : MetricOrganizer * result (list Metric) :=
  match mapM (_copy_with_alias self) (_uncommitted_metrics self) with
  | OK rets => (_commit_metrics self, OK rets)
  | Raise e => (self, Raise e)
  end.

Definition get_all (self : MetricOrganizer) : MetricOrganizer * result (list Metric) :=
  let self' := _commit_metrics self in
  (self',
   mapM (fun kv =>
           match dict_get (_metric_names_to_aliases self') (fst kv) with
           | Some a => OK (set_alias a (set_name (fst kv) (snd kv)))
           | None => Raise (KeyError (fst kv))
           end) (_metrics self')).

Definition get_alias (self : MetricOrganizer) (name : string) : result Z :=
  match dict_get (_metric_names_to_aliases self) name with
  | Some a => OK a
  | None => Raise (TahuInterfaceError "No alias registered")
  end.

Definition get_name (self : MetricOrganizer) (alias : Z) : result string :=
  match dict_get (_metric_aliases_to_names self) alias with
  | Some n => OK n
  | None => Raise (TahuInterfaceError "No name for alias registered")
  end.

(** ** The server-side wire interface
    ([tahu_interface.py], class [TahuServerInterface]) *)

Record TahuServerInterface : Type := mkTahuServerInterface {
  _namespace : string;
  _group_id : option string;
  _edge_node_id : option string;
  _seq : Seq;
  _bdSeq : option Z;
  _is_born : bool;
  _templates : list (string * Template);
  _metric_organizers : gmap string MetricOrganizer
}.

(** [TahuServerInterface(group_id, edge_node_id, bdSeq)] *)
Definition TahuServerInterface_new (group_id edge_node_id : option string)
    (bdSeq : option Z) : TahuServerInterface :=
  mkTahuServerInterface DEFAULT_NAMESPACE group_id edge_node_id Seq_new bdSeq false []
    {[ "" := MetricOrganizer_new ]}.

Definition with_seq (self : TahuServerInterface) (s : Seq) : TahuServerInterface :=
  mkTahuServerInterface (_namespace self) (_group_id self) (_edge_node_id self) s
    (_bdSeq self) (_is_born self) (_templates self) (_metric_organizers self).
Definition with_bdSeq (self : TahuServerInterface) (b : option Z) : TahuServerInterface :=
  mkTahuServerInterface (_namespace self) (_group_id self) (_edge_node_id self)
    (_seq self) b (_is_born self) (_templates self) (_metric_organizers self).
Definition with_is_born (self : TahuServerInterface) (b : bool) : TahuServerInterface :=
  mkTahuServerInterface (_namespace self) (_group_id self) (_edge_node_id self)
    (_seq self) (_bdSeq self) b (_templates self) (_metric_organizers self).
Definition with_templates (self : TahuServerInterface) (t : list (string * Template))
  : TahuServerInterface :=
  mkTahuServerInterface (_namespace self) (_group_id self) (_edge_node_id self)
    (_seq self) (_bdSeq self) (_is_born self) t (_metric_organizers self).
Definition with_organizers (self : TahuServerInterface)
    (o : gmap string MetricOrganizer) : TahuServerInterface :=
  mkTahuServerInterface (_namespace self) (_group_id self) (_edge_node_id self)
    (_seq self) (_bdSeq self) (_is_born self) (_templates self) o.
Definition with_organizer (self : TahuServerInterface) (key : string)
    (o : MetricOrganizer) : TahuServerInterface :=
  with_organizers self (<[key := o]> (_metric_organizers self)).

Definition register_device (self : TahuServerInterface) (name : string)
  : TahuServerInterface :=
  with_organizer self name MetricOrganizer_new.

Definition unregister_device (self : TahuServerInterface) (name : string)
  : TahuServerInterface * result unit :=
  match _metric_organizers self !! name with
  | Some _ => (with_organizers self (base.delete name (_metric_organizers self)), OK tt)
  | None => (self, Raise (KeyError name))
  end.

Definition set_initial_node_metrics (self : TahuServerInterface) (metrics : list Metric)
  : TahuServerInterface * result unit :=
  if _is_born self
  then (self, Raise (TahuInterfaceError "Cannot set initial metrics after issuing BIRTH message"))
  else
    match _metric_organizers self !! "" with
    | None => (self, Raise (KeyError ""))
    | Some org =>
        match set_initial_metrics org metrics with
        | (org', OK templates) =>
            (with_templates (with_organizer self "" org')
               (dict_update (_templates self) templates), OK tt)
        | (org', Raise e) => (with_organizer self "" org', Raise e)
        end
    end.

Definition set_node_metric (self : TahuServerInterface) (metric : Metric)
    (add_if_missing : bool) : TahuServerInterface * result unit :=
  match _metric_organizers self !! "" with
  | None => (self, Raise (KeyError ""))
  | Some org =>
      let '(org', r) := organizer_set org metric add_if_missing in
      (with_organizer self "" org', r)
  end.

Definition del_node_metric (self : TahuServerInterface) (name : string)
  : TahuServerInterface * result unit :=
  match _metric_organizers self !! "" with
  | None => (self, Raise (KeyError ""))
  | Some org => (with_organizer self "" (delete org name), OK tt)
  end.

Definition register_device_class_metrics (self : TahuServerInterface)
    (metrics : list Metric) : TahuServerInterface * result unit :=
  match set_initial_metrics MetricOrganizer_new metrics with
  | (_, OK templates) =>
      (with_templates self (dict_update (_templates self) templates), OK tt)
  | (_, Raise e) => (self, Raise e)
  end.

Definition set_initial_device_metrics (self : TahuServerInterface) (device : string)
    (metrics : list Metric) : TahuServerInterface * result unit :=
  match _metric_organizers self !! device with
  | None => (self, Raise (KeyError device))
  | Some org =>
      match set_initial_metrics org metrics with
      | (org', OK templates) =>
          (with_templates (with_organizer self device org')
             (dict_update (_templates self) templates), OK tt)
      | (org', Raise e) => (with_organizer self device org', Raise e)
      end
  end.

Definition set_device_metric (self : TahuServerInterface) (device : string)
    (metric : Metric) : TahuServerInterface * result unit :=
  match _metric_organizers self !! device with
  | None => (self, Raise (KeyError device))
  | Some org =>
      let '(org', r) := organizer_set org metric false in
      (with_organizer self device org', r)
  end.

(** *** Payload construction.  Every builder that stamps its payload reads
    the clock; [now] is that reading, in milliseconds since the epoch. *)

(** [new_payload()] *)
Definition new_payload (now : Z) : Payload := mkPayload (Some now) None [].

Definition with_payload_seq (payload : Payload) (s : Z) : Payload :=
  mkPayload (p_timestamp payload) (Some s) (p_metrics payload).
Definition add_metrics_to_payload (metrics : list Metric) (payload : Payload) : Payload :=
  mkPayload (p_timestamp payload) (p_seq payload) (p_metrics payload ++ metrics).

(** [_fill_in_bdseq_metric(metric, timestamp)] on a fresh metric.  Storing
    the number in the unsigned 64-bit [long_value] field fails outside its
    range. *)
Definition _fill_in_bdseq_metric (self : TahuServerInterface) (timestamp : option Z)
  : result Metric :=
  match _bdSeq self with
  | None => Raise (TahuInterfaceError "bdSeq not set")
  | Some b =>
      if (0 <=? b) && (b <? 2 ^ 64)
      then OK (mkMetric (Some "bdSeq") None timestamp
                 (DataType.value DataType.UInt64) false false false
                 empty_PropertySet (scalar_value (long_value b)))
      else Raise (ValueError "Value out of range")
  end.

(** The metric that carries one template definition in an NBIRTH. *)
Definition template_definition_metric (timestamp : Z) (entry : string * Template) : Metric :=
  mkMetric (Some ("_types_/" ++ fst entry)) None (Some timestamp)
    (DataType.value DataType.Template) false false false
    empty_PropertySet (template_value (snd entry)).

Definition new_nbirth (self : TahuServerInterface) (now : Z)
  : TahuServerInterface * result Payload :=
  let self1 := with_is_born self true in
  let '(s, seq') := Seq_reset_and_advance (_seq self1) in
  let self2 := with_seq self1 seq' in
  let payload := with_payload_seq (new_payload now) s in
  match _fill_in_bdseq_metric self2 (Some now) with
  | Raise e => (self2, Raise e)
  | OK bdseq_metric =>
      match _metric_organizers self2 !! "" with
      | None => (self2, Raise (KeyError ""))
      | Some org =>
          let '(org', r) := get_all org in
          let self3 := with_organizer self2 "" org' in
          match r with
          | Raise e => (self3, Raise e)
          | OK node_metrics =>
              (self3,
               OK (add_metrics_to_payload
                     ([bdseq_metric] ++ node_metrics
                      ++ List.map (template_definition_metric now) (_templates self3))
                     payload))
          end
      end
  end.

(** [new_seq_payload()] *)
Definition new_seq_payload (self : TahuServerInterface) (now : Z)
  : TahuServerInterface * Payload :=
  let '(s, seq') := Seq_get_and_advance (_seq self) in
  (with_seq self seq', with_payload_seq (new_payload now) s).

Definition new_dbirth (self : TahuServerInterface) (device_id : string) (now : Z)
  : TahuServerInterface * result Payload :=
  if negb (_is_born self)
  then (self, Raise (TahuInterfaceError "First message issued must be an NBIRTH"))
  else
    match _metric_organizers self !! device_id with
    | None => (self, Raise (TahuInterfaceError "No device registered"))
    | Some org =>
        let '(self1, payload) := new_seq_payload self now in
        let '(org', r) := get_all org in
        let self2 := with_organizer self1 device_id org' in
        match r with
        | Raise e => (self2, Raise e)
        | OK metrics => (self2, OK (add_metrics_to_payload metrics payload))
        end
    end.

Definition new_ndeath (self : TahuServerInterface) : TahuServerInterface * result Payload :=
  match _fill_in_bdseq_metric self None with
  | Raise e => (self, Raise e)
  | OK metric => (self, OK (mkPayload None None [metric]))
  end.

Definition new_ddeath (self : TahuServerInterface) (now : Z)
  : TahuServerInterface * result Payload :=
  let '(self1, payload) := new_seq_payload self now in (self1, OK payload).

Definition new_ndata (self : TahuServerInterface) (now : Z)
  : TahuServerInterface * result Payload :=
  if negb (_is_born self)
  then (self, Raise (TahuInterfaceError "Must issue NBIRTH message before NDATA"))
  else
    let '(self1, payload) := new_seq_payload self now in
    match _metric_organizers self1 !! "" with
    | None => (self1, Raise (KeyError ""))
    | Some org =>
        let '(org', r) := get_and_commit org in
        let self2 := with_organizer self1 "" org' in
        match r with
        | Raise e => (self2, Raise e)
        | OK metrics => (self2, OK (add_metrics_to_payload metrics payload))
        end
    end.

Definition new_ddata (self : TahuServerInterface) (device_id : string) (now : Z)
  : TahuServerInterface * result Payload :=
  if negb (_is_born self)
  then (self, Raise (TahuInterfaceError "Must issue DBIRTH message before DDATA"))
  else
    match _metric_organizers self !! device_id with
    | None => (self, Raise (TahuInterfaceError "No device registered"))
    | Some org =>
        let '(self1, payload) := new_seq_payload self now in
        let '(org', r) := get_and_commit org in
        let self2 := with_organizer self1 device_id org' in
        match r with
        | Raise e => (self2, Raise e)
        | OK metrics => (self2, OK (add_metrics_to_payload metrics payload))
        end
    end.

(** *** Topic construction *)

(** ['/' in component] for an optional argument. *)
Definition has_slash (component : option string) : bool :=
  match component with
  | Some c => contains_char "/" c
  | None => false
  end.

Definition new_topic (self : TahuServerInterface) (namespace group_id : option string)
    (message_type : string) (edge_node_id device_id : option string) : result string :=
  if has_slash namespace then Raise (TahuInterfaceError "namespace may not contain a forward slash '/'")
  else if has_slash group_id then Raise (TahuInterfaceError "group_id may not contain a forward slash '/'")
  else if contains_char "/" message_type then Raise (TahuInterfaceError "message_type may not contain a forward slash '/'")
  else if has_slash edge_node_id then Raise (TahuInterfaceError "edge_node_id may not contain a forward slash '/'")
  else if has_slash device_id then Raise (TahuInterfaceError "device_id may not contain a forward slash '/'")
  else
    let namespace := match namespace with Some n => n | None => _namespace self end in
    match (match group_id with Some g => Some g | None => _group_id self end) with
    | None => Raise (TahuInterfaceError "group_id must be provided either in constructor or when creating a topic")
    | Some group_id =>
        match (match edge_node_id with Some n => Some n | None => _edge_node_id self end) with
        | None => Raise (TahuInterfaceError "edge_node_id must be provided either in constructor or when creating a topic")
        | Some edge_node_id =>
            let node_topic := namespace ++ "/" ++ group_id ++ "/" ++ message_type
                              ++ "/" ++ edge_node_id in
            match device_id with
            | Some d => OK (node_topic ++ "/" ++ d)
            | None => OK node_topic
            end
        end
    end.

Definition new_nbirth_topic (self : TahuServerInterface) : result string :=
  new_topic self None None "NBIRTH" None None.
Definition new_ndata_topic (self : TahuServerInterface) : result string :=
  new_topic self None None "NDATA" None None.
Definition new_dbirth_topic (self : TahuServerInterface) (device_id : string)
  : result string :=
  if String.eqb device_id ""
  then Raise (TahuInterfaceError "Please provide a device_id for the DBIRTH topic")
  else new_topic self None None "DBIRTH" None (Some device_id).
Definition new_ddata_topic (self : TahuServerInterface) (device_id : string)
  : result string :=
  new_topic self None None "DDATA" None (Some device_id).

(** *** Runs of the organizer and of the interface

    A caller drives an object by a sequence of method calls.  A call that
    raises leaves the object as the method left it and the caller goes on
    (the exception is caught); the values the calls return are collected in
    order. *)

Inductive OrganizerCall : Type :=
| Org_set_initial_metrics (metrics : list Metric)
| Org_set (metric : Metric) (add_if_missing : bool)
| Org_delete (name : string)
| Org_get_and_commit
| Org_get_all.

Definition organizer_step (self : MetricOrganizer) (c : OrganizerCall) : MetricOrganizer :=
  match c with
  | Org_set_initial_metrics metrics => fst (set_initial_metrics self metrics)
  | Org_set metric add_if_missing => fst (organizer_set self metric add_if_missing)
  | Org_delete name => delete self name
  | Org_get_and_commit => fst (get_and_commit self)
  | Org_get_all => fst (get_all self)
  end.

Definition organizer_run (self : MetricOrganizer) (calls : list OrganizerCall)
  : MetricOrganizer :=
  fold_left organizer_step calls self.

Inductive Call : Type :=
| Register_device (name : string)
| Unregister_device (name : string)
| Set_initial_node_metrics (metrics : list Metric)
| Set_node_metric (metric : Metric) (add_if_missing : bool)
| Del_node_metric (name : string)
| Register_device_class_metrics (metrics : list Metric)
| Set_initial_device_metrics (device : string) (metrics : list Metric)
| Set_device_metric (device : string) (metric : Metric)
| Set_bdSeq (value : option Z)
| New_nbirth (now : Z)
| New_dbirth (device_id : string) (now : Z)
| New_ndeath
| New_ddeath (now : Z)
| New_ndata (now : Z)
| New_ddata (device_id : string) (now : Z).

Inductive MessageKind : Type := NBIRTH | DBIRTH | NDEATH | DDEATH | NDATA | DDATA.

Definition emitted (kind : MessageKind) (r : TahuServerInterface * result Payload)
  : TahuServerInterface * option (MessageKind * Payload) :=
  match r with
  | (self', OK payload) => (self', Some (kind, payload))
  | (self', Raise _) => (self', None)
  end.

Definition silent (r : TahuServerInterface * result unit)
  : TahuServerInterface * option (MessageKind * Payload) :=
  (fst r, None).

Definition step (self : TahuServerInterface) (c : Call)
  : TahuServerInterface * option (MessageKind * Payload) :=
  match c with
  | Register_device name => (register_device self name, None)
  | Unregister_device name => silent (unregister_device self name)
  | Set_initial_node_metrics metrics => silent (set_initial_node_metrics self metrics)
  | Set_node_metric metric add_if_missing =>
      silent (set_node_metric self metric add_if_missing)
  | Del_node_metric name => silent (del_node_metric self name)
  | Register_device_class_metrics metrics =>
      silent (register_device_class_metrics self metrics)
  | Set_initial_device_metrics device metrics =>
      silent (set_initial_device_metrics self device metrics)
  | Set_device_metric device metric => silent (set_device_metric self device metric)
  | Set_bdSeq value => (with_bdSeq self value, None)
  | New_nbirth now => emitted NBIRTH (new_nbirth self now)
  | New_dbirth device_id now => emitted DBIRTH (new_dbirth self device_id now)
  | New_ndeath => emitted NDEATH (new_ndeath self)
  | New_ddeath now => emitted DDEATH (new_ddeath self now)
  | New_ndata now => emitted NDATA (new_ndata self now)
  | New_ddata device_id now => emitted DDATA (new_ddata self device_id now)
  end.

Fixpoint run (self : TahuServerInterface) (calls : list Call)
  : TahuServerInterface * list (MessageKind * Payload) :=
  match calls with
  | [] => (self, [])
  | c :: rest =>
      let '(self1, out) := step self c in
      let '(self2, outs) := run self1 rest in
      (self2, match out with Some o => o :: outs | None => outs end)
  end.


Definition is_New_nbirth (c : Call) : bool :=
  match c with New_nbirth _ => true | _ => false end.


(** ** The server engine ([server_engine.py]) *)

(** The part of a node or device ([server_endpoint_base.py]) the engine's
    publication step reads: the values the metric descriptors hold now, the
    values last reported ([_metric_dict], by internal name), the network name
    of each metric, and the birth-certificate flag. *)
Record ServerEndpoint : Type := mkServerEndpoint {
  ep_device_id : string;
  ep_current : list (string * IcypawValue);
  ep_metric_dict : list (string * IcypawValue);
  ep_network_name : string -> string;
  _fresh_birth_certificate : bool
}.

Definition with_metric_dict (e : ServerEndpoint) (d : list (string * IcypawValue))
  : ServerEndpoint :=
  mkServerEndpoint (ep_device_id e) (ep_current e) d (ep_network_name e)
    (_fresh_birth_certificate e).

Definition icpw_make_birth_certificate_fresh (e : ServerEndpoint) : ServerEndpoint :=
  mkServerEndpoint (ep_device_id e) (ep_current e) (ep_metric_dict e)
    (ep_network_name e) true.

(** The loop of [icpw_updated_metrics] over the items of [_metric_dict]:
    [acc] is the dictionary being returned, [snapshot] the [_metric_dict]
    being refreshed. *)
Fixpoint updated_metrics_loop (e : ServerEndpoint) (items : list (string * IcypawValue))
    (snapshot : list (string * IcypawValue))
    (acc : list (string * (IcypawValue * IcypawValue)))
  : list (string * IcypawValue) * result (list (string * (IcypawValue * IcypawValue))) :=
  match items with
  | [] => (snapshot, OK acc)
  | (key, old_value) :: rest =>
      match dict_get (ep_current e) key with
      | None => (snapshot, Raise (IcypawException "No such metric"))
      | Some curr_value =>
          if negb (icpw_eq old_value curr_value)
          then updated_metrics_loop e rest (dict_set snapshot key curr_value)
                 (dict_set acc (ep_network_name e key) (curr_value, old_value))
          else updated_metrics_loop e rest snapshot acc
      end
  end.

Definition icpw_updated_metrics (e : ServerEndpoint)
  : ServerEndpoint * result (list (string * (IcypawValue * IcypawValue))) :=
  let '(snapshot, r) :=
    updated_metrics_loop e (ep_metric_dict e) (ep_metric_dict e) [] in
  (with_metric_dict e snapshot, r).

Record DeviceState : Type := mkDeviceState {
  ds_device : ServerEndpoint;
  ds_bdSeq : Z;
  ds_is_up : bool
}.

Inductive ItemPayload (F : Type) : Type :=
| SchedulePayload (func : F) (repeat_sec : option float)
| RegisterDevicePayload (device_id : string)
| UnregisterDevicePayload (device_id : string)
| NodeRebirthPayload.
Arguments SchedulePayload {F}.
Arguments RegisterDevicePayload {F}.
Arguments UnregisterDevicePayload {F}.
Arguments NodeRebirthPayload {F}.

Record QueueItem (F : Type) : Type := mkQueueItem {
  item_time : float;
  item_payload : ItemPayload F
}.
Arguments mkQueueItem {F}.
Arguments item_time {F}.
Arguments item_payload {F}.

(** One call of [self._mqtt_client.publish(topic, payload, qos=, retain=)]. *)
Record Publication : Type := mkPublication {
  pub_topic : string;
  pub_payload : Payload + string;
  pub_qos : Z;
  pub_retain : bool
}.

(** The engine.  [F] names the functions user code schedules; the clock is
    the stream [clock] of readings of [time.time()] in milliseconds, of which
    [ticks] have been consumed; [published] lists the calls made to the MQTT
    client. *)
Record ServerEngine (F : Type) : Type := mkServerEngine {
  _iface : TahuServerInterface;
  _node : ServerEndpoint;
  _devices : list (string * DeviceState);
  _scheduled_events : list (float * QueueItem F);
  published : list Publication;
  ticks : nat
}.
Arguments mkServerEngine {F}.
Arguments _iface {F}.
Arguments _node {F}.
Arguments _devices {F}.
Arguments _scheduled_events {F}.
Arguments published {F}.
Arguments ticks {F}.

Definition MQTT_ERR_SUCCESS : Z := 0.
Definition MQTT_ERR_NO_CONN : Z := 4.

Section Engine.
(** What the engine is given: the host, the clock, the functions user code
    schedules (each may change the engine's world and may raise), the MQTT
    client's answer to a publish call, [heapq.heappush], and the wire
    rendering of an endpoint's metrics and commands
    ([tahu_metrics(with_properties=True) + tahu_commands(with_properties=True)],
    built by the descriptors). *)
Context (host : Host) (clock : nat -> Z) {F : Type}.
Context (run_func : F -> ServerEngine F -> ServerEngine F * result unit).
Context (mqtt_rc : list Publication -> Publication -> Z).
Context (heappush : list (float * QueueItem F) -> float * QueueItem F
                    -> list (float * QueueItem F)).
Context (tahu_birth_metrics : ServerEndpoint -> list Metric).

(** Engine actions: state passing with exceptions. *)
Definition Action (A : Type) : Type := ServerEngine F -> ServerEngine F * result A.

Definition ret {A : Type} (a : A) : Action A := fun st => (st, OK a).
Definition throw {A : Type} (e : exn) : Action A := fun st => (st, Raise e).
Definition andThen {A B : Type} (m : Action A) (k : A -> Action B) : Action B :=
  fun st => match m st with
            | (st', OK a) => k a st'
            | (st', Raise e) => (st', Raise e)
            end.
Definition lift {A : Type} (r : result A) : Action A := fun st => (st, r).

Notation "x <-- m ;; k" := (andThen m (fun x => k))
  (at level 100, m at next level, right associativity).

Definition time_time : Action Z :=
  fun st => (mkServerEngine (_iface st) (_node st) (_devices st)
               (_scheduled_events st) (published st) (S (ticks st)),
             OK (clock (ticks st))).

Definition on_iface {A : Type}
    (f : TahuServerInterface -> TahuServerInterface * result A) : Action A :=
  fun st => let '(i, r) := f (_iface st) in
            (mkServerEngine i (_node st) (_devices st) (_scheduled_events st)
               (published st) (ticks st), r).

Definition set_node (n : ServerEndpoint) : Action unit :=
  fun st => (mkServerEngine (_iface st) n (_devices st) (_scheduled_events st)
               (published st) (ticks st), OK tt).

Definition set_device_state (device_id : string) (d : DeviceState) : Action unit :=
  fun st => (mkServerEngine (_iface st) (_node st) (dict_set (_devices st) device_id d)
               (_scheduled_events st) (published st) (ticks st), OK tt).

(** [publish(topic, payload, qos, retain)] *)
Definition publish (topic : string) (payload : Payload + string) (qos : Z)
    (retain : bool) : Action unit :=
  fun st =>
    let pub := mkPublication topic payload qos retain in
    let rc := mqtt_rc (published st) pub in
    let st' := mkServerEngine (_iface st) (_node st) (_devices st)
                 (_scheduled_events st) (published st ++ [pub]) (ticks st) in
    if rc =? MQTT_ERR_SUCCESS then (st', OK tt)
    else if rc =? MQTT_ERR_NO_CONN then (st', OK tt)
    else (st', Raise (IcypawEngineError "MQTT error")).

(** [new_metric()]: a metric stamped with the current time and an empty
    property set. *)
Definition new_metric : Action Metric :=
  now <-- time_time ;; ret (set_timestamp now Metric_new).

(** The loop of [_create_updated_endpoint_metric_payload] that renders the
    changed metrics. *)
Fixpoint render_updates (icpw_metrics : list (string * IcypawValue))
  : Action (list Metric) :=
  match icpw_metrics with
  | [] => ret []
  | (name, icpw_metric) :: rest =>
      tahu_metric <-- new_metric ;;
      m <-- lift (set_in_metric host icpw_metric (set_name name tahu_metric)) ;;
      ms <-- render_updates rest ;;
      ret (m :: ms)
  end.

(** Endpoints are objects the engine refers to: the node ([None]) or the
    device registered under an id. *)
Definition endpoint_at (loc : option string) (st : ServerEngine F)
  : option ServerEndpoint :=
  match loc with
  | None => Some (_node st)
  | Some device_id =>
      match dict_get (_devices st) device_id with
      | Some d => Some (ds_device d)
      | None => None
      end
  end.

Definition store_endpoint (loc : option string) (e : ServerEndpoint) : Action unit :=
  fun st =>
    match loc with
    | None => set_node e st
    | Some device_id =>
        match dict_get (_devices st) device_id with
        | Some d => set_device_state device_id
                      (mkDeviceState e (ds_bdSeq d) (ds_is_up d)) st
        | None => (st, Raise (KeyError device_id))
        end
    end.

(** [_create_updated_endpoint_metric_payload(endpoint)] *)
Definition _create_updated_endpoint_metric_payload (loc : option string)
  : Action (option Payload) :=
  fun st =>
    match endpoint_at loc st with
    | None => (st, Raise (KeyError "device"))
    | Some endpoint =>
        let '(endpoint', r) := icpw_updated_metrics endpoint in
        (_ <-- store_endpoint loc endpoint' ;;
         updated <-- lift r ;;
         let icpw_metrics := List.map (fun kv => (fst kv, fst (snd kv))) updated in
         match icpw_metrics with
         | [] => ret None
         | _ =>
             now <-- time_time ;;
             tahu_metrics <-- render_updates icpw_metrics ;;
             ret (Some (add_metrics_to_payload tahu_metrics (new_payload now)))
         end) st
    end.

Fixpoint for_each {A : Type} (f : A -> Action unit) (l : list A) : Action unit :=
  match l with
  | [] => ret tt
  | x :: rest => _ <-- f x ;; for_each f rest
  end.

(** [list_node_metric_names()] *)
Definition list_node_metric_names (self : TahuServerInterface)
  : TahuServerInterface * result (list string) :=
  match _metric_organizers self !! "" with
  | None => (self, Raise (KeyError ""))
  | Some org =>
      let '(org', r) := get_all org in
      (with_organizer self "" org',
       match r with
       | OK metrics => OK (List.map name_of metrics)
       | Raise e => Raise e
       end)
  end.

Definition _rebirth_node : Action unit :=
  fun st =>
    let all_tahu_metrics := tahu_birth_metrics (_node st) in
    (_ <-- for_each (fun metric => on_iface (fun i => set_node_metric i metric true))
             all_tahu_metrics ;;
     names <-- on_iface list_node_metric_names ;;
     let metric_names := List.map name_of all_tahu_metrics in
     let removed :=
       List.filter (fun name => negb (existsb (String.eqb name) metric_names)) names in
     _ <-- for_each (fun name => on_iface (fun i => del_node_metric i name)) removed ;;
     now <-- time_time ;;
     nbirth <-- on_iface (fun i => new_nbirth i now) ;;
     nbirth_topic <-- (fun st => (st, new_nbirth_topic (_iface st))) ;;
     publish nbirth_topic (inl nbirth) 1 true) st.

Definition _publish_node_metric_updates : Action unit :=
  fun st =>
    if _fresh_birth_certificate (_node st)
    then
      (node_payload <-- _create_updated_endpoint_metric_payload None ;;
       match node_payload with
       | Some p =>
           node_topic <-- (fun st => (st, new_ndata_topic (_iface st))) ;;
           publish node_topic (inl p) 1 false
       | None => ret tt
       end) st
    else
      (_ <-- _rebirth_node ;;
       fun st => set_node (icpw_make_birth_certificate_fresh (_node st)) st) st.

Definition _rebirth_device (device_id : string) : Action unit :=
  fun st =>
    match endpoint_at (Some device_id) st with
    | None => (st, Raise (KeyError device_id))
    | Some device =>
        (_ <-- for_each (fun metric =>
                           on_iface (fun i => set_device_metric i device_id metric))
                 (tahu_birth_metrics device) ;;
         now <-- time_time ;;
         dbirth <-- on_iface (fun i => new_dbirth i device_id now) ;;
         dbirth_topic <-- (fun st => (st, new_dbirth_topic (_iface st) device_id)) ;;
         publish dbirth_topic (inl dbirth) 1 true) st
    end.

(** The body of the loop of [_publish_device_metric_updates]. *)
Definition publish_one_device (device_id : string) : Action unit :=
  fun st =>
    match endpoint_at (Some device_id) st with
    | None => (st, Raise (KeyError device_id))
    | Some device =>
        if _fresh_birth_certificate device
        then
          (device_payload <-- _create_updated_endpoint_metric_payload (Some device_id) ;;
           match device_payload with
           | Some p =>
               device_topic <--
                 (fun st => (st, new_ddata_topic (_iface st) (ep_device_id device))) ;;
               publish device_topic (inl p) 1 false
           | None => ret tt
           end) st
        else
          (_ <-- _rebirth_device device_id ;;
           fun st =>
             match endpoint_at (Some device_id) st with
             | None => (st, Raise (KeyError device_id))
             | Some d =>
                 store_endpoint (Some device_id)
                   (icpw_make_birth_certificate_fresh d) st
             end) st
    end.

Definition _publish_device_metric_updates : Action unit :=
  fun st => for_each publish_one_device (dict_keys (_devices st)) st.

Definition _publish_metric_updates : Action unit :=
  _ <-- _publish_node_metric_updates ;; _publish_device_metric_updates.

(** The [try] block of [_process_ScheduleQueueItem]. *)
Definition schedule_body (time : float) (func : F) (repeat_sec : option float)
  : Action unit :=
  _ <-- run_func func ;;
  match repeat_sec with
  | Some r =>
      fun st =>
        let new_time := PrimFloat.add time r in
        let new_item := mkQueueItem new_time (SchedulePayload func (Some r)) in
        (mkServerEngine (_iface st) (_node st) (_devices st)
           (heappush (_scheduled_events st) (new_time, new_item))
           (published st) (ticks st), OK tt)
  | None => ret tt
  end.

(** [try: ... finally: self._publish_metric_updates()]: the [finally] block
    runs on the state the [try] block left, whether it raised or not; the
    exception of the [try] block propagates unless the [finally] block
    raises one of its own. *)
Definition try_finally {A : Type} (body : Action A) (final : Action unit) : Action A :=
  fun st =>
    let '(st1, r1) := body st in
    match final st1 with
    | (st2, OK _) => (st2, r1)
    | (st2, Raise e) => (st2, Raise e)
    end.

Definition _process_ScheduleQueueItem (time : float) (func : F)
    (repeat_sec : option float) : Action unit :=
  try_finally (schedule_body time func repeat_sec) _publish_metric_updates.
End Engine.

(** A publication is a data message when its topic parses to the message
    type NDATA or DDATA. *)
Definition is_data_topic (t : string) : bool :=
  match parse_topic t with
  | OK tp => String.eqb (message_type tp) "NDATA" || String.eqb (message_type tp) "DDATA"
  | Raise _ => false
  end.

(** ** The client facade ([client.py]) *)

(** A component of a [ClientEndpointName]: absent, the wildcard [any], or a
    name. *)
Inductive NameComponent : Type :=
| comp_None
| comp_any
| comp_str (s : string).

Record ClientEndpointName : Type := mkClientEndpointName {
  cen_group_id : NameComponent;
  cen_edge_node_id : NameComponent;
  cen_device_id : NameComponent
}.

Definition _validate_and_normalize (field : NameComponent) : result NameComponent :=
  match field with
  | comp_str s =>
      if String.eqb s "#" || String.eqb s "+" || String.eqb s "*" then OK comp_any
      else if contains_char "#" s || contains_char "+" s || contains_char "*" s
      then Raise (ValueError "ClientEndpointName component may not contain a wildcard unless it is the only character")
      else OK field
  | _ => OK field
  end.

(** [ClientEndpointName(topic)] for a topic object: the three components are
    read from the object's attributes; a [StateTopic] has none of them. *)
Definition ClientEndpointName_of_topic (tp : Topic) : result ClientEndpointName :=
  match tp with
  | NodeTopic _ g _ n =>
      do g' <- _validate_and_normalize (comp_str g);
      do n' <- _validate_and_normalize (comp_str n);
      OK (mkClientEndpointName g' n' comp_None)
  | DeviceTopic _ g _ n d =>
      do g' <- _validate_and_normalize (comp_str g);
      do n' <- _validate_and_normalize (comp_str n);
      do d' <- _validate_and_normalize (comp_str d);
      OK (mkClientEndpointName g' n' d')
  | StateTopic _ =>
      Raise (TypeError "ClientEndpointName argument must be a string or tuple")
  end.

Inductive Event : Type := ONLINE | OFFLINE | METRIC_UPDATE.

(** A message as the MQTT client delivers it. *)
Record MQTTMessage : Type := mkMQTTMessage {
  msg_topic : string;
  msg_payload : string
}.

(** The client: the fingerprint of the last message seen on each topic, and
    the rest of its data (the endpoint table, the subscriptions, the alias
    maps), which only the handlers touch. *)
Record IcypawClient (D : Type) : Type := mkIcypawClient {
  _seen_messages : gmap string (Z * Z);
  _client_data : D
}.
Arguments mkIcypawClient {D}.
Arguments _seen_messages {D}.
Arguments _client_data {D}.

Section Client.
(** What the de-duplication step is given: the protobuf decoder and the
    handlers it routes to ([_on_birth], [_on_death], [_on_data] update the
    endpoint table, [_route_message_to_user] calls the user's
    callbacks). *)
Context {D : Type}.
Context (ParseFromString : string -> result Payload).
Context (_on_birth _on_death _on_data
         : Topic -> ClientEndpointName -> Payload -> D -> D * result unit).
Context (_route_message_to_user
         : Event -> Topic -> ClientEndpointName -> Payload -> D -> D * result unit).

Definition in_list (s : string) (l : list string) : bool := existsb (String.eqb s) l.

(** The part of [_on_message_no_try] after the de-duplication. *)
Definition route_message (tp : Topic) (endpoint_name : ClientEndpointName)
    (payload : Payload) (data : D) : D * result unit :=
  let mt := message_type tp in
  let '(data1, r1) :=
    if in_list mt ["NBIRTH"; "DBIRTH"] then _on_birth tp endpoint_name payload data
    else if in_list mt ["NDEATH"; "DDEATH"] then _on_death tp endpoint_name payload data
    else if String.eqb mt "NDATA" || String.eqb mt "DDATA"
         then _on_data tp endpoint_name payload data
         else (data, OK tt) in
  match r1 with
  | Raise e => (data1, Raise e)
  | OK _ =>
      let event :=
        if in_list mt ["NDATA"; "DDATA"] then Some METRIC_UPDATE
        else if in_list mt ["NDEATH"; "DDEATH"] then Some OFFLINE
        else if in_list mt ["NBIRTH"; "DBIRTH"] then Some ONLINE
        else None in
      match event with
      | Some ev => _route_message_to_user ev tp endpoint_name payload data1
      | None => (data1, Raise (UserError "UnboundLocalError: event"))
      end
  end.

Definition _on_message_no_try (self : IcypawClient D) (message : MQTTMessage)
  : IcypawClient D * result unit :=
  if String.eqb (msg_payload message) "" then (self, OK tt)
  else
    match parse_topic (msg_topic message) with
    | Raise e => (self, Raise e)
    | OK tp =>
        match ClientEndpointName_of_topic tp with
        | Raise e => (self, Raise e)
        | OK endpoint_name =>
            match ParseFromString (msg_payload message) with
            | Raise e => (self, Raise e)
            | OK payload =>
                let go (seen : gmap string (Z * Z)) :=
                  let '(data, r) :=
                    route_message tp endpoint_name payload (_client_data self) in
                  (mkIcypawClient seen data, r) in
                match p_timestamp payload, p_seq payload with
                | Some ts, Some sq =>
                    let fingerprint := (ts, sq) in
                    match _seen_messages self !! msg_topic message with
                    | Some seen_fp =>
                        if (fst seen_fp =? ts) && (snd seen_fp =? sq)
                        then (self, OK tt)
                        else go (<[msg_topic message := fingerprint]>
                                   (_seen_messages self))
                    | None => go (<[msg_topic message := fingerprint]>
                                    (_seen_messages self))
                    end
                | _, _ => go (_seen_messages self)
                end
            end
        end
    end.

(** [_on_message]: exceptions are logged and swallowed. *)
Definition _on_message (self : IcypawClient D) (message : MQTTMessage)
  : IcypawClient D :=
  fst (_on_message_no_try self message).

(** The client receiving a sequence of messages. *)
Definition receive (self : IcypawClient D) (messages : list MQTTMessage)
  : IcypawClient D :=
  fold_left _on_message messages self.
End Client.

(** The scenario of the specification: births and deaths alternate with
    bdSeq 254, 255, 0, 1; the verdict follows each message across the
    wrap. *)
Definition bdSeq_message (b : Z) : Payload :=
  mkPayload None None
    [mkMetric (Some "bdSeq") None None (DataType.value DataType.UInt64)
       false false false empty_PropertySet (scalar_value (long_value b))].

(** The fields of a topic string with the message type (the third field)
    in upper case. *)
Definition upper_message_type (fields : list string) : list string :=
  match fields with
  | namespace :: group_id :: message_type :: rest =>
      namespace :: group_id :: upper message_type :: rest
  | _ => fields
  end.

Definition is_StateTopic (tp : Topic) : bool :=
  match tp with StateTopic _ => true | _ => false end.

(** The alias table of an organizer is sound when no alias is bound twice
    and every alias is below the next one to hand out. *)
Definition aliases_ok (self : MetricOrganizer) : Prop :=
  NoDup (List.map snd (_metric_names_to_aliases self))
  /\ Forall (fun a => a < _next_alias self) (List.map snd (_metric_names_to_aliases self)).

(** A named Int64 metric, for the examples. *)
Definition example_metric (n : string) (z : Z) : Metric :=
  mkMetric (Some n) None None (DataType.value DataType.Int64) false false false
    empty_PropertySet (scalar_value (long_value z)).


(** An entry of a template table that [_make_template_definition] produced
    from some template instance, under the instance's reference. *)
Definition made_from_instance (entry : string * Template) : Prop :=
  exists instance : Template,
    _make_template_definition instance = (snd entry, fst entry).

Definition organizer_templates_ok (self : MetricOrganizer) : Prop :=
  Forall made_from_instance (_template_definitions self).

Definition templates_ok (self : TahuServerInterface) : Prop :=
  Forall made_from_instance (_templates self)
  /\ map_Forall (fun _ org => organizer_templates_ok org) (_metric_organizers self).





(** The record of the partial-update scenario: [foo{x: Int64, y: String}]
    holding [{x: 7, y: "hello"}], and a data message that carries [x = 9]
    only. *)
Definition example_foo_class : IcypawClass :=
  struct_class "foo" [("x", (scalar_class cInt64, None)); ("y", (scalar_class cString, None))].

Definition example_foo_entry : ClientEndpointMetric :=
  mkClientEndpointMetric "foo"
    (Some (Struct "foo" [("x", Scalar (Int64 7)); ("y", Scalar (String_ "hello"))]))
    example_foo_class (Some 0) empty_PropertySet false false false false.

Definition example_foo_update : Metric :=
  mkMetric None (Some 0) None (DataType.value DataType.Template) false false false
    empty_PropertySet
    (template_value (mkTemplate [example_metric "x" 9] (Some "foo") None)).

(** A host in the UTC zone whose clock reads the epoch, with exact
    millisecond arithmetic, for the examples. *)
Definition example_host : Host :=
  mkHost (mkdatetime 0 None) (fun us => us / 1000) (fun ms => OK (ms * 1000)) (fun _ => 0).

(** The field check of [well_typed], as a function of its own. *)
Fixpoint fields_well_typed (fields : list (string * IcypawValue))
    (decls : list (string * (IcypawClass * option IcypawValue))) : bool :=
  match fields, decls with
  | [], [] => true
  | f :: fields', d :: decls' =>
      String.eqb (fst f) (fst d)
      && well_typed (snd f) (fst (snd d))
      && fields_well_typed fields' decls'
  | _, _ => false
  end.

(** The fields of a record, the declarations of its class and the submetrics
    of its encoding, side by side: each submetric goes by the field's name
    and merging it into any value of the field's type gives the field's
    value. *)
Inductive aligned (host : Host)
  : list (string * IcypawValue) -> list (string * (IcypawClass * option IcypawValue))
    -> list Metric -> Prop :=
| aligned_nil : aligned host [] [] []
| aligned_cons f d m fields decls metrics :
    fst f = fst d ->
    m_name m = Some (fst f) ->
    (forall v0, well_typed v0 (fst (snd d)) = true ->
                merge_with_metric host m v0 = OK (snd f)) ->
    aligned host fields decls metrics ->
    aligned host (f :: fields) (d :: decls) (m :: metrics).

(** A client for the examples: its data is the log of the fingerprints
    handed to the user's callbacks, the table handlers do nothing, and the
    decoder reads the payload bytes ["A"] as a message stamped (1, 0) and any
    other bytes as one stamped (2, 1). *)
Definition example_decoder (bytes : string) : result Payload :=
  if String.eqb bytes "A" then OK (mkPayload (Some 1) (Some 0) [])
  else OK (mkPayload (Some 2) (Some 1) []).

Definition example_table_handler (tp : Topic) (name : ClientEndpointName)
    (payload : Payload) (log : list (option Z * option Z))
  : list (option Z * option Z) * result unit :=
  (log, OK tt).

Definition example_user_route (ev : Event) (tp : Topic) (name : ClientEndpointName)
    (payload : Payload) (log : list (option Z * option Z))
  : list (option Z * option Z) * result unit :=
  ((log ++ [(p_timestamp payload, p_seq payload)])%list, OK tt).

Definition example_receive (messages : list MQTTMessage) : list (option Z * option Z) :=
  _client_data
    (receive example_decoder example_table_handler example_table_handler
       example_table_handler example_user_route (mkIcypawClient ∅ []) messages).

(** The topic components the interface holds itself (its namespace, and
    the group and node ids given to the constructor) contain no slash. *)
Definition slash_free_ids (self : TahuServerInterface) : bool :=
  negb (contains_char "/" (_namespace self))
  && negb (has_slash (_group_id self))
  && negb (has_slash (_edge_node_id self)).

(** A publication that goes to a data topic carries a payload with at least
    one metric. *)
Definition data_message_has_metrics (pub : Publication) : Prop :=
  is_data_topic (pub_topic pub) = true ->
  exists p, pub_payload pub = inl p /\ p_metrics p <> [].

(** No metric of the endpoint differs from the value last reported. *)
Definition unchanged (e : ServerEndpoint) : bool :=
  forallb (fun kv => match dict_get (ep_current e) (fst kv) with
                     | Some curr_value => icpw_eq (snd kv) curr_value
                     | None => false
                     end) (ep_metric_dict e).

(** The node and every device hold a fresh birth certificate and no changed
    metric. *)
Definition quiet {F : Type} (st : ServerEngine F) : Prop :=
  _fresh_birth_certificate (_node st) = true
  /\ unchanged (_node st) = true
  /\ forall device_id d, dict_get (_devices st) device_id = Some d ->
       _fresh_birth_certificate (ds_device d) = true
       /\ unchanged (ds_device d) = true.

(** The outcome [out] of an engine action started in [st]: the interface's
    ids are still free of slashes, the publications of [st] are all there,
    the added ones are well formed, and the value returned satisfies [Q]. *)
Definition extends_well {F A : Type} (st : ServerEngine F)
    (out : ServerEngine F * result A) (Q : A -> Prop) : Prop :=
  slash_free_ids (_iface (fst out)) = true
  /\ (exists new, published (fst out) = (published st ++ new)%list
                  /\ Forall data_message_has_metrics new)
  /\ (forall a, snd out = OK a -> Q a).

Definition publishes_well {F A : Type} (m : ServerEngine F -> ServerEngine F * result A)
    (Q : A -> Prop) : Prop :=
  forall st, slash_free_ids (_iface st) = true -> extends_well st (m st) Q.

(** An engine for the examples: node [N] of group [G] with one metric [x]
    that last reported 7, a host clock that counts milliseconds, an MQTT
    client that accepts every message, and two scheduled functions that set
    [x] to 8: [true] then raises, [false] returns. *)
Definition example_node : ServerEndpoint :=
  mkServerEndpoint "" [("x", Scalar (Int64 7))] [("x", Scalar (Int64 7))] (fun key => key) true.

Definition example_engine : ServerEngine bool :=
  mkServerEngine (TahuServerInterface_new (Some "G") (Some "N") (Some 0))
    example_node [] [] [] 0.

Definition example_run_func (raises : bool) (st : ServerEngine bool)
  : ServerEngine bool * result unit :=
  let node :=
    mkServerEndpoint (ep_device_id (_node st))
      (dict_set (ep_current (_node st)) "x" (Scalar (Int64 8)))
      (ep_metric_dict (_node st)) (ep_network_name (_node st))
      (_fresh_birth_certificate (_node st)) in
  (mkServerEngine (_iface st) node (_devices st) (_scheduled_events st)
     (published st) (ticks st),
   if raises then Raise (UserError "scheduled function failed") else OK tt).

Definition example_mqtt_rc (sent : list Publication) (pub : Publication) : Z :=
  MQTT_ERR_SUCCESS.

Definition example_heappush (heap : list (float * QueueItem bool))
    (event : float * QueueItem bool) : list (float * QueueItem bool) :=
  (heap ++ [event])%list.

Definition example_process (raises : bool) : ServerEngine bool * result unit :=
  _process_ScheduleQueueItem example_host Z.of_nat example_run_func example_mqtt_rc
    example_heappush (fun _ => []) 0%float raises None example_engine.

(** ** Naming conventions ([conventions.py]).  Metric names are ASCII. *)

Definition COMMAND_PREFIX : string := "command".
Definition TEMPLATE_DEFINITION_PREFIX : string := "_types_".
Definition BDSEQ : string := "bdSeq".

Definition is_bdseq (metric_name : string) : bool := String.eqb metric_name BDSEQ.

(** [fields[0].lower() == prefix] for [fields = metric_name.split('/')];
    [split] never returns an empty list. *)
Definition first_field_is (prefix : string) (metric_name : string) : bool :=
  match split "/" metric_name with
  | field0 :: _ => String.eqb (lower field0) prefix
  | [] => false
  end.

Definition is_command (metric_name : string) : bool :=
  first_field_is COMMAND_PREFIX metric_name.

Definition is_template_definition (metric_name : string) : bool :=
  first_field_is TEMPLATE_DEFINITION_PREFIX metric_name.

Definition is_metric (metric_name : string) : bool :=
  negb (is_bdseq metric_name) && negb (is_command metric_name)
  && negb (is_template_definition metric_name).

Definition make_command (base_name : string) : string :=
  join "/" [COMMAND_PREFIX; base_name].

Definition make_template_definition (base_name : string) : string :=
  join "/" [TEMPLATE_DEFINITION_PREFIX; base_name].

(** [assert fields[0] == prefix; return '/'.join(fields[1:])] *)
Definition base_name_after (prefix : string) (metric_name : string) : result string :=
  match split "/" metric_name with
  | field0 :: rest =>
      if String.eqb field0 prefix then OK (join "/" rest)
      else Raise (UserError "AssertionError")
  | [] => Raise IndexError
  end.

Definition make_base_name_from_command (metric_name : string) : result string :=
  base_name_after COMMAND_PREFIX metric_name.

Definition make_base_name_from_template_definition (metric_name : string)
  : result string :=
  base_name_after TEMPLATE_DEFINITION_PREFIX metric_name.

(** [n] calls of [Seq._advance]. *)
Definition Seq_advance_times (n : nat) (self : Seq) : Seq := Nat.iter n Seq__advance self.

(** ** Topic filters ([topic.py]) *)

(** [match_field]: a component that is the wildcard [+] matches any
    field. *)
Definition match_field (tahu_field component : string) : bool :=
  if String.eqb component "+" then true else String.eqb tahu_field component.

(** [NodeTopic.match] and [DeviceTopic.match]; a [StateTopic] has no such
    method. *)
Definition Topic_match (self : Topic) (tahu_topic : string) : result bool :=
  let fields := split "/" tahu_topic in
  match self with
  | NodeTopic ns g mt n =>
      if negb (Nat.eqb (length fields) 4) then OK false
      else OK (forallb (fun fc => match_field (fst fc) (snd fc))
                 (combine fields [ns; g; mt; n]))
  | DeviceTopic ns g mt n d =>
      if negb (Nat.eqb (length fields) 5) then OK false
      else OK (forallb (fun fc => match_field (fst fc) (snd fc))
                 (combine fields [ns; g; mt; n; d]))
  | StateTopic _ => Raise (AttributeError "match")
  end.

(** [make_topic_string] *)
Definition make_topic_string (namespace : option string)
    (group_id message_type edge_node_id : string) (device_id : option string)
  : result string :=
  let namespace := match namespace with Some ns => ns | None => DEFAULT_NAMESPACE end in
  match device_id with
  | None =>
      do topic_obj <- NodeTopic_init namespace group_id message_type edge_node_id;
      OK (topic topic_obj)
  | Some d =>
      do topic_obj <- DeviceTopic_init namespace group_id message_type edge_node_id d;
      OK (topic topic_obj)
  end.

(** The example node after its metric [x] was set to 8, and a node whose
    metric [t] holds a NaN. *)
Definition example_changed_node : ServerEndpoint :=
  mkServerEndpoint "" [("x", Scalar (Int64 8))] [("x", Scalar (Int64 7))] (fun key => key) true.

Definition example_nan_node : ServerEndpoint :=
  mkServerEndpoint "" [("t", Scalar (Double PrimFloat.nan))]
    [("t", Scalar (Double PrimFloat.nan))] (fun key => key) true.

(** The payload of updates the example engine builds once [x] is 8. *)
Definition example_updates_payload : Payload :=
  mkPayload (Some 0) None
    [mkMetric (Some "x") None (Some 1) (DataType.value DataType.Int64)
       false false false empty_PropertySet (scalar_value (long_value 8))].

(** ** Matching endpoint names ([client_endpoint.py], [ClientEndpointName]) *)

(** [a == b] on two components: [None], the wildcard [any], or strings. *)
Definition NameComponent_eqb (a b : NameComponent) : bool :=
  match a, b with
  | comp_None, comp_None => true
  | comp_any, comp_any => true
  | comp_str x, comp_str y => String.eqb x y
  | _, _ => false
  end.

(** [ClientEndpointName.__eq__] *)
Definition ClientEndpointName_eqb (self other : ClientEndpointName) : bool :=
  NameComponent_eqb (cen_group_id self) (cen_group_id other)
  && NameComponent_eqb (cen_edge_node_id self) (cen_edge_node_id other)
  && NameComponent_eqb (cen_device_id self) (cen_device_id other).

Definition is_any (c : NameComponent) : bool :=
  match c with comp_any => true | _ => false end.

Definition has_wildcard (self : ClientEndpointName) : bool :=
  is_any (cen_group_id self) || is_any (cen_edge_node_id self)
  || is_any (cen_device_id self).

(** [ClientEndpointName(other)] for an argument that has the three
    attributes (an endpoint name): the components are copied and
    normalized again. *)
Definition ClientEndpointName_of_name (arg : ClientEndpointName)
  : result ClientEndpointName :=
  do g <- _validate_and_normalize (cen_group_id arg);
  do n <- _validate_and_normalize (cen_edge_node_id arg);
  do d <- _validate_and_normalize (cen_device_id arg);
  OK (mkClientEndpointName g n d).

Definition _match_component (this_component other_component : NameComponent) : bool :=
  if NameComponent_eqb this_component other_component then true
  else match this_component, other_component with
       | comp_None, _ | _, comp_None => false
       | comp_any, _ => true
       | _, _ => false
       end.

(** [ClientEndpointName.match] against an endpoint name. *)
Definition ClientEndpointName_match (self other : ClientEndpointName) : result bool :=
  do other_name <- ClientEndpointName_of_name other;
  if has_wildcard other_name
  then Raise (ValueError "May only match against concrete endpoint name")
  else OK (_match_component (cen_device_id self) (cen_device_id other)
           && _match_component (cen_edge_node_id self) (cen_edge_node_id other)
           && _match_component (cen_group_id self) (cen_group_id other)).

(** ** Differences between two values ([types.py], [set_difference_in_metric]) *)

(** [other._value[name]]: only a record is indexed by a field name. *)
Definition other_field (other : IcypawValue) (name : string) : result IcypawValue :=
  match other with
  | Struct _ ofields =>
      match dict_get ofields name with
      | Some v => OK v
      | None => Raise (KeyError name)
      end
  | _ => Raise (TypeError "value is not indexed by a field name")
  end.

(** [Struct.set_difference_in_metric] writes the fields that differ from
    [other]'s; the other types write their whole value. *)
Fixpoint set_difference_in_metric (host : Host) (self other : IcypawValue)
    (metric : Metric) : result Metric :=
  match self with
  | Struct nn fields =>
      do parts <- mapM (fun f =>
                          do ov <- other_field other (fst f);
                          if negb (icpw_eq (snd f) ov)
                          then do cur_metric <-
                                 set_difference_in_metric host (snd f) ov
                                   (set_name (fst f) Metric_new);
                               OK [cur_metric]
                          else OK []) fields;
      set_metric_value (py_Template (mkTemplate (concat parts) (Some nn) None))
        DataType.Template metric
  | _ => set_in_metric host self metric
  end.

(** The fields of a record, the declarations of its class, the fields of
    the record it is compared with, the submetrics written for each field
    (none for a field that does not differ) and the fields after merging
    them, side by side. *)
Inductive diffed (host : Host)
  : list (string * IcypawValue) -> list (string * (IcypawClass * option IcypawValue))
    -> list (string * IcypawValue) -> list (list Metric)
    -> list (string * IcypawValue) -> Prop :=
| diffed_nil : diffed host [] [] [] [] []
| diffed_same f d o fields decls ofields parts rfields :
    fst f = fst d -> fst o = fst d ->
    well_typed (snd o) (fst (snd d)) = true ->
    icpw_eq (snd f) (snd o) = true ->
    diffed host fields decls ofields parts rfields ->
    diffed host (f :: fields) (d :: decls) (o :: ofields) ([] :: parts) (o :: rfields)
| diffed_changed f d o m r fields decls ofields parts rfields :
    fst f = fst d -> fst o = fst d ->
    m_name m = Some (fst f) ->
    merge_with_metric host m (snd o) = OK r ->
    well_typed r (fst (snd d)) = true ->
    icpw_eq (snd f) r = true ->
    diffed host fields decls ofields parts rfields ->
    diffed host (f :: fields) (d :: decls) (o :: ofields) ([m] :: parts)
      ((fst o, r) :: rfields).

(** The metric that carries [x = 9] of the record [foo] and nothing else,
    without alias. *)
Definition example_foo_update_unaliased : Metric :=
  mkMetric None None None (DataType.value DataType.Template) false false false
    empty_PropertySet
    (template_value (mkTemplate [example_metric "x" 9] (Some "foo") None)).

(** ** Data messages at the client ([client_endpoint.py]) *)

(** [ClientEndpoint.update_from_tahu_data] over the table of metrics: each
    metric of the message is resolved to a name (through the alias map when
    it carries none, the name then being written into the metric) and the
    entry of that name is updated.  The value is the table when the call
    returns; what an exception leaves behind is not modelled. *)
Fixpoint update_from_tahu_data (host : Host) (self : ClientEndpoint)
    (metrics : list (string * ClientEndpointMetric)) (message_metrics : list Metric)
  : result (list (string * ClientEndpointMetric)) :=
  match message_metrics with
  | [] => OK metrics
  | metric :: rest =>
      do metric_name <- _get_metric_name self metric;
      match dict_get metrics metric_name with
      | None => Raise (ValueError "Metric not registered in endpoint")
      | Some entry =>
          do entry' <- update_from_tahu host entry (set_name metric_name metric);
          update_from_tahu_data host self (dict_set metrics metric_name entry') rest
      end
  end.

(** An endpoint that knows the alias 0 of the record [foo]. *)
Definition example_endpoint : ClientEndpoint :=
  mkClientEndpoint {[ 0 := "foo" ]} (Some 0) None.

(** The metric that carries the whole record [foo{x: 9, y: "hello"}]. *)
Definition example_foo_full : Metric :=
  mkMetric None None None (DataType.value DataType.Template) false false false
    empty_PropertySet
    (template_value
       (mkTemplate
          [example_metric "x" 9;
           mkMetric (Some "y") None None (DataType.value DataType.String) false false false
             empty_PropertySet (scalar_value (string_value "hello"))]
          (Some "foo") None)).

(** An engine action that leaves the schedule of pending events alone. *)
Definition keeps_schedule {F A : Type} (m : ServerEngine F -> ServerEngine F * result A)
  : Prop :=
  forall st, _scheduled_events (fst (m st)) = _scheduled_events st.

(** * Properties *)

(** ** Liveness of a client endpoint *)

Lemma is_online_after_birth self message self' :
  update_from_tahu_birth self message = OK self' ->
  _last_death_seq self = None ->
  is_online self' = true.
Proof.
  unfold update_from_tahu_birth. intros H Hd.
  destruct (_get_lifetime_sequence _ message) as [seq|e]; simpl in H; [|discriminate].
  injection H as <-. unfold is_online. simpl. rewrite Hd. reflexivity.
Qed.

(** C1.  An endpoint is reported online exactly when a birth has been seen and
    either no death has been seen, or the last birth sequence strictly exceeds
    the last death sequence, or the last death sequence is 255 and the last
    birth sequence is below 255; in every other case, and in particular when
    no birth has been seen, it is reported offline. *)
Theorem is_online_decision_rule (self : ClientEndpoint) :
  let rule :=
    exists birth, _last_birth_seq self = Some birth /\
      (_last_death_seq self = None \/
       exists death, _last_death_seq self = Some death /\
         (birth > death \/ (death = 255 /\ birth < 255))) in
  (is_online self = true <-> rule)
  /\ (~ rule -> is_online self = false)
  /\ (_last_birth_seq self = None -> is_online self = false).
Proof.
  assert (Hiff : is_online self = true <->
    exists birth, _last_birth_seq self = Some birth /\
      (_last_death_seq self = None \/
       exists death, _last_death_seq self = Some death /\
         (birth > death \/ (death = 255 /\ birth < 255)))).
  { unfold is_online. destruct self as [am [b|] [d|]]; simpl.
    - split.
      + intros H. exists b. split; [reflexivity|]. right. exists d. split; [reflexivity|].
        apply orb_true_iff in H as [H|H].
        * left. apply Z.ltb_lt in H. lia.
        * right. apply andb_true_iff in H as [H1 H2].
          apply Z.eqb_eq in H1. apply Z.ltb_lt in H2. lia.
      + intros (b' & Hb & [Hn | (d' & Hd & H)]); [discriminate|].
        injection Hb as <-. injection Hd as <-.
        apply orb_true_iff. destruct H as [H|[H1 H2]].
        * left. apply Z.ltb_lt. lia.
        * right. apply andb_true_iff. split; [apply Z.eqb_eq|apply Z.ltb_lt]; lia.
    - split; [intros _; exists b; auto | reflexivity].
    - split; [discriminate | intros (b' & Hb & _); discriminate].
    - split; [discriminate | intros (b' & Hb & _); discriminate]. }
  cbv zeta. split; [exact Hiff|]. split.
  - intros Hn. destruct (is_online self) eqn:E; [|reflexivity].
    exfalso. apply Hn, Hiff. reflexivity.
  - intros Hb. unfold is_online. rewrite Hb. reflexivity.
Qed.

(** The wrap scenario, run through the update functions. *)
Example liveness_across_wrap :
  let e0 := ClientEndpoint_new in
  exists e1 e2 e3 e4 e5 e6,
    update_from_tahu_birth e0 (bdSeq_message 254) = OK e1 /\ is_online e1 = true /\
    update_from_tahu_death e1 (bdSeq_message 254) = OK e2 /\ is_online e2 = false /\
    update_from_tahu_birth e2 (bdSeq_message 255) = OK e3 /\ is_online e3 = true /\
    update_from_tahu_death e3 (bdSeq_message 255) = OK e4 /\ is_online e4 = false /\
    update_from_tahu_birth e4 (bdSeq_message 0) = OK e5 /\ is_online e5 = true /\
    update_from_tahu_death e5 (bdSeq_message 0) = OK e6 /\ is_online e6 = false.
Proof.
  simpl. repeat eexists.
Qed.

(** ** The topic codec *)

Lemma split_not_nil sep s : split sep s <> [].
Proof.
  destruct s as [|c s]; simpl; [discriminate|].
  destruct (Ascii.eqb c sep); [discriminate|].
  destruct (split sep s); discriminate.
Qed.

Lemma concat_cons sep h t :
  t <> [] -> String.concat sep (h :: t) = (h ++ sep ++ String.concat sep t)%string.
Proof. destruct t; [congruence|reflexivity]. Qed.

Lemma concat_String sep c h t :
  String.concat sep (String.String c h :: t) = String.String c (String.concat sep (h :: t)).
Proof. destruct t; reflexivity. Qed.

(** Joining the fields of a string gives the string back. *)
Lemma join_split (s : string) : join "/" (split "/" s) = s.
Proof.
  unfold join. induction s as [|c s IH]; [reflexivity|].
  simpl. destruct (Ascii.eqb c "/") eqn:E.
  - apply Ascii.eqb_eq in E. subst c.
    rewrite concat_cons by apply split_not_nil. simpl. rewrite IH. reflexivity.
  - destruct (split "/" s) as [|h t] eqn:Es; [exfalso; eapply split_not_nil; eauto|].
    rewrite concat_String, IH. reflexivity.
Qed.

Lemma validate_topic_component_OK c c' :
  validate_topic_component c = OK c' -> c' = c.
Proof.
  unfold validate_topic_component.
  destruct (String.eqb c "+"); [congruence|].
  destruct (_ || _); [discriminate|congruence].
Qed.

Ltac validated :=
  repeat match goal with
  | H : bind (validate_topic_component ?c) _ = OK _ |- _ =>
      let E := fresh "E" in
      destruct (validate_topic_component c) eqn:E; simpl in H; [|discriminate];
      apply validate_topic_component_OK in E; subst
  end.

(** C5 (as the code has it).  For a topic string with four or five fields
    that the parser accepts, the string rebuilt from the parsed topic is the
    original with its message-type field in upper case; it is the original
    string whenever that field is already in upper case. *)
Theorem topic_of_parsed_topic (t : string) (tp : Topic) :
  parse_topic t = OK tp ->
  is_StateTopic tp = false ->
  topic tp = join "/" (upper_message_type (split "/" t))
  /\ (upper_message_type (split "/" t) = split "/" t -> topic tp = t).
Proof.
  intros Hp Hs.
  assert (H : topic tp = join "/" (upper_message_type (split "/" t))).
  { unfold parse_topic in Hp.
    destruct (split "/" t) as [|f0 [|f1 [|f2 [|f3 [|f4 [|f5 r]]]]]]; try discriminate.
    - destruct (String.eqb (upper f0) "STATE"); [|discriminate].
      unfold StateTopic_init in Hp.
      destruct (validate_topic_component f1); simpl in Hp; [|discriminate].
      injection Hp as <-. discriminate.
    - unfold NodeTopic_init in Hp. validated. injection Hp as <-. reflexivity.
    - unfold DeviceTopic_init in Hp. validated. injection Hp as <-. reflexivity. }
  split; [exact H|].
  intros E. rewrite H, E. apply join_split.
Qed.

Lemma topic_of_parsed_topic_witness :
  topic (NodeTopic "spBv1.0" "G" "NBIRTH" "N") = "spBv1.0/G/NBIRTH/N".
Proof.
  apply (topic_of_parsed_topic "spBv1.0/G/NBIRTH/N"); reflexivity.
Defined.

(** C5 as stated fails: the parser puts the message type in upper case. *)
Lemma parse_topic_roundtrip_fails :
  exists tp, parse_topic "spBv1.0/G/nbirth/N" = OK tp
             /\ topic tp <> "spBv1.0/G/nbirth/N".
Proof.
  eexists. split; [reflexivity|]. discriminate.
Qed.

(** The [topic] property of a parsed STATE topic is the literal of the
    source, whatever the host. *)
Lemma StateTopic_topic_literal :
  exists tp, parse_topic "STATE/host1" = OK tp
             /\ topic tp = "STATE/{self._scada_host_id}".
Proof.
  eexists. split; reflexivity.
Qed.

(** ** Dictionaries *)

Section PyDictFacts.
Context {K V : Type} `{EqDecision K}.
Implicit Types (d : list (K * V)) (k : K) (v : V).

Lemma dict_get_set_eq d k v : dict_get (dict_set d k v) k = Some v.
Proof.
  induction d as [|[k' v'] d IH]; simpl.
  - destruct (decide (k = k)); congruence.
  - destruct (decide (k = k')) as [->|Hne]; simpl.
    + destruct (decide (k' = k')); congruence.
    + destruct (decide (k = k')); [congruence|exact IH].
Qed.

Lemma dict_get_set_ne d k k' v :
  k <> k' -> dict_get (dict_set d k v) k' = dict_get d k'.
Proof.
  intros Hne. induction d as [|[k0 v0] d IH]; simpl.
  - destruct (decide (k' = k)); congruence.
  - destruct (decide (k = k0)) as [->|Hne0]; simpl.
    + destruct (decide (k' = k0)); congruence.
    + destruct (decide (k' = k0)); [reflexivity|exact IH].
Qed.

Lemma dict_get_del_eq d k : dict_get (dict_del d k) k = None.
Proof.
  induction d as [|[k' v'] d IH]; simpl; [reflexivity|].
  destruct (decide (k = k')) as [->|Hne]; simpl; [exact IH|].
  destruct (decide (k = k')); [congruence|exact IH].
Qed.

Lemma dict_get_del_ne d k k' :
  k <> k' -> dict_get (dict_del d k) k' = dict_get d k'.
Proof.
  intros Hne. induction d as [|[k0 v0] d IH]; simpl; [reflexivity|].
  destruct (decide (k = k0)) as [->|Hne0]; simpl.
  - destruct (decide (k' = k0)); [congruence|exact IH].
  - destruct (decide (k' = k0)); [reflexivity|exact IH].
Qed.

Lemma dict_get_Some_In d k v : dict_get d k = Some v -> In (k, v) d.
Proof.
  induction d as [|[k' v'] d IH]; simpl; [discriminate|].
  destruct (decide (k = k')) as [->|Hne].
  - intros [= ->]. left. reflexivity.
  - intros H'. right. apply IH, H'.
Qed.

Lemma dict_get_None_keys d k : dict_get d k = None <-> ~ In k (dict_keys d).
Proof.
  induction d as [|[k' v'] d IH]; simpl; [tauto|].
  destruct (decide (k = k')) as [->|Hne].
  - split; [discriminate|]. intros Hn. exfalso. apply Hn. left. reflexivity.
  - rewrite IH. split.
    + intros Hn [Hk|Hk]; [congruence|tauto].
    + intros Hn Hk. apply Hn. right. exact Hk.
Qed.

Lemma dict_get_is_Some_keys d k :
  In k (dict_keys d) -> exists v, dict_get d k = Some v.
Proof.
  intros Hin. destruct (dict_get d k) as [v|] eqn:E; [eauto|].
  apply dict_get_None_keys in E. contradiction.
Qed.

Lemma dict_keys_set d k v k' :
  In k' (dict_keys (dict_set d k v)) <-> k' = k \/ In k' (dict_keys d).
Proof.
  induction d as [|[k0 v0] d IH]; simpl.
  - split; [intros [->|[]]; auto | intros [->|[]]; auto].
  - destruct (decide (k = k0)) as [->|Hne]; simpl.
    + split; [intros [->|Hin]; auto | intros [->|[->|Hin]]; auto].
    + rewrite IH. split.
      * intros [->|[->|Hin]]; auto.
      * intros [->|[->|Hin]]; auto.
Qed.

Lemma dict_keys_del d k k' :
  In k' (dict_keys (dict_del d k)) <-> k' <> k /\ In k' (dict_keys d).
Proof.
  induction d as [|[k0 v0] d IH]; simpl; [tauto|].
  destruct (decide (k = k0)) as [->|Hne]; simpl.
  - rewrite IH. split.
    + intros [Hn Hin]. auto.
    + intros [Hn [->|Hin]]; [congruence|auto].
  - rewrite IH. split.
    + intros [->|[Hn Hin]]; [split; [congruence|auto]|auto].
    + intros [Hn [->|Hin]]; auto.
Qed.

(** Assigning to a new key appends the entry. *)
Lemma dict_set_new d k v : dict_get d k = None -> dict_set d k v = (d ++ [(k, v)])%list.
Proof.
  induction d as [|[k' v'] d IH]; simpl; [reflexivity|].
  destruct (decide (k = k')); [discriminate|].
  intros H'. rewrite IH by exact H'. reflexivity.
Qed.

Lemma dict_set_entries (P : K * V -> Prop) d k v :
  P (k, v) -> Forall P d -> Forall P (dict_set d k v).
Proof.
  intros Hv. induction d as [|[k' v'] d IH]; simpl; intros Hd.
  - constructor; [exact Hv|constructor].
  - inversion Hd; subst. destruct (decide (k = k')); simpl; constructor; auto.
Qed.

End PyDictFacts.

(** ** The metric organizer *)

Lemma _extract_store_template_definition_aliases self metric :
  _metric_names_to_aliases (_extract_store_template_definition self metric)
  = _metric_names_to_aliases self
  /\ _next_alias (_extract_store_template_definition self metric) = _next_alias self
  /\ _metrics (_extract_store_template_definition self metric) = _metrics self
  /\ _uncommitted_metrics (_extract_store_template_definition self metric)
     = _uncommitted_metrics self.
Proof.
  unfold _extract_store_template_definition.
  destruct (m_value metric); simpl; auto.
Qed.

Lemma _add_metric_aliases_ok self metric self' metric' :
  aliases_ok self -> _add_metric self metric = OK (self', metric') -> aliases_ok self'.
Proof.
  unfold aliases_ok, _add_metric. intros [Hnd Hlt] H.
  destruct (m_name metric) as [n|]; [|discriminate].
  destruct (dict_get (_metric_names_to_aliases self) n) as [a|] eqn:E.
  - injection H as <- <-. simpl.
    destruct (_extract_store_template_definition_aliases self (set_alias a metric))
      as (-> & -> & _). auto.
  - injection H as <- <-. simpl.
    match goal with |- context [_extract_store_template_definition ?o ?m] =>
      destruct (_extract_store_template_definition_aliases o m) as (-> & -> & _) end.
    simpl. rewrite dict_set_new by exact E. rewrite List.map_app. simpl. split.
    + apply NoDup_app. split; [exact Hnd|]. split; [|apply NoDup_singleton].
      intros x Hx Hx'. apply list_elem_of_singleton in Hx'. subst x.
      apply list_elem_of_In in Hx. rewrite Forall_forall in Hlt.
      apply list_elem_of_In, Hlt in Hx. lia.
    + apply Forall_app. split.
      * eapply Forall_impl; [exact Hlt|]. simpl. intros; lia.
      * constructor; [lia|constructor].
Qed.

Lemma add_metrics_aliases_ok metrics self :
  aliases_ok self -> aliases_ok (fst (add_metrics self metrics)).
Proof.
  revert self. induction metrics as [|m metrics IH]; simpl; intros self Hok; [exact Hok|].
  destruct (_add_metric self m) as [[self' m']|e] eqn:E; [|exact Hok].
  apply IH. eapply _add_metric_aliases_ok; eauto.
Qed.

Lemma organizer_step_aliases_ok self c :
  aliases_ok self -> aliases_ok (organizer_step self c).
Proof.
  intros Hok. destruct c as [metrics|metric add|name| |]; simpl.
  - unfold set_initial_metrics.
    pose proof (add_metrics_aliases_ok metrics self Hok) as H.
    destruct (add_metrics self metrics) as [self' [u|e]]; simpl in *; exact H.
  - unfold organizer_set.
    destruct (m_name metric) as [n|].
    + destruct (add && negb (dict_contains (_metrics self) n)).
      * destruct (_add_metric self metric) as [[self1 m1]|e] eqn:E; simpl; [|exact Hok].
        apply _add_metric_aliases_ok in E; [|exact Hok].
        destruct (_validate_metric self1 m1); simpl; exact E.
      * destruct (_validate_metric self metric); simpl; exact Hok.
    + destruct (_validate_metric self metric); simpl; exact Hok.
  - unfold delete. destruct (dict_contains (_metrics self) name); exact Hok.
  - unfold get_and_commit.
    destruct (mapM (_copy_with_alias self) (_uncommitted_metrics self)); simpl; exact Hok.
  - exact Hok.
Qed.

Lemma organizer_run_aliases_ok calls self :
  aliases_ok self -> aliases_ok (organizer_run self calls).
Proof.
  unfold organizer_run. revert self.
  induction calls as [|c calls IH]; simpl; intros self Hok; [exact Hok|].
  apply IH, organizer_step_aliases_ok, Hok.
Qed.

Lemma MetricOrganizer_new_aliases_ok : aliases_ok MetricOrganizer_new.
Proof. split; simpl; constructor. Qed.

(** Looking an alias up in the inverted table. *)
Lemma inverse_untouched (al : list (string * Z)) (acc : list (Z * string)) (a : Z) :
  ~ In a (List.map snd al) ->
  dict_get (fold_left (fun acc kv => dict_set acc (snd kv) (fst kv)) al acc) a
  = dict_get acc a.
Proof.
  revert acc. induction al as [|[k v] al IH]; simpl; intros acc Hn; [reflexivity|].
  rewrite IH by tauto. apply dict_get_set_ne. intros ->. tauto.
Qed.

Lemma inverse_lookup (al : list (string * Z)) (acc : list (Z * string)) n a :
  NoDup (List.map snd al) ->
  dict_get al n = Some a ->
  dict_get (fold_left (fun acc kv => dict_set acc (snd kv) (fst kv)) al acc) a = Some n.
Proof.
  revert acc. induction al as [|[k v] al IH]; simpl; intros acc Hnd Hget; [discriminate|].
  apply NoDup_cons in Hnd as [Hnotin Hnd].
  destruct (decide (n = k)) as [->|Hne].
  - injection Hget as ->. rewrite inverse_untouched.
    + apply dict_get_set_eq.
    + intros Hin. apply Hnotin, list_elem_of_In, Hin.
  - apply IH; assumption.
Qed.

Lemma get_name_get_alias self name a :
  aliases_ok self -> get_alias self name = OK a -> get_name self a = OK name.
Proof.
  unfold get_alias, get_name, _metric_aliases_to_names. intros [Hnd _] H.
  destruct (dict_get (_metric_names_to_aliases self) name) as [a'|] eqn:E; [|discriminate].
  injection H as ->. rewrite (inverse_lookup _ _ name a Hnd E). reflexivity.
Qed.

Lemma mapM_map {A B C : Type} (f : A -> result B) (g : B -> C) (h : A -> C) l l' :
  (forall x y, f x = OK y -> g y = h x) ->
  mapM f l = OK l' -> List.map g l' = List.map h l.
Proof.
  intros Hf. revert l'. induction l as [|x l IH]; simpl; intros l' H.
  - injection H as <-. reflexivity.
  - destruct (f x) as [y|] eqn:Ex; simpl in H; [|discriminate].
    destruct (mapM f l) as [ys|]; simpl in H; [|discriminate].
    injection H as <-. simpl. rewrite (Hf _ _ Ex), (IH ys); reflexivity.
Qed.

Lemma name_of_set_alias a m : name_of (set_alias a m) = name_of m.
Proof. reflexivity. Qed.

(** [get_all] commits, and returns one metric per entry of the table, under
    the entry's name. *)
Lemma get_all_names self self' metrics :
  get_all self = (self', OK metrics) ->
  self' = _commit_metrics self
  /\ List.map name_of metrics = dict_keys (_metrics self').
Proof.
  unfold get_all. intros H. injection H as <- H. split; [reflexivity|].
  eapply mapM_map; [|exact H]. intros [k v] y. simpl.
  destruct (dict_get _ k); [|discriminate]. intros [= <-]. reflexivity.
Qed.

Lemma commit_keys (uncommitted : list Metric) (metrics : list (string * Metric)) k :
  In k (dict_keys (fold_left (fun acc metric => dict_set acc (name_of metric) metric)
                     uncommitted metrics))
  <-> In k (dict_keys metrics) \/ In k (List.map name_of uncommitted).
Proof.
  revert metrics. induction uncommitted as [|m u IH]; simpl; intros metrics; [tauto|].
  rewrite IH, dict_keys_set. split.
  - intros [[->|H]|H]; auto.
  - intros [H|[<-|H]]; auto.
Qed.

Lemma dict_contains_true {V : Type} (d : list (string * V)) k :
  dict_contains d k = true <-> In k (dict_keys d).
Proof.
  unfold dict_contains. destruct (dict_get d k) eqn:E.
  - split; [|reflexivity]. intros _.
    apply dict_get_Some_In in E. apply in_map_iff. exists (k, v). auto.
  - split; [discriminate|]. intros Hin. apply dict_get_None_keys in E. contradiction.
Qed.

(** C10.  After [delete(name)] has removed a metric that was added before,
    the name keeps its alias: [get_alias] and [get_name] still answer with
    the old binding although the metric is gone from the table and from what
    [get_all] returns, and adding a metric of that name again reuses the
    alias and leaves the alias counter where it was. *)
Theorem delete_keeps_alias_binding (calls : list OrganizerCall) (name : string) (a : Z) :
  dict_contains (_metrics (organizer_run MetricOrganizer_new calls)) name = true ->
  get_alias (organizer_run MetricOrganizer_new calls) name = OK a ->
  let self' := delete (organizer_run MetricOrganizer_new calls) name in
  dict_contains (_metrics self') name = false
  /\ get_alias self' name = OK a
  /\ get_name self' a = OK name
  /\ (forall self'' metrics,
        get_all self' = (self'', OK metrics) -> ~ In name (List.map name_of metrics))
  /\ (forall metric, m_name metric = Some name ->
        exists self2 metric',
          _add_metric self' metric = OK (self2, metric')
          /\ m_alias metric' = Some a
          /\ _next_alias self2 = _next_alias self'
          /\ get_alias self2 name = OK a
          /\ dict_contains (_metrics self2) name = true).
Proof.
  set (self := organizer_run MetricOrganizer_new calls).
  intros Hin Ha self'.
  assert (Hok : aliases_ok self)
    by apply organizer_run_aliases_ok, MetricOrganizer_new_aliases_ok.
  assert (Hal : _metric_names_to_aliases self' = _metric_names_to_aliases self).
  { subst self'. unfold delete. rewrite Hin. reflexivity. }
  assert (Hnext : _next_alias self' = _next_alias self).
  { subst self'. unfold delete. rewrite Hin. reflexivity. }
  assert (Hm : _metrics self' = dict_del (_metrics self) name).
  { subst self'. unfold delete. rewrite Hin. reflexivity. }
  assert (Hu : _uncommitted_metrics self'
               = List.filter (fun metric => negb (String.eqb (name_of metric) name))
                   (_uncommitted_metrics self)).
  { subst self'. unfold delete. rewrite Hin. reflexivity. }
  assert (Ha' : get_alias self' name = OK a).
  { unfold get_alias in *. rewrite Hal. exact Ha. }
  assert (Hok' : aliases_ok self').
  { unfold aliases_ok. rewrite Hal, Hnext. exact Hok. }
  split; [|split; [exact Ha'|split; [|split]]].
  - rewrite Hm. unfold dict_contains. rewrite dict_get_del_eq. reflexivity.
  - apply get_name_get_alias; assumption.
  - intros self'' metrics Hg. apply get_all_names in Hg as [-> Hn]. rewrite Hn.
    unfold _commit_metrics. simpl. rewrite commit_keys, Hm, Hu.
    intros [H|H].
    + apply dict_keys_del in H as [H _]. congruence.
    + apply in_map_iff in H as (m & Hname & Hf).
      apply filter_In in Hf as [_ Hf]. rewrite Hname, String.eqb_refl in Hf. discriminate.
  - intros metric Hname. unfold _add_metric. rewrite Hname.
    unfold get_alias in Ha'.
    destruct (dict_get (_metric_names_to_aliases self') name) as [a'|] eqn:E; [|discriminate].
    injection Ha' as ->. eexists. eexists. split; [reflexivity|]. simpl.
    destruct (_extract_store_template_definition_aliases self' (set_alias a metric))
      as (Hal2 & Hnext2 & _).
    split; [reflexivity|]. split; [exact Hnext2|]. split.
    + unfold get_alias. simpl. rewrite Hal2, E. reflexivity.
    + unfold dict_contains. rewrite dict_get_set_eq. reflexivity.
Qed.

Lemma delete_keeps_alias_binding_witness :
  let self := organizer_run MetricOrganizer_new
                [Org_set_initial_metrics [example_metric "x" 1; example_metric "y" 2]] in
  get_alias (delete self "x") "x" = OK 0
  /\ get_name (delete self "x") 0 = OK "x".
Proof.
  pose proof (delete_keeps_alias_binding
                [Org_set_initial_metrics [example_metric "x" 1; example_metric "y" 2]]
                "x" 0 eq_refl eq_refl) as H.
  cbv zeta in H. destruct H as (_ & H1 & H2 & _). split; [exact H1|exact H2].
Defined.

(** ** Initial metrics and the birth seal *)

Lemma _add_metric_named self metric :
  m_name metric <> None -> exists self' metric', _add_metric self metric = OK (self', metric').
Proof.
  unfold _add_metric. destruct (m_name metric) as [n|]; [|congruence]. intros _.
  destruct (dict_get (_metric_names_to_aliases self) n); eauto.
Qed.

Lemma add_metrics_named metrics self :
  Forall (fun m => m_name m <> None) metrics ->
  exists self', add_metrics self metrics = (self', OK tt).
Proof.
  revert self. induction metrics as [|m metrics IH]; simpl; intros self H; [eauto|].
  inversion H; subst.
  destruct (_add_metric_named self m) as (self1 & m1 & ->); [assumption|].
  apply IH. assumption.
Qed.

(** An alias, once bound, stays bound to the same number. *)
Lemma _add_metric_keeps_alias self metric self' metric' n a :
  _add_metric self metric = OK (self', metric') ->
  dict_get (_metric_names_to_aliases self) n = Some a ->
  dict_get (_metric_names_to_aliases self') n = Some a.
Proof.
  unfold _add_metric. intros H Hn.
  destruct (m_name metric) as [n0|]; [|discriminate].
  destruct (dict_get (_metric_names_to_aliases self) n0) as [a0|] eqn:E;
    injection H as <- <-; simpl;
    match goal with |- context [_extract_store_template_definition ?o ?m] =>
      destruct (_extract_store_template_definition_aliases o m) as (-> & _) end;
    [exact Hn|].
  simpl. destruct (decide (n0 = n)) as [->|Hne]; [congruence|].
  rewrite dict_get_set_ne by exact Hne. exact Hn.
Qed.

Lemma add_metrics_keeps_alias metrics self self' n a :
  add_metrics self metrics = (self', OK tt) ->
  dict_get (_metric_names_to_aliases self) n = Some a ->
  dict_get (_metric_names_to_aliases self') n = Some a.
Proof.
  revert self. induction metrics as [|m metrics IH]; simpl; intros self H Hn.
  - injection H as <-. exact Hn.
  - destruct (_add_metric self m) as [[self1 m1]|e] eqn:E; [|discriminate].
    eapply IH; [exact H|]. eapply _add_metric_keeps_alias; eauto.
Qed.

(** Metrics whose names are distinct and not yet bound receive consecutive
    aliases, in the order of the list, from the organizer's next alias on. *)
Lemma add_metrics_aliases_in_order metrics self self' :
  add_metrics self metrics = (self', OK tt) ->
  NoDup (List.map name_of metrics) ->
  (forall m, In m metrics -> dict_get (_metric_names_to_aliases self) (name_of m) = None) ->
  forall i m, nth_error metrics i = Some m ->
    get_alias self' (name_of m) = OK (_next_alias self + Z.of_nat i).
Proof.
  revert self. induction metrics as [|m0 metrics IH]; simpl; intros self H Hnd Hfresh i m Hi.
  - destruct i; discriminate.
  - destruct (_add_metric self m0) as [[self1 m1]|e] eqn:E; [|discriminate].
    apply NoDup_cons in Hnd as [Hnotin Hnd].
    assert (Hself1 : m_name m0 = Some (name_of m0)
                     /\ _next_alias self1 = _next_alias self + 1
                     /\ _metric_names_to_aliases self1
                        = dict_set (_metric_names_to_aliases self) (name_of m0)
                            (_next_alias self)).
    { unfold _add_metric in E. unfold name_of in *.
      destruct (m_name m0) as [n0|] eqn:En; [|discriminate].
      specialize (Hfresh m0 (or_introl eq_refl)). rewrite En in Hfresh.
      rewrite Hfresh in E. injection E as <- <-. simpl.
      match goal with |- context [_extract_store_template_definition ?o ?m] =>
        destruct (_extract_store_template_definition_aliases o m) as (-> & -> & _) end.
      simpl. auto. }
    destruct Hself1 as (Hname & Hnext & Hal).
    destruct i as [|i]; simpl in Hi.
    + injection Hi as <-. unfold get_alias.
      erewrite add_metrics_keeps_alias; [|exact H|rewrite Hal; apply dict_get_set_eq].
      f_equal. lia.
    + rewrite (IH self1 H Hnd) with (i := i) (m := m); [f_equal; lia| |exact Hi].
      intros m' Hin. rewrite Hal, dict_get_set_ne; [apply Hfresh; right; exact Hin|].
      intros Heq. apply Hnotin. rewrite Heq. apply list_elem_of_In, in_map, Hin.
Qed.

(** C7 (as the code has it).  The seal is on the node only:
    [set_initial_node_metrics] fails once an NBIRTH has been built.  Before
    that, and for a registered device at any time
    ([set_initial_device_metrics] does not look at the birth flag), the call
    succeeds when every metric has a name, and metrics with distinct, unbound
    names receive consecutive aliases in the order of the list. *)
Theorem set_initial_metrics_sealing :
  (forall self metrics,
     _is_born self = true ->
     exists e, set_initial_node_metrics self metrics = (self, Raise e))
  /\ (forall self key org metrics,
        _metric_organizers self !! key = Some org ->
        Forall (fun m => m_name m <> None) metrics ->
        (key = "" -> _is_born self = false) ->
        exists self' org',
          (if String.eqb key "" then set_initial_node_metrics self metrics
           else set_initial_device_metrics self key metrics) = (self', OK tt)
          /\ _metric_organizers self' !! key = Some org'
          /\ (NoDup (List.map name_of metrics) ->
              (forall m, In m metrics ->
                 dict_get (_metric_names_to_aliases org) (name_of m) = None) ->
              forall i m, nth_error metrics i = Some m ->
                get_alias org' (name_of m) = OK (_next_alias org + Z.of_nat i))).
Proof.
  split.
  - intros self metrics Hb. unfold set_initial_node_metrics. rewrite Hb. eauto.
  - intros self key org metrics Horg Hnamed Hborn.
    destruct (add_metrics_named metrics org Hnamed) as (org1 & Hadd).
    exists (with_templates (with_organizer self key (set_committed org1))
              (dict_update (_templates self) (_template_definitions org1))),
           (set_committed org1).
    assert (Halias : NoDup (List.map name_of metrics) ->
              (forall m, In m metrics ->
                 dict_get (_metric_names_to_aliases org) (name_of m) = None) ->
              forall i m, nth_error metrics i = Some m ->
                get_alias (set_committed org1) (name_of m)
                = OK (_next_alias org + Z.of_nat i)).
    { intros Hnd Hfresh i m Hi.
      apply (add_metrics_aliases_in_order metrics org org1 Hadd Hnd Hfresh i m Hi). }
    destruct (String.eqb key "") eqn:Ek.
    + apply String.eqb_eq in Ek. subst key.
      unfold set_initial_node_metrics, set_initial_metrics.
      rewrite (Hborn eq_refl), Horg, Hadd. simpl.
      split; [reflexivity|]. split; [apply lookup_insert_eq|exact Halias].
    + unfold set_initial_device_metrics, set_initial_metrics.
      rewrite Horg, Hadd. simpl.
      split; [reflexivity|]. split; [apply lookup_insert_eq|exact Halias].
Qed.

Lemma set_initial_metrics_sealing_witness :
  exists self',
    set_initial_node_metrics (TahuServerInterface_new None None (Some 0))
      [example_metric "x" 1; example_metric "y" 2] = (self', OK tt)
    /\ exists org', _metric_organizers self' !! "" = Some org'
                    /\ get_alias org' "y" = OK 1.
Proof.
  destruct set_initial_metrics_sealing as [_ H].
  destruct (H (TahuServerInterface_new None None (Some 0)) "" MetricOrganizer_new
              [example_metric "x" 1; example_metric "y" 2])
    as (self' & org' & H1 & H2 & H3).
  - reflexivity.
  - repeat constructor; discriminate.
  - reflexivity.
  - exists self'. split; [exact H1|]. exists org'. split; [exact H2|].
    refine (H3 _ _ 1%nat (example_metric "y" 2) eq_refl).
    + apply NoDup_cons. split; [|apply NoDup_singleton].
      intros Hin. apply list_elem_of_singleton in Hin. discriminate.
    + intros m [<-|[<-|[]]]; reflexivity.
Defined.

(** C7 as stated fails for a device: its organizer takes initial metrics
    after the NBIRTH has been built. *)
Lemma set_initial_device_metrics_after_birth :
  let s1 := fst (new_nbirth (TahuServerInterface_new None None (Some 0)) 1000) in
  let s2 := register_device s1 "d" in
  _is_born s2 = true
  /\ snd (set_initial_device_metrics s2 "d" [example_metric "x" 1]) = OK tt.
Proof.
  split; reflexivity.
Qed.

(** ** Template definitions and the NBIRTH payload *)


(** A data-set field of an instance is kept as it is in the definition. *)
Lemma _make_template_definition_keeps_datasets instance m :
  In m (t_metrics instance) ->
  m_datatype m = DataType.value DataType.DataSet ->
  In m (t_metrics (fst (_make_template_definition instance))).
Proof.
  intros Hin Hd. simpl. apply in_map_iff. exists m. split; [|exact Hin].
  unfold clear_value_unless_dataset. rewrite Hd. reflexivity.
Qed.










Lemma new_seq_payload_templates_ok self now :
  templates_ok self -> templates_ok (fst (new_seq_payload self now)).
Proof. auto. Qed.


Lemma run_cons self c rest :
  run self (c :: rest)
  = (fst (run (fst (step self c)) rest),
     match snd (step self c) with
     | Some o => o :: snd (run (fst (step self c)) rest)
     | None => snd (run (fst (step self c)) rest)
     end).
Proof.
  simpl. destruct (step self c) as [self1 out]. simpl.
  destruct (run self1 rest) as [self2 outs]. reflexivity.
Qed.





(** ** Sequence numbers within one birth lifetime *)


















Lemma land_0xff (c : Z) : Z.land c 0xff = c mod 256.
Proof. change 0xff with (Z.ones 8). rewrite Z.land_ones by lia. reflexivity. Qed.







(** ** Merging a wire metric into a record *)

(** The loop of [Struct.merge_with_metric], unfolded. *)
Lemma merge_with_metric_Struct host metric nn fields :
  merge_with_metric host metric (Struct nn fields)
  = match m_value metric with
    | template_value t =>
        do fields' <- merge_fields host (t_metrics t) fields; OK (Struct nn fields')
    | _ => OK (Struct nn fields)
    end.
Proof.
  destruct metric as [n a ts dt h tr nl ps v]. simpl.
  destruct v as [| | |t]; try reflexivity.
  f_equal. generalize (t_metrics t) as l. intros l. revert fields.
  induction l as [|sub l IH]; intros fields; simpl; [reflexivity|].
  destruct (dict_get fields (name_of sub)); [|reflexivity].
  destruct (merge_with_metric host sub i); simpl; [apply IH|reflexivity].
Qed.

Lemma dict_keys_set_existing {V : Type} (d : list (string * V)) k v v0 :
  dict_get d k = Some v0 -> dict_keys (dict_set d k v) = dict_keys d.
Proof.
  induction d as [|[k' v'] d IH]; simpl; [discriminate|].
  destruct (decide (k = k')) as [->|Hne]; simpl; [reflexivity|].
  intros H. rewrite IH by exact H. reflexivity.
Qed.

(** What the loop does to the fields when no field is named twice. *)
Lemma merge_fields_spec host submetrics fields fields' :
  NoDup (List.map name_of submetrics) ->
  merge_fields host submetrics fields = OK fields' ->
  dict_keys fields' = dict_keys fields
  /\ (forall f, ~ In f (List.map name_of submetrics) ->
                dict_get fields' f = dict_get fields f)
  /\ (forall sub, In sub submetrics ->
        exists old new,
          dict_get fields (name_of sub) = Some old
          /\ merge_with_metric host sub old = OK new
          /\ dict_get fields' (name_of sub) = Some new).
Proof.
  revert fields. induction submetrics as [|sub rest IH]; simpl; intros fields Hnd H.
  - injection H as <-. split; [reflexivity|]. split; [reflexivity|]. intros sub [].
  - apply NoDup_cons in Hnd as [Hnotin Hnd].
    destruct (dict_get fields (name_of sub)) as [old|] eqn:Eold; [|discriminate].
    destruct (merge_with_metric host sub old) as [new|] eqn:Enew; [|discriminate].
    simpl in H. destruct (IH _ Hnd H) as (Hkeys & Hother & Hpresent).
    assert (Hnotin' : ~ In (name_of sub) (List.map name_of rest)).
    { intros Hin. apply Hnotin, list_elem_of_In, Hin. }
    split; [|split].
    + rewrite Hkeys. eapply dict_keys_set_existing; eauto.
    + intros f Hf. rewrite Hother by tauto. apply dict_get_set_ne. intros <-. tauto.
    + intros sub' [<-|Hin].
      * exists old, new. split; [exact Eold|]. split; [exact Enew|].
        rewrite Hother by exact Hnotin'. apply dict_get_set_eq.
      * destruct (Hpresent sub' Hin) as (old' & new' & H1 & H2 & H3).
        exists old', new'. split; [|auto].
        rewrite <- H1. symmetry. apply dict_get_set_ne.
        intros Heq. apply Hnotin'. rewrite Heq. apply in_map, Hin.
Qed.

(** A scalar field is overwritten: what it becomes does not depend on what
    it held. *)
Lemma scalar_merge_overwrites host s1 s2 null v :
  scalar_class_of s1 = scalar_class_of s2 ->
  scalar_merge_with_metric host s1 null v = scalar_merge_with_metric host s2 null v.
Proof. destruct s1, s2; simpl; intros H; try discriminate; reflexivity. Qed.

(** C2.  Let a table entry hold a record and let a data metric, not null,
    carry a template that names each field at most once.  When the update
    returns, the record has the same fields in the same order; a field the
    template does not name holds the value it held; a field the template
    names holds the result of merging the submetric into it, which for a
    scalar field is the value read from the submetric whatever the field
    held before. *)
Theorem update_from_tahu_merges_present_fields (host : Host)
    (self self' : ClientEndpointMetric) (tahu_metric : Metric) (t : Template)
    (nn : string) (fields : list (string * IcypawValue)) :
  cem_value self = Some (Struct nn fields) ->
  m_is_null tahu_metric = false ->
  m_value tahu_metric = template_value t ->
  NoDup (List.map name_of (t_metrics t)) ->
  update_from_tahu host self tahu_metric = OK self' ->
  exists fields',
    cem_value self' = Some (Struct nn fields')
    /\ dict_keys fields' = dict_keys fields
    /\ (forall f, ~ In f (List.map name_of (t_metrics t)) ->
                  dict_get fields' f = dict_get fields f)
    /\ (forall sub, In sub (t_metrics t) ->
          exists old new,
            dict_get fields (name_of sub) = Some old
            /\ merge_with_metric host sub old = OK new
            /\ dict_get fields' (name_of sub) = Some new
            /\ forall s, old = Scalar s ->
                 exists s',
                   new = Scalar s'
                   /\ scalar_merge_with_metric host (scalar_default host (scalar_class_of s))
                        (Some (m_is_null sub)) (scalar_of (m_value sub)) = OK s').
Proof.
  intros Hv Hnull Ht Hnd H.
  unfold update_from_tahu, merge_with_metric_opt in H. rewrite Hv, Hnull in H.
  rewrite merge_with_metric_Struct, Ht in H.
  destruct (merge_fields host (t_metrics t) fields) as [fields'|] eqn:E; [|discriminate].
  simpl in H. injection H as <-. exists fields'. simpl.
  destruct (merge_fields_spec _ _ _ _ Hnd E) as (Hkeys & Hother & Hpresent).
  split; [reflexivity|]. split; [exact Hkeys|]. split; [exact Hother|].
  intros sub Hin. destruct (Hpresent sub Hin) as (old & new & H1 & H2 & H3).
  exists old, new. split; [exact H1|]. split; [exact H2|]. split; [exact H3|].
  intros s ->. destruct sub as [n a ts dt h tr nl ps v]. simpl in H2 |- *.
  destruct (scalar_merge_with_metric host s (Some nl) (scalar_of v)) as [s'|] eqn:Es;
    [|discriminate].
  injection H2 as <-. exists s'. split; [reflexivity|].
  rewrite <- Es. apply scalar_merge_overwrites. destruct s; reflexivity.
Qed.

(** The partial-update scenario: [{x: 7, y: "hello"}] updated with [x = 9]
    becomes [{x: 9, y: "hello"}]. *)
Lemma update_from_tahu_merges_present_fields_witness :
  exists self',
    update_from_tahu example_host example_foo_entry example_foo_update = OK self'
    /\ cem_value self'
       = Some (Struct "foo" [("x", Scalar (Int64 9)); ("y", Scalar (String_ "hello"))])
    /\ exists fields',
         cem_value self' = Some (Struct "foo" fields')
         /\ dict_get fields' "y" = Some (Scalar (String_ "hello")).
Proof.
  eexists. split; [reflexivity|]. split; [reflexivity|].
  destruct (update_from_tahu_merges_present_fields example_host example_foo_entry _
              example_foo_update _ "foo" _ eq_refl eq_refl eq_refl
              ltac:(apply NoDup_singleton) eq_refl)
    as (fields' & H1 & _ & H2 & _).
  exists fields'. split; [exact H1|].
  rewrite H2; [reflexivity|]. simpl. intros [H|[]]. discriminate.
Defined.

(** ** The round trip through a wire metric *)

Lemma IcypawValue_nested_ind (P : IcypawValue -> Prop) :
  (forall s, P (Scalar s)) ->
  (forall nn fields, Forall (fun f => P (snd f)) fields -> P (Struct nn fields)) ->
  (forall e items, P (Array e items)) ->
  forall v, P v.
Proof.
  intros Hs Hst Ha. fix IH 1. intros [s|nn fields|e items].
  - apply Hs.
  - apply Hst. induction fields as [|f fields IHf]; constructor; [apply IH|exact IHf].
  - apply Ha.
Qed.

Lemma IcypawClass_nested_ind (P : IcypawClass -> Prop) :
  (forall c, P (scalar_class c)) ->
  (forall nn decls, Forall (fun d => P (fst (snd d))) decls -> P (struct_class nn decls)) ->
  (forall e, P (array_class e)) ->
  forall cls, P cls.
Proof.
  intros Hs Hst Ha. fix IH 1. intros [c|nn decls|e].
  - apply Hs.
  - apply Hst. induction decls as [|d decls IHd]; constructor; [apply IH|exact IHd].
  - apply Ha.
Qed.

Lemma well_typed_Struct nn fields nn' decls :
  well_typed (Struct nn fields) (struct_class nn' decls)
  = String.eqb nn nn' && fields_well_typed fields decls.
Proof.
  reflexivity.
Qed.

Ltac Zbool :=
  repeat match goal with
         | H : (_ && _) = true |- _ => apply andb_true_iff in H as [? ?]
         | H : (_ <=? _) = true |- _ => apply Z.leb_le in H
         | H : (_ <? _) = true |- _ => apply Z.ltb_lt in H
         end.

Ltac Zcases :=
  repeat match goal with
         | |- context [?a <? ?b] => destruct (Z.ltb_spec a b); try lia
         | |- context [?a <=? ?b] => destruct (Z.leb_spec a b); try lia
         end.

(** The scalar core of the round trip: what [set_in_tahu_object] writes for
    a scalar other than [DateTime] is a scalar member of the one-of from
    which the type's [merge_with_metric] reads the value back. *)
Lemma scalar_roundtrip host s c :
  scalar_well_typed s c = true -> scalar_class_datetime_free c = true ->
  exists f,
    set_in_tahu_object (icpw_value s) (scalar_datatype c) = OK (scalar_value f)
    /\ forall s0 null, scalar_class_of s0 = c ->
         scalar_merge_with_metric host s0 null (Some f) = OK s.
Proof.
  intros Hwt Hdf.
  destruct s as [v|v|v|v|v|v|v|v], c; simpl in Hwt, Hdf; try discriminate; Zbool.
  - exists (int_value v). split.
    + simpl. unfold convert_to_unsigned32. Zcases; simpl; try reflexivity.
      assert (v = 0) by lia. subst v. reflexivity.
    + intros [ ] null Hc; try discriminate. reflexivity.
  - exists (int_value (if 0 <? v then v else v mod 2 ^ 32)). split.
    + simpl. unfold convert_to_unsigned32. Zcases; reflexivity.
    + intros [ ] null Hc; try discriminate. simpl.
      unfold convert_to_signed32, reinterpret_signed.
      destruct (Z.ltb_spec 0 v).
      * Zcases; reflexivity.
      * assert (Hm : v mod 2 ^ 32 = if v =? 0 then 0 else v + 2 ^ 32).
        { destruct (Z.eqb_spec v 0) as [->|Hne]; [reflexivity|].
          symmetry. apply (Z.mod_unique _ _ (-1)); lia. }
        rewrite Hm. destruct (Z.eqb_spec v 0) as [->|Hne]; [reflexivity|].
        Zcases; simpl; f_equal; f_equal; lia.
  - exists (long_value (if 0 <? v then v else v mod 2 ^ 64)). split.
    + simpl. unfold convert_to_unsigned64. Zcases; reflexivity.
    + intros [ ] null Hc; try discriminate. simpl.
      unfold convert_to_signed64, reinterpret_signed.
      destruct (Z.ltb_spec 0 v).
      * Zcases; reflexivity.
      * assert (Hm : v mod 2 ^ 64 = if v =? 0 then 0 else v + 2 ^ 64).
        { destruct (Z.eqb_spec v 0) as [->|Hne]; [reflexivity|].
          symmetry. apply (Z.mod_unique _ _ (-1)); lia. }
        rewrite Hm. destruct (Z.eqb_spec v 0) as [->|Hne]; [reflexivity|].
        Zcases; simpl; f_equal; f_equal; lia.
  - exists (long_value v). split.
    + simpl. unfold convert_to_unsigned64. Zcases; simpl; try reflexivity.
      assert (v = 0) by lia. subst v. reflexivity.
    + intros [ ] null Hc; try discriminate. reflexivity.
  - exists (double_value v). split; [reflexivity|].
    intros [ ] null Hc; try discriminate. reflexivity.
  - exists (boolean_value v). split; [reflexivity|].
    intros [ ] null Hc; try discriminate. reflexivity.
  - exists (string_value v). split; [reflexivity|].
    intros [ ] null Hc; try discriminate. reflexivity.
Qed.

Lemma scalar_well_typed_class s c : scalar_well_typed s c = true -> scalar_class_of s = c.
Proof. destruct s, c; simpl; intros H; try discriminate; reflexivity. Qed.

Lemma scalar_default_class host c : scalar_class_of (scalar_default host c) = c.
Proof. destruct c; reflexivity. Qed.

Lemma scalar_element_roundtrip host s c :
  scalar_well_typed s c = true -> scalar_class_datetime_free c = true ->
  exists e,
    set_in_dataset_value (icpw_value s) (scalar_datatype c) = OK e
    /\ scalar_value_from_element host c e = OK s.
Proof.
  intros Hwt Hdf. destruct (scalar_roundtrip host s c Hwt Hdf) as (f & Hset & Hget).
  exists (Some f). unfold set_in_dataset_value, scalar_value_from_element.
  rewrite Hset. split; [reflexivity|]. apply Hget, scalar_default_class.
Qed.

Lemma tuple_roundtrip host l cs :
  scalars_well_typed l cs = true -> forallb scalar_class_datetime_free cs = true ->
  List.length l = List.length cs
  /\ exists row,
       mapM (fun p => set_in_dataset_value (icpw_value (fst p)) (scalar_datatype (snd p)))
         (zip l cs) = OK row
       /\ mapM (fun p => scalar_value_from_element host (snd p) (fst p)) (zip row cs) = OK l.
Proof.
  revert cs. induction l as [|s l IH]; intros [|c cs] Hwt Hdf; simpl in *; try discriminate.
  - split; [reflexivity|]. exists []. split; reflexivity.
  - apply andb_true_iff in Hwt as [Hs Hl]. apply andb_true_iff in Hdf as [Hc Hcs].
    destruct (IH cs Hl Hcs) as (Hlen & row & Hset & Hget).
    destruct (scalar_element_roundtrip host s c Hs Hc) as (e & He1 & He2).
    split; [congruence|]. exists (e :: row).
    rewrite He1, Hset. simpl. rewrite He2, Hget. split; reflexivity.
Qed.

Lemma item_roundtrip host e item :
  item_well_typed e item = true -> datetime_free (array_class e) = true ->
  exists row,
    array_row_to_dataset e item = OK row /\ array_item_from_row host e row = OK item.
Proof.
  intros Hwt Hdf. destruct e as [c|cs], item as [s|l]; simpl in *; try discriminate.
  - destruct (scalar_element_roundtrip host s c Hwt Hdf) as (e & He1 & He2).
    exists [e]. rewrite He1. simpl. rewrite He2. split; reflexivity.
  - destruct (tuple_roundtrip host l cs Hwt Hdf) as (Hlen & row & Hset & Hget).
    exists row. rewrite Hlen, Z.eqb_refl, Hset, Hget. split; reflexivity.
Qed.

Lemma items_roundtrip host e items :
  forallb (item_well_typed e) items = true -> datetime_free (array_class e) = true ->
  exists rows,
    mapM (array_row_to_dataset e) items = OK rows
    /\ mapM (array_item_from_row host e) rows = OK items.
Proof.
  intros Hwt Hdf. induction items as [|item items IH]; simpl in *.
  - exists []. split; reflexivity.
  - apply andb_true_iff in Hwt as [Hi His].
    destruct (IH His) as (rows & Hset & Hget).
    destruct (item_roundtrip host e item Hi Hdf) as (row & Hr1 & Hr2).
    exists (row :: rows). rewrite Hr1, Hset. simpl. rewrite Hr2, Hget. split; reflexivity.
Qed.

Lemma nodup_names_cons n rest :
  nodup_names (n :: rest) = true <-> ~ In n rest /\ nodup_names rest = true.
Proof.
  simpl. rewrite andb_true_iff, negb_true_iff. split; intros [H1 H2]; split; auto.
  - intros Hin. assert (existsb (String.eqb n) rest = true); [|congruence].
    apply existsb_exists. exists n. split; [exact Hin|apply String.eqb_refl].
  - destruct (existsb (String.eqb n) rest) eqn:E; [|reflexivity].
    apply existsb_exists in E as (x & Hin & Hx). apply String.eqb_eq in Hx. subst x.
    contradiction.
Qed.

Lemma dict_get_app_notin {V : Type} (d1 d2 : list (string * V)) k :
  ~ In k (dict_keys d1) -> dict_get (d1 ++ d2)%list k = dict_get d2 k.
Proof.
  induction d1 as [|[k' v'] d1 IH]; simpl; intros Hn; [reflexivity|].
  destruct (decide (k = k')) as [->|Hne]; [tauto|]. apply IH. tauto.
Qed.

Lemma dict_set_app_notin {V : Type} (d1 d2 : list (string * V)) k v :
  ~ In k (dict_keys d1) -> dict_set (d1 ++ d2)%list k v = (d1 ++ dict_set d2 k v)%list.
Proof.
  induction d1 as [|[k' v'] d1 IH]; simpl; intros Hn; [reflexivity|].
  destruct (decide (k = k')) as [->|Hne]; [tauto|]. rewrite IH by tauto. reflexivity.
Qed.

(** Merging the encoding of a record into any record of the same class
    replaces every field, in order. *)
Lemma merge_fields_aligned host fields decls metrics :
  aligned host fields decls metrics ->
  forall done fields0,
    fields_well_typed fields0 decls = true ->
    nodup_names (List.map fst decls) = true ->
    (forall d, In d decls -> ~ In (fst d) (dict_keys done)) ->
    merge_fields host metrics (done ++ fields0)%list = OK (done ++ fields)%list.
Proof.
  induction 1 as [|f d m fields decls metrics Hfd Hname Hmerge Hal IH];
    intros done fields0 Hwt Hnd Hdone.
  - destruct fields0; [reflexivity|discriminate].
  - destruct fields0 as [|f0 fields0]; [discriminate|].
    simpl in Hwt. apply andb_true_iff in Hwt as [Hwt Hrest].
    apply andb_true_iff in Hwt as [Hn0 Hv0]. apply String.eqb_eq in Hn0.
    simpl in Hnd. apply nodup_names_cons in Hnd as [Hnotin Hnd].
    assert (Hk : ~ In (fst f) (dict_keys done)).
    { rewrite Hfd. apply Hdone. left. reflexivity. }
    simpl. unfold name_of at 1. rewrite Hname.
    rewrite dict_get_app_notin by exact Hk.
    destruct f0 as [n0 v0]. simpl in Hn0, Hv0. subst n0. rewrite <- Hfd. simpl.
    destruct (decide (fst f = fst f)); [|congruence].
    rewrite (Hmerge v0 Hv0). simpl. unfold name_of. rewrite Hname.
    rewrite dict_set_app_notin by exact Hk. simpl.
    destruct (decide (fst f = fst f)); [|congruence].
    replace (done ++ (fst f, snd f) :: fields0)%list
      with ((done ++ [f]) ++ fields0)%list
      by (rewrite <- List.app_assoc; destruct f; reflexivity).
    rewrite (IH (done ++ [f])%list fields0 Hrest Hnd).
    + rewrite <- List.app_assoc. reflexivity.
    + intros d' Hin. unfold dict_keys. rewrite List.map_app, in_app_iff. simpl.
      intros [Hc|[Hc|[]]].
      * apply (Hdone d'); [right; exact Hin|exact Hc].
      * apply Hnotin. rewrite <- Hfd, Hc. apply in_map, Hin.
Qed.

Lemma set_metric_value_effect value datatype metric v :
  set_in_tahu_object value datatype = OK v ->
  set_metric_value value datatype metric
  = OK (set_value v (set_datatype (DataType.value datatype) metric)).
Proof. unfold set_metric_value. intros ->. reflexivity. Qed.

(** The round trip, against any value of the class as the starting point of
    the merge. *)
Lemma roundtrip_general host v :
  forall cls, well_typed v cls = true -> class_wf cls = true -> datetime_free cls = true ->
  forall metric,
    exists m',
      set_in_metric host v metric = OK m'
      /\ m_name m' = m_name metric
      /\ forall v0, well_typed v0 cls = true -> merge_with_metric host m' v0 = OK v.
Proof.
  induction v as [s|nn fields IHf|e items] using IcypawValue_nested_ind;
    intros cls Hwt Hwf Hdf metric.
  - destruct cls as [c| |]; simpl in Hwt; try discriminate. simpl in Hdf.
    destruct (scalar_roundtrip host s c Hwt Hdf) as (f & Hset & Hget).
    pose proof (scalar_well_typed_class s c Hwt) as Hc.
    exists (set_value (scalar_value f) (set_datatype (DataType.value (scalar_datatype c)) metric)).
    split; [|split; [reflexivity|]].
    + simpl. unfold scalar_set_in_metric. rewrite Hc.
      destruct s; try (apply set_metric_value_effect; exact Hset).
      subst c. discriminate.
    + intros [s0| |] Hwt0; simpl in Hwt0; try discriminate. simpl.
      rewrite (Hget s0 _ (scalar_well_typed_class s0 c Hwt0)). reflexivity.
  - destruct cls as [|nn' decls|]; try discriminate.
    rewrite well_typed_Struct in Hwt. apply andb_true_iff in Hwt as [Hnn Hfields].
    apply String.eqb_eq in Hnn. subst nn'.
    simpl in Hwf. apply andb_true_iff in Hwf as [Hnd Hwfs]. simpl in Hdf.
    assert (Henc : exists metrics,
               mapM (fun f => set_in_metric host (snd f) (set_name (fst f) Metric_new)) fields
               = OK metrics /\ aligned host fields decls metrics).
    { clear Hnd. revert decls Hfields Hwfs Hdf.
      induction IHf as [|f fields Hf _ IH]; intros [|d decls] Hfields Hwfs Hdf;
        simpl in Hfields; try discriminate.
      - exists []. split; [reflexivity|constructor].
      - apply andb_true_iff in Hfields as [Hfd Hrest].
        apply andb_true_iff in Hfd as [Hn Hv]. apply String.eqb_eq in Hn.
        simpl in Hwfs, Hdf. apply andb_true_iff in Hwfs as [Hwfd Hwfs].
        apply andb_true_iff in Hwfd as [Hwfd _]. apply andb_true_iff in Hdf as [Hdfd Hdf].
        destruct (IH decls Hrest Hwfs Hdf) as (metrics & Hm & Hal).
        destruct (Hf _ Hv Hwfd Hdfd (set_name (fst f) Metric_new)) as (m & Hset & Hname & Hget).
        exists (m :: metrics). simpl. rewrite Hset, Hm. split; [reflexivity|].
        constructor; auto. }
    destruct Henc as (metrics & Hm & Hal).
    exists (set_value (template_value (mkTemplate metrics (Some nn) None))
              (set_datatype (DataType.value DataType.Template) metric)).
    split; [|split; [reflexivity|]].
    + simpl. rewrite Hm. reflexivity.
    + intros [|nn0 fields0|] Hwt0; try discriminate.
      rewrite well_typed_Struct in Hwt0. apply andb_true_iff in Hwt0 as [Hnn0 Hfields0].
      apply String.eqb_eq in Hnn0. subst nn0.
      rewrite merge_with_metric_Struct. simpl.
      pose proof (merge_fields_aligned host fields decls metrics Hal [] fields0 Hfields0 Hnd)
        as Hmf.
      simpl in Hmf. rewrite Hmf; [reflexivity|]. intros d _ [].
  - destruct cls as [| |e']; try discriminate. simpl in Hwt.
    apply andb_true_iff in Hwt as [He Hitems]. apply bool_decide_eq_true in He. subst e'.
    destruct (items_roundtrip host e items Hitems Hdf) as (rows & Hset & Hget).
    eexists. split; [|split].
    + simpl. unfold array_to_dataset. rewrite Hset. simpl. reflexivity.
    + reflexivity.
    + intros [| |e0 items0] Hwt0; try discriminate. simpl in Hwt0.
      apply andb_true_iff in Hwt0 as [He0 _]. apply bool_decide_eq_true in He0. subst e0.
      simpl. rewrite Hget. reflexivity.
Qed.

(** An instance built from no argument is a value of its class. *)
Lemma scalar_default_well_typed host c : scalar_well_typed (scalar_default host c) c = true.
Proof. destruct c; reflexivity. Qed.

Lemma new_instance_well_typed host cls :
  class_wf cls = true -> well_typed (new_instance host cls) cls = true.
Proof.
  induction cls as [c|nn decls IH|e] using IcypawClass_nested_ind; intros Hwf.
  - apply scalar_default_well_typed.
  - simpl in Hwf. apply andb_true_iff in Hwf as [_ Hwf].
    change (new_instance host (struct_class nn decls))
      with (Struct nn (List.map (fun f => (fst f, match snd (snd f) with
                                                   | Some v => v
                                                   | None => new_instance host (fst (snd f))
                                                   end)) decls)).
    rewrite well_typed_Struct, String.eqb_refl. simpl.
    induction IH as [|d decls Hd _ IHd]; [reflexivity|].
    simpl in Hwf. apply andb_true_iff in Hwf as [Hwfd Hwf].
    apply andb_true_iff in Hwfd as [Hwfd Hdef].
    simpl. rewrite String.eqb_refl, (IHd Hwf), andb_true_r. simpl.
    destruct (snd (snd d)); [exact Hdef|apply Hd, Hwfd].
  - simpl. apply andb_true_iff. split; [apply bool_decide_eq_true; reflexivity|reflexivity].
Qed.

(** *** Python equality on the values of a class *)

Lemma scalar_eq_refl s : scalar_nan_free s = true -> scalar_eq s s = true.
Proof.
  unfold scalar_eq. destruct s as [v|v|v|v|v|v|v|v]; simpl; intros H;
    try apply Z.eqb_refl.
  - exact H.
  - destruct v; reflexivity.
  - apply String.eqb_refl.
  - unfold datetime_eq. destruct (dt_utcoffset v); apply Z.eqb_refl.
Qed.

Lemma list_eq_refl {A : Type} (eq : A -> A -> bool) (l : list A) :
  (forall x, In x l -> eq x x = true) -> list_eq eq l l = true.
Proof.
  induction l as [|x l IH]; simpl; intros H; [reflexivity|].
  rewrite (H x (or_introl eq_refl)), IH; [reflexivity|]. intros y Hy. apply H. right. exact Hy.
Qed.

Lemma item_eq_refl item : item_nan_free item = true -> item_eq item item = true.
Proof.
  destruct item as [s|l]; simpl; intros H; [apply scalar_eq_refl, H|].
  apply list_eq_refl. intros x Hx. apply scalar_eq_refl.
  rewrite forallb_forall in H. apply H, Hx.
Qed.

Lemma fields_well_typed_names fields decls :
  fields_well_typed fields decls = true -> List.map fst fields = List.map fst decls.
Proof.
  revert decls. induction fields as [|f fields IH]; intros [|d decls] H;
    simpl in *; try discriminate; [reflexivity|].
  apply andb_true_iff in H as [H Hrest]. apply andb_true_iff in H as [Hn _].
  apply String.eqb_eq in Hn. rewrite Hn, (IH decls Hrest). reflexivity.
Qed.

Lemma fields_well_typed_In fields decls :
  fields_well_typed fields decls = true ->
  forallb (fun d => class_wf (fst (snd d))
                    && match snd (snd d) with
                       | Some v => well_typed v (fst (snd d))
                       | None => true
                       end) decls = true ->
  forall f, In f fields ->
    exists cls, well_typed (snd f) cls = true /\ class_wf cls = true.
Proof.
  revert decls. induction fields as [|f0 fields IH]; intros [|d decls] H Hwf f Hin;
    simpl in *; try discriminate; [contradiction|].
  apply andb_true_iff in H as [H Hrest]. apply andb_true_iff in H as [_ Hv].
  apply andb_true_iff in Hwf as [Hwfd Hwf]. apply andb_true_iff in Hwfd as [Hwfd _].
  destruct Hin as [<-|Hin]; [eauto|]. eapply IH; eauto.
Qed.

Lemma dict_get_In_nodup {V : Type} (d : list (string * V)) f :
  nodup_names (List.map fst d) = true -> In f d -> dict_get d (fst f) = Some (snd f).
Proof.
  induction d as [|[k v] d IH]; simpl; intros Hnd Hin; [contradiction|].
  change (negb (existsb (String.eqb k) (List.map fst d)) && nodup_names (List.map fst d))
    with (nodup_names (k :: List.map fst d)) in Hnd.
  apply nodup_names_cons in Hnd as [Hnotin Hnd].
  destruct Hin as [<-|Hin]; simpl.
  - destruct (decide (k = k)); congruence.
  - destruct (decide (fst f = k)) as [<-|Hne]; [|apply IH; assumption].
    exfalso. apply Hnotin, in_map, Hin.
Qed.

(** A value of a class that holds no NaN equals itself. *)
Lemma icpw_eq_refl v :
  forall cls, well_typed v cls = true -> class_wf cls = true -> nan_free v = true ->
  icpw_eq v v = true.
Proof.
  induction v as [s|nn fields IHf|e items] using IcypawValue_nested_ind;
    intros cls Hwt Hwf Hnan.
  - apply scalar_eq_refl, Hnan.
  - destruct cls as [|nn' decls|]; try discriminate.
    rewrite well_typed_Struct in Hwt. apply andb_true_iff in Hwt as [_ Hfields].
    simpl in Hwf. apply andb_true_iff in Hwf as [Hnd Hwfs].
    simpl in Hnan. simpl. rewrite Nat.eqb_refl. simpl.
    apply forallb_forall. intros f Hin.
    rewrite dict_get_In_nodup;
      [|rewrite (fields_well_typed_names _ _ Hfields); exact Hnd|exact Hin].
    rewrite List.Forall_forall in IHf.
    destruct (fields_well_typed_In _ _ Hfields Hwfs f Hin) as (cls & Hc1 & Hc2).
    apply (IHf f Hin cls Hc1 Hc2).
    rewrite forallb_forall in Hnan. apply Hnan, Hin.
  - simpl. apply list_eq_refl. intros item Hin. apply item_eq_refl.
    simpl in Hnan. rewrite forallb_forall in Hnan. apply Hnan, Hin.
Qed.

(** C6 (as the code has it).  For every value of every class that does not
    involve [DateTime] (the other scalars, records and arrays of them),
    writing the value into a wire metric and decoding the metric as the
    class rebuilds the very same value; it compares equal to the original
    under [==] when it holds no NaN. *)
Theorem set_in_metric_roundtrip (host : Host) (cls : IcypawClass) (v : IcypawValue)
    (metric : Metric) :
  well_typed v cls = true -> class_wf cls = true -> datetime_free cls = true ->
  exists m' v',
    set_in_metric host v metric = OK m'
    /\ value_from_metric host m' cls = OK v'
    /\ v' = v
    /\ (nan_free v = true -> icpw_eq v' v = true).
Proof.
  intros Hwt Hwf Hdf.
  destruct (roundtrip_general host v cls Hwt Hwf Hdf metric) as (m' & Hset & _ & Hget).
  exists m', v. split; [exact Hset|]. split; [|split; [reflexivity|]].
  - unfold value_from_metric. apply Hget, new_instance_well_typed, Hwf.
  - intros Hnan. eapply icpw_eq_refl; eauto.
Qed.

Lemma set_in_metric_roundtrip_witness :
  exists m' v',
    set_in_metric example_host
      (Struct "foo" [("x", Scalar (Int64 (-7))); ("y", Scalar (String_ "hello"))])
      Metric_new = OK m'
    /\ value_from_metric example_host m' example_foo_class = OK v'
    /\ v' = Struct "foo" [("x", Scalar (Int64 (-7))); ("y", Scalar (String_ "hello"))]
    /\ (nan_free (Struct "foo" [("x", Scalar (Int64 (-7))); ("y", Scalar (String_ "hello"))])
        = true ->
        icpw_eq v'
          (Struct "foo" [("x", Scalar (Int64 (-7))); ("y", Scalar (String_ "hello"))])
        = true).
Proof.
  apply (set_in_metric_roundtrip example_host example_foo_class
           (Struct "foo" [("x", Scalar (Int64 (-7))); ("y", Scalar (String_ "hello"))])
           Metric_new); reflexivity.
Defined.

(** C6 as stated fails for [DateTime]: a naive [datetime] comes back as an
    aware one, and Python does not hold a naive and an aware [datetime]
    equal. *)
Lemma DateTime_roundtrip_not_equal :
  exists m' v',
    set_in_metric example_host (Scalar (DateTime (mkdatetime 0 None))) Metric_new = OK m'
    /\ value_from_metric example_host m' (scalar_class cDateTime) = OK v'
    /\ v' = Scalar (DateTime (mkdatetime 0 (Some 0)))
    /\ icpw_eq v' (Scalar (DateTime (mkdatetime 0 None))) = false.
Proof.
  eexists. eexists. split; [reflexivity|]. split; [reflexivity|].
  split; reflexivity.
Qed.

(** The decoded [DateTime] is aware on every host, so it never equals a
    naive original. *)
Lemma DateTime_roundtrip_aware host d metric m' v' :
  dt_utcoffset d = None ->
  set_in_metric host (Scalar (DateTime d)) metric = OK m' ->
  m_is_null metric = false ->
  value_from_metric host m' (scalar_class cDateTime) = OK v' ->
  icpw_eq v' (Scalar (DateTime d)) = false.
Proof.
  intros Hd Hset Hnull Hget. simpl in Hset. unfold scalar_set_in_metric in Hset.
  unfold set_metric_value in Hset.
  destruct (set_in_tahu_object _ _) as [mv|]; simpl in Hset; [|discriminate].
  injection Hset as <-. unfold value_from_metric in Hget. simpl in Hget. rewrite Hnull in Hget.
  destruct (host_fromtimestamp_us host _); simpl in Hget; [|discriminate].
  injection Hget as <-. simpl. unfold scalar_eq. simpl. unfold datetime_eq. simpl.
  rewrite Hd. reflexivity.
Qed.

(** ** De-duplication of received messages *)

Section ClientFacts.
Context {D : Type}.
Context (ParseFromString : string -> result Payload).
Context (_on_birth _on_death _on_data
         : Topic -> ClientEndpointName -> Payload -> D -> D * result unit).
Context (_route_message_to_user
         : Event -> Topic -> ClientEndpointName -> Payload -> D -> D * result unit).

(** A message whose fingerprint is the one recorded for its topic changes
    nothing. *)
Lemma _on_message_seen (self : IcypawClient D) (m : MQTTMessage) payload ts sq :
  ParseFromString (msg_payload m) = OK payload ->
  p_timestamp payload = Some ts -> p_seq payload = Some sq ->
  _seen_messages self !! msg_topic m = Some (ts, sq) ->
  _on_message ParseFromString _on_birth _on_death _on_data _route_message_to_user self m
  = self.
Proof.
  intros Hp Hts Hsq Hseen. unfold _on_message, _on_message_no_try.
  destruct (String.eqb (msg_payload m) ""); [reflexivity|].
  destruct (parse_topic (msg_topic m)) as [tp|]; [|reflexivity].
  destruct (ClientEndpointName_of_topic tp) as [name|]; [|reflexivity].
  rewrite Hp, Hts, Hsq, Hseen. simpl. rewrite !Z.eqb_refl. reflexivity.
Qed.

(** A fingerprinted message that gets as far as the de-duplication leaves
    its fingerprint recorded for its topic. *)
Lemma _on_message_records (self : IcypawClient D) (m : MQTTMessage) tp name payload ts sq :
  msg_payload m <> "" ->
  parse_topic (msg_topic m) = OK tp ->
  ClientEndpointName_of_topic tp = OK name ->
  ParseFromString (msg_payload m) = OK payload ->
  p_timestamp payload = Some ts -> p_seq payload = Some sq ->
  _seen_messages (_on_message ParseFromString _on_birth _on_death _on_data _route_message_to_user
                    self m) !! msg_topic m = Some (ts, sq).
Proof.
  intros Hne Htp Hname Hp Hts Hsq. unfold _on_message, _on_message_no_try.
  destruct (String.eqb (msg_payload m) "") eqn:E;
    [apply String.eqb_eq in E; contradiction|].
  rewrite Htp, Hname, Hp, Hts, Hsq.
  destruct (_seen_messages self !! msg_topic m) as [[ts' sq']|] eqn:Hseen; simpl.
  - destruct (ts' =? ts) eqn:E1; destruct (sq' =? sq) eqn:E2; simpl;
      try (destruct (route_message _ _ _ _ _ _ _ _) as [data r]; simpl;
           apply lookup_insert_eq).
    apply Z.eqb_eq in E1, E2. subst. exact Hseen.
  - destruct (route_message _ _ _ _ _ _ _ _) as [data r]; simpl.
    apply lookup_insert_eq.
Qed.

(** A message leaves the fingerprints of the other topics alone. *)
Lemma _on_message_other_topic (self : IcypawClient D) (m : MQTTMessage) (t : string) :
  msg_topic m <> t ->
  _seen_messages (_on_message ParseFromString _on_birth _on_death _on_data _route_message_to_user
                    self m) !! t = _seen_messages self !! t.
Proof.
  intros Hne. unfold _on_message, _on_message_no_try.
  destruct (String.eqb (msg_payload m) ""); [reflexivity|].
  destruct (parse_topic (msg_topic m)) as [tp|]; [|reflexivity].
  destruct (ClientEndpointName_of_topic tp) as [name|]; [|reflexivity].
  destruct (ParseFromString (msg_payload m)) as [payload|]; [|reflexivity].
  destruct (p_timestamp payload) as [ts|], (p_seq payload) as [sq|];
    try (destruct (route_message _ _ _ _ _ _ _ _) as [data r]; reflexivity).
  destruct (_seen_messages self !! msg_topic m) as [[ts' sq']|]; simpl.
  - destruct ((ts' =? ts) && (sq' =? sq)); [reflexivity|].
    destruct (route_message _ _ _ _ _ _ _ _) as [data r]; simpl.
    apply lookup_insert_ne. exact Hne.
  - destruct (route_message _ _ _ _ _ _ _ _) as [data r]; simpl.
    apply lookup_insert_ne. exact Hne.
Qed.

Lemma receive_other_topics (self : IcypawClient D) (ms : list MQTTMessage) (t : string) :
  Forall (fun m0 => msg_topic m0 <> t) ms ->
  _seen_messages (receive ParseFromString _on_birth _on_death _on_data _route_message_to_user
                    self ms) !! t = _seen_messages self !! t.
Proof.
  revert self. induction ms as [|m0 ms IH]; intros self Hms; [reflexivity|].
  apply Forall_cons in Hms as [H0 Hms]. unfold receive. simpl.
  etransitivity; [apply (IH _ Hms)|]. apply _on_message_other_topic, H0.
Qed.

(** C9 (as the code has it).  The client remembers, for each topic, the
    fingerprint of the last message it processed there.  When a message that
    carries a timestamp and a seq is delivered a second time on its topic,
    with only messages of other topics received in between, the second
    delivery changes nothing: no table update, no callback. *)
Theorem repeated_delivery_dropped (self : IcypawClient D) (m m' : MQTTMessage)
    (ms : list MQTTMessage) tp name payload payload' ts sq :
  msg_payload m <> "" ->
  parse_topic (msg_topic m) = OK tp ->
  ClientEndpointName_of_topic tp = OK name ->
  ParseFromString (msg_payload m) = OK payload ->
  p_timestamp payload = Some ts -> p_seq payload = Some sq ->
  msg_topic m' = msg_topic m ->
  ParseFromString (msg_payload m') = OK payload' ->
  p_timestamp payload' = Some ts -> p_seq payload' = Some sq ->
  Forall (fun m0 => msg_topic m0 <> msg_topic m) ms ->
  receive ParseFromString _on_birth _on_death _on_data _route_message_to_user
    self (m :: ms ++ [m'])
  = receive ParseFromString _on_birth _on_death _on_data _route_message_to_user
      self (m :: ms).
Proof.
  intros Hne Htp Hname Hp Hts Hsq Htopic Hp' Hts' Hsq' Hms.
  unfold receive. rewrite app_comm_cons, fold_left_app. simpl.
  apply (_on_message_seen _ m' payload' ts sq Hp' Hts' Hsq').
  rewrite Htopic.
  etransitivity; [apply (receive_other_topics _ ms _ Hms)|].
  apply (_on_message_records self m tp name payload ts sq); assumption.
Qed.
End ClientFacts.

Lemma repeated_delivery_dropped_witness :
  example_receive
    [mkMQTTMessage "spBv1.0/G/NDATA/N" "A"; mkMQTTMessage "spBv1.0/G/NDATA/M" "B";
     mkMQTTMessage "spBv1.0/G/NDATA/N" "A"]
  = example_receive
      [mkMQTTMessage "spBv1.0/G/NDATA/N" "A"; mkMQTTMessage "spBv1.0/G/NDATA/M" "B"].
Proof.
  unfold example_receive. refine (f_equal _client_data _).
  apply (repeated_delivery_dropped example_decoder example_table_handler
           example_table_handler example_table_handler example_user_route
           (mkIcypawClient ∅ []) (mkMQTTMessage "spBv1.0/G/NDATA/N" "A")
           (mkMQTTMessage "spBv1.0/G/NDATA/N" "A")
           [mkMQTTMessage "spBv1.0/G/NDATA/M" "B"]
           (NodeTopic "spBv1.0" "G" "NDATA" "N")
           (mkClientEndpointName (comp_str "G") (comp_str "N") comp_None)
           (mkPayload (Some 1) (Some 0) []) (mkPayload (Some 1) (Some 0) []) 1 0);
    try reflexivity.
  - discriminate.
  - repeat constructor. discriminate.
Defined.

(** C9 as stated fails: only the last fingerprint of a topic is kept, so a
    fingerprint that comes back on the topic after a different one is routed
    to the user a second time. *)
Lemma fingerprint_routed_twice :
  example_receive
    [mkMQTTMessage "spBv1.0/G/NDATA/N" "A"; mkMQTTMessage "spBv1.0/G/NDATA/N" "B";
     mkMQTTMessage "spBv1.0/G/NDATA/N" "A"]
  = [(Some 1, Some 0); (Some 2, Some 1); (Some 1, Some 0)].
Proof. vm_compute. reflexivity. Qed.

(** ** The publication step of the engine *)

(** *** Topics built by the interface *)

Lemma split_slash_free sep s : contains_char sep s = false -> split sep s = [s].
Proof.
  induction s as [|c s IH]; simpl; intros H; [reflexivity|].
  apply orb_false_iff in H as [Hc Hs].
  destruct (Ascii.eqb_spec c sep) as [->|_].
  - rewrite Ascii.eqb_refl in Hc. discriminate.
  - rewrite (IH Hs). reflexivity.
Qed.

Lemma split_app sep a b :
  contains_char sep a = false ->
  split sep (a ++ String.String sep b) = a :: split sep b.
Proof.
  induction a as [|c a IH]; simpl; intros H.
  - rewrite Ascii.eqb_refl. reflexivity.
  - apply orb_false_iff in H as [Hc Ha].
    destruct (Ascii.eqb_spec c sep) as [->|_].
    + rewrite Ascii.eqb_refl in Hc. discriminate.
    + rewrite (IH Ha). reflexivity.
Qed.

Lemma node_topic_fields ns g mt n :
  contains_char "/" ns = false -> contains_char "/" g = false ->
  contains_char "/" mt = false -> contains_char "/" n = false ->
  split "/" (ns ++ "/" ++ g ++ "/" ++ mt ++ "/" ++ n) = [ns; g; mt; n].
Proof.
  intros Hns Hg Hmt Hn.
  change ("/" ++ g ++ "/" ++ mt ++ "/" ++ n)
    with (String.String "/" (g ++ String.String "/" (mt ++ String.String "/" n))).
  rewrite !split_app by assumption. rewrite split_slash_free by assumption. reflexivity.
Qed.

Lemma string_append_assoc (a b c : string) : (a ++ b) ++ c = a ++ (b ++ c).
Proof.
  induction a as [|x a IH]; [reflexivity|].
  change (String.String x ((a ++ b) ++ c) = String.String x (a ++ (b ++ c))).
  f_equal. exact IH.
Qed.

Lemma string_append_cons (x : ascii) (a b : string) :
  String.String x a ++ b = String.String x (a ++ b).
Proof. reflexivity. Qed.

Lemma device_topic_fields ns g mt n d :
  contains_char "/" ns = false -> contains_char "/" g = false ->
  contains_char "/" mt = false -> contains_char "/" n = false ->
  contains_char "/" d = false ->
  split "/" ((ns ++ "/" ++ g ++ "/" ++ mt ++ "/" ++ n) ++ "/" ++ d) = [ns; g; mt; n; d].
Proof.
  intros Hns Hg Hmt Hn Hd.
  replace ((ns ++ "/" ++ g ++ "/" ++ mt ++ "/" ++ n) ++ "/" ++ d)
    with (ns ++ String.String "/" (g ++ String.String "/" (mt ++ String.String "/"
            (n ++ String.String "/" d)))).
  - rewrite !split_app by assumption. rewrite split_slash_free by assumption. reflexivity.
  - change ("/" ++ d) with (String.String "/" d).
    change ("/" ++ g ++ "/" ++ mt ++ "/" ++ n)
      with (String.String "/" (g ++ String.String "/" (mt ++ String.String "/" n))).
    repeat (rewrite string_append_assoc || rewrite string_append_cons). reflexivity.
Qed.

Lemma not_data_topic_node t ns g mt n :
  split "/" t = [ns; g; mt; n] ->
  String.eqb (upper mt) "NDATA" || String.eqb (upper mt) "DDATA" = false ->
  is_data_topic t = false.
Proof.
  intros Hs Hmt. unfold is_data_topic, parse_topic. rewrite Hs. unfold NodeTopic_init.
  destruct (validate_topic_component ns); simpl; [|reflexivity].
  destruct (validate_topic_component g); simpl; [|reflexivity].
  destruct (validate_topic_component mt) eqn:E; simpl; [|reflexivity].
  apply validate_topic_component_OK in E. subst.
  destruct (validate_topic_component n); simpl; [exact Hmt|reflexivity].
Qed.

Lemma not_data_topic_device t ns g mt n d :
  split "/" t = [ns; g; mt; n; d] ->
  String.eqb (upper mt) "NDATA" || String.eqb (upper mt) "DDATA" = false ->
  is_data_topic t = false.
Proof.
  intros Hs Hmt. unfold is_data_topic, parse_topic. rewrite Hs. unfold DeviceTopic_init.
  destruct (validate_topic_component ns); simpl; [|reflexivity].
  destruct (validate_topic_component g); simpl; [|reflexivity].
  destruct (validate_topic_component mt) eqn:E; simpl; [|reflexivity].
  apply validate_topic_component_OK in E. subst.
  destruct (validate_topic_component n); simpl; [|reflexivity].
  destruct (validate_topic_component d); simpl; [exact Hmt|reflexivity].
Qed.

Lemma slash_free_ids_spec self :
  slash_free_ids self = true ->
  contains_char "/" (_namespace self) = false
  /\ (forall g, _group_id self = Some g -> contains_char "/" g = false)
  /\ (forall n, _edge_node_id self = Some n -> contains_char "/" n = false).
Proof.
  unfold slash_free_ids. intros H.
  apply andb_true_iff in H as [H Hn]. apply andb_true_iff in H as [Hns Hg].
  apply negb_true_iff in Hns, Hg, Hn.
  split; [exact Hns|]. split; intros x Hx; [rewrite Hx in Hg|rewrite Hx in Hn]; assumption.
Qed.

(** The topic of a birth certificate is not a data topic. *)
Lemma new_nbirth_topic_not_data self t :
  slash_free_ids self = true -> new_nbirth_topic self = OK t -> is_data_topic t = false.
Proof.
  intros Hids Ht. apply slash_free_ids_spec in Hids as (Hns & Hg & Hn).
  unfold new_nbirth_topic, new_topic in Ht. simpl in Ht.
  destruct (_group_id self) as [g|] eqn:Eg; [|discriminate].
  destruct (_edge_node_id self) as [n|] eqn:En; [|discriminate].
  injection Ht as <-.
  apply (not_data_topic_node _ (_namespace self) g "NBIRTH" n); [|reflexivity].
  apply node_topic_fields; auto.
Qed.

Lemma new_dbirth_topic_not_data self device_id t :
  slash_free_ids self = true -> new_dbirth_topic self device_id = OK t ->
  is_data_topic t = false.
Proof.
  intros Hids Ht. apply slash_free_ids_spec in Hids as (Hns & Hg & Hn).
  unfold new_dbirth_topic, new_topic in Ht.
  destruct (String.eqb device_id ""); [discriminate|]. simpl in Ht.
  destruct (contains_char "/" device_id) eqn:Ed; [discriminate|].
  destruct (_group_id self) as [g|] eqn:Eg; [|discriminate].
  destruct (_edge_node_id self) as [n|] eqn:En; [|discriminate].
  injection Ht as <-.
  apply (not_data_topic_device _ (_namespace self) g "DBIRTH" n device_id); [|reflexivity].
  apply device_topic_fields; auto.
Qed.

(** *** The interface keeps its ids *)

Lemma set_node_metric_ids self metric add_if_missing :
  slash_free_ids (fst (set_node_metric self metric add_if_missing)) = slash_free_ids self.
Proof.
  unfold set_node_metric. destruct (_metric_organizers self !! ""); [|reflexivity].
  destruct (organizer_set _ _ _). reflexivity.
Qed.

Lemma set_device_metric_ids self device metric :
  slash_free_ids (fst (set_device_metric self device metric)) = slash_free_ids self.
Proof.
  unfold set_device_metric. destruct (_metric_organizers self !! device); [|reflexivity].
  destruct (organizer_set _ _ _). reflexivity.
Qed.

Lemma del_node_metric_ids self name :
  slash_free_ids (fst (del_node_metric self name)) = slash_free_ids self.
Proof.
  unfold del_node_metric. destruct (_metric_organizers self !! ""); reflexivity.
Qed.

Lemma list_node_metric_names_ids self :
  slash_free_ids (fst (list_node_metric_names self)) = slash_free_ids self.
Proof.
  unfold list_node_metric_names. destruct (_metric_organizers self !! ""); [|reflexivity].
  destruct (get_all _). reflexivity.
Qed.

Lemma new_nbirth_ids self now :
  slash_free_ids (fst (new_nbirth self now)) = slash_free_ids self.
Proof.
  unfold new_nbirth. destruct (Seq_reset_and_advance _) as [s seq'].
  destruct (_fill_in_bdseq_metric _ _); [|reflexivity].
  cbn -[get_all]. destruct (_metric_organizers self !! ""); [|reflexivity].
  destruct (get_all _) as [org' [ms|e]]; reflexivity.
Qed.

Lemma new_dbirth_ids self device_id now :
  slash_free_ids (fst (new_dbirth self device_id now)) = slash_free_ids self.
Proof.
  unfold new_dbirth. destruct (negb (_is_born self)); [reflexivity|].
  destruct (_metric_organizers self !! device_id); [|reflexivity].
  unfold new_seq_payload. destruct (Seq_get_and_advance _) as [s seq'].
  destruct (get_all _) as [org' [ms|e]]; reflexivity.
Qed.

(** *** Engine actions that publish well *)

Section EngineFacts.
Context (host : Host) (clock : nat -> Z) {F : Type}.
Context (run_func : F -> ServerEngine F -> ServerEngine F * result unit).
Context (mqtt_rc : list Publication -> Publication -> Z).
Context (heappush : list (float * QueueItem F) -> float * QueueItem F
                    -> list (float * QueueItem F)).
Context (tahu_birth_metrics : ServerEndpoint -> list Metric).

Implicit Types (st : ServerEngine F).

Lemma extends_well_silent {A : Type} st st' (r : result A) (Q : A -> Prop) :
  _iface st' = _iface st -> published st' = published st ->
  slash_free_ids (_iface st) = true ->
  (forall a, r = OK a -> Q a) ->
  extends_well st (st', r) Q.
Proof.
  intros Hi Hp Hids HQ. split; [simpl; rewrite Hi; exact Hids|].
  split; [|exact HQ]. exists []. simpl. rewrite Hp, app_nil_r. split; [reflexivity|constructor].
Qed.

Lemma extends_well_weaken {A : Type} st (out : ServerEngine F * result A) (P Q : A -> Prop) :
  (forall a, P a -> Q a) -> extends_well st out P -> extends_well st out Q.
Proof. intros HPQ (H1 & H2 & H3). split; [exact H1|]. split; [exact H2|]. auto. Qed.

Lemma publishes_well_ret {A : Type} (a : A) (Q : A -> Prop) :
  Q a -> publishes_well (ret (F := F) a) Q.
Proof.
  intros HQ st Hids. apply extends_well_silent; auto.
  intros a' Ha. injection Ha as <-. exact HQ.
Qed.

Lemma publishes_well_lift {A : Type} (r : result A) (Q : A -> Prop) :
  (forall a, r = OK a -> Q a) -> publishes_well (lift (F := F) r) Q.
Proof. intros HQ st Hids. apply extends_well_silent; auto. Qed.

Lemma publishes_well_andThen {A B : Type} (m : Action A) (k : A -> Action B)
    (P : A -> Prop) (Q : B -> Prop) :
  publishes_well m P -> (forall a, P a -> publishes_well (k a) Q) ->
  publishes_well (andThen (F := F) m k) Q.
Proof.
  intros Hm Hk st Hids. unfold andThen.
  destruct (Hm st Hids) as (H1 & (new & H2 & H3) & H4).
  destruct (m st) as [st1 [a|e]]; simpl in *.
  - destruct (Hk a (H4 a eq_refl) st1 H1) as (K1 & (new' & K2 & K3) & K4).
    split; [exact K1|]. split; [|exact K4].
    exists (new ++ new')%list. rewrite K2, H2, app_assoc. split; [reflexivity|].
    apply Forall_app. split; assumption.
  - split; [exact H1|]. split; [eauto|]. intros a Ha. discriminate.
Qed.

Lemma publishes_well_time_time : publishes_well (time_time clock (F := F)) (fun _ => True).
Proof. intros st Hids. apply extends_well_silent; auto. Qed.

Lemma publishes_well_on_iface {A : Type}
    (f : TahuServerInterface -> TahuServerInterface * result A) (Q : A -> Prop) :
  (forall i, slash_free_ids (fst (f i)) = slash_free_ids i) ->
  (forall i a, slash_free_ids i = true -> snd (f i) = OK a -> Q a) ->
  publishes_well (on_iface (F := F) f) Q.
Proof.
  intros Hf HQ st Hids. unfold on_iface.
  pose proof (Hf (_iface st)) as Hi. pose proof (HQ (_iface st)) as Hq.
  destruct (f (_iface st)) as [i r]. simpl in *.
  split; [simpl; rewrite Hi; exact Hids|]. split; [|intros a Ha; eauto].
  exists []. simpl. rewrite app_nil_r. split; [reflexivity|constructor].
Qed.

Lemma publishes_well_set_node n : publishes_well (set_node (F := F) n) (fun _ => True).
Proof. intros st Hids. apply extends_well_silent; auto. Qed.

Lemma publishes_well_store_endpoint loc e :
  publishes_well (store_endpoint (F := F) loc e) (fun _ => True).
Proof.
  intros st Hids. unfold store_endpoint. destruct loc as [device_id|].
  - destruct (dict_get (_devices st) device_id); apply extends_well_silent; auto.
  - apply extends_well_silent; auto.
Qed.

Lemma publishes_well_publish topic payload qos retain :
  data_message_has_metrics (mkPublication topic payload qos retain) ->
  publishes_well (publish (F := F) mqtt_rc topic payload qos retain) (fun _ => True).
Proof.
  intros Hpub st Hids. unfold publish.
  assert (H : forall r : result unit,
            extends_well st
              (mkServerEngine (_iface st) (_node st) (_devices st) (_scheduled_events st)
                 (published st ++ [mkPublication topic payload qos retain]) (ticks st), r)
              (fun _ => True)).
  { intros r. split; [exact Hids|]. split; [|auto].
    eexists. split; [reflexivity|]. constructor; [exact Hpub|constructor]. }
  destruct (_ =? MQTT_ERR_SUCCESS); [apply H|].
  destruct (_ =? MQTT_ERR_NO_CONN); apply H.
Qed.

Lemma publishes_well_for_each {A : Type} (f : A -> Action unit) (l : list A) :
  (forall x, publishes_well (f x) (fun _ => True)) ->
  publishes_well (for_each (F := F) f l) (fun _ => True).
Proof.
  intros Hf. induction l as [|x l IH]; simpl.
  - apply publishes_well_ret. exact I.
  - eapply publishes_well_andThen; [apply Hf|]. intros _ _. exact IH.
Qed.

Lemma publishes_well_new_metric : publishes_well (new_metric clock (F := F)) (fun _ => True).
Proof.
  unfold new_metric. eapply publishes_well_andThen; [apply publishes_well_time_time|].
  intros now _. apply publishes_well_ret. exact I.
Qed.

(** Each changed metric is rendered as one wire metric. *)
Lemma publishes_well_render_updates (icpw_metrics : list (string * IcypawValue)) :
  publishes_well (render_updates host clock (F := F) icpw_metrics)
    (fun tahu_metrics => icpw_metrics <> [] -> tahu_metrics <> []).
Proof.
  induction icpw_metrics as [|[name v] rest IH]; simpl.
  - apply publishes_well_ret. intros H. contradiction.
  - eapply publishes_well_andThen; [apply publishes_well_new_metric|]. intros tm _.
    eapply publishes_well_andThen; [apply (publishes_well_lift _ (fun _ => True)); auto|].
    intros m _. eapply publishes_well_andThen; [exact IH|]. intros ms _.
    apply publishes_well_ret. intros _. discriminate.
Qed.

(** A payload of updates, when there is one, holds at least one metric. *)
Lemma publishes_well_create_updated loc :
  publishes_well (_create_updated_endpoint_metric_payload host clock (F := F) loc)
    (fun payload => forall p, payload = Some p -> p_metrics p <> []).
Proof.
  intros st Hids. unfold _create_updated_endpoint_metric_payload.
  destruct (endpoint_at loc st) as [endpoint|].
  2:{ apply extends_well_silent; auto; intros a Ha; discriminate. }
  destruct (icpw_updated_metrics endpoint) as [endpoint' r].
  revert st Hids. change (publishes_well
    (andThen (F := F) (store_endpoint loc endpoint') (fun _ =>
       andThen (lift r) (fun updated =>
         match List.map (fun kv => (fst kv, fst (snd kv))) updated with
         | [] => ret (F := F) None
         | _ :: _ =>
             andThen (time_time clock) (fun now =>
               andThen (render_updates host clock
                          (List.map (fun kv => (fst kv, fst (snd kv))) updated))
                 (fun tahu_metrics =>
                    ret (Some (add_metrics_to_payload tahu_metrics (new_payload now)))))
         end)))
    (fun payload : option Payload => forall p, payload = Some p -> p_metrics p <> [])).
  eapply publishes_well_andThen; [apply publishes_well_store_endpoint|]. intros _ _.
  eapply publishes_well_andThen; [apply (publishes_well_lift _ (fun _ => True)); auto|].
  intros updated _.
  destruct (List.map (fun kv => (fst kv, fst (snd kv))) updated) as [|x l] eqn:E.
  - apply publishes_well_ret. intros p Hp. discriminate.
  - eapply publishes_well_andThen; [apply publishes_well_time_time|]. intros now _.
    eapply publishes_well_andThen; [apply publishes_well_render_updates|].
    intros tahu_metrics Hne. apply publishes_well_ret.
    intros p Hp. injection Hp as <-. simpl. apply Hne. discriminate.
Qed.

Lemma publishes_well_at {A : Type} (m : Action A) (Q : A -> Prop) st :
  slash_free_ids (_iface st) = true -> publishes_well m Q -> extends_well st (m st) Q.
Proof. intros Hids Hm. apply Hm, Hids. Qed.

Lemma publishes_well_rebirth_node :
  publishes_well (_rebirth_node clock (F := F) mqtt_rc tahu_birth_metrics) (fun _ => True).
Proof.
  intros st Hids. unfold _rebirth_node. apply publishes_well_at; [exact Hids|].
  eapply publishes_well_andThen.
  { apply publishes_well_for_each. intros metric.
    apply (publishes_well_on_iface _ (fun _ => True)); [|auto].
    intros i. apply set_node_metric_ids. }
  intros _ _. eapply publishes_well_andThen.
  { apply (publishes_well_on_iface _ (fun _ => True)); [|auto].
    apply list_node_metric_names_ids. }
  intros names _. eapply publishes_well_andThen.
  { apply publishes_well_for_each. intros name.
    apply (publishes_well_on_iface _ (fun _ => True)); [|auto].
    intros i. apply del_node_metric_ids. }
  intros _ _. eapply publishes_well_andThen; [apply publishes_well_time_time|].
  intros now _. eapply publishes_well_andThen.
  { apply (publishes_well_on_iface _ (fun _ => True)); [|auto].
    intros i. apply new_nbirth_ids. }
  intros nbirth _.
  apply (publishes_well_andThen _ _ (fun t => is_data_topic t = false)).
  { intros st1 H1. apply extends_well_silent; auto.
    intros t Ht. eapply new_nbirth_topic_not_data; eauto. }
  intros t Ht. apply publishes_well_publish. intros Hd. simpl in Hd. congruence.
Qed.

Lemma publishes_well_publish_node :
  publishes_well (_publish_node_metric_updates host clock (F := F) mqtt_rc tahu_birth_metrics)
    (fun _ => True).
Proof.
  intros st Hids. unfold _publish_node_metric_updates.
  destruct (_fresh_birth_certificate (_node st)).
  - apply publishes_well_at; [exact Hids|].
    eapply publishes_well_andThen; [apply publishes_well_create_updated|].
    intros [p|] Hp; [|apply publishes_well_ret; exact I].
    apply (publishes_well_andThen _ _ (fun _ => True)).
    { intros st1 H1. apply extends_well_silent; auto. }
    intros t _. apply publishes_well_publish. intros _.
    exists p. split; [reflexivity|]. apply Hp. reflexivity.
  - apply publishes_well_at; [exact Hids|].
    eapply publishes_well_andThen; [apply publishes_well_rebirth_node|].
    intros _ _ st1 H1. apply publishes_well_set_node, H1.
Qed.

Lemma publishes_well_rebirth_device device_id :
  publishes_well (_rebirth_device clock (F := F) mqtt_rc tahu_birth_metrics device_id)
    (fun _ => True).
Proof.
  intros st Hids. unfold _rebirth_device.
  destruct (endpoint_at (Some device_id) st) as [device|];
    [|apply extends_well_silent; auto].
  apply publishes_well_at; [exact Hids|].
  eapply publishes_well_andThen.
  { apply publishes_well_for_each. intros metric.
    apply (publishes_well_on_iface _ (fun _ => True)); [|auto].
    intros i. apply set_device_metric_ids. }
  intros _ _. eapply publishes_well_andThen; [apply publishes_well_time_time|].
  intros now _. eapply publishes_well_andThen.
  { apply (publishes_well_on_iface _ (fun _ => True)); [|auto].
    intros i. apply new_dbirth_ids. }
  intros dbirth _.
  apply (publishes_well_andThen _ _ (fun t => is_data_topic t = false)).
  { intros st1 H1. apply extends_well_silent; auto.
    intros t Ht. eapply new_dbirth_topic_not_data; eauto. }
  intros t Ht. apply publishes_well_publish. intros Hd. simpl in Hd. congruence.
Qed.

Lemma publishes_well_publish_one_device device_id :
  publishes_well (publish_one_device host clock (F := F) mqtt_rc tahu_birth_metrics device_id)
    (fun _ => True).
Proof.
  intros st Hids. unfold publish_one_device.
  destruct (endpoint_at (Some device_id) st) as [device|];
    [|apply extends_well_silent; auto].
  destruct (_fresh_birth_certificate device).
  - apply publishes_well_at; [exact Hids|].
    eapply publishes_well_andThen; [apply publishes_well_create_updated|].
    intros [p|] Hp; [|apply publishes_well_ret; exact I].
    apply (publishes_well_andThen _ _ (fun _ => True)).
    { intros st1 H1. apply extends_well_silent; auto. }
    intros t _. apply publishes_well_publish. intros _.
    exists p. split; [reflexivity|]. apply Hp. reflexivity.
  - apply publishes_well_at; [exact Hids|].
    eapply publishes_well_andThen; [apply publishes_well_rebirth_device|].
    intros _ _ st1 H1.
    destruct (endpoint_at (Some device_id) st1) as [d|];
      [apply publishes_well_store_endpoint, H1|apply extends_well_silent; auto].
Qed.

(** Whatever the publication step publishes on a data topic carries at least
    one metric. *)
Lemma publishes_well_publish_metric_updates :
  publishes_well (_publish_metric_updates host clock (F := F) mqtt_rc tahu_birth_metrics)
    (fun _ => True).
Proof.
  unfold _publish_metric_updates.
  eapply publishes_well_andThen; [apply publishes_well_publish_node|].
  intros _ _ st Hids. unfold _publish_device_metric_updates.
  apply publishes_well_at; [exact Hids|].
  apply publishes_well_for_each, publishes_well_publish_one_device.
Qed.

(** *** A quiet engine publishes nothing *)

Lemma updated_metrics_loop_unchanged e items snapshot acc :
  forallb (fun kv => match dict_get (ep_current e) (fst kv) with
                     | Some curr_value => icpw_eq (snd kv) curr_value
                     | None => false
                     end) items = true ->
  updated_metrics_loop e items snapshot acc = (snapshot, OK acc).
Proof.
  induction items as [|[key old_value] rest IH]; simpl; intros H; [reflexivity|].
  apply andb_true_iff in H as [H Hrest].
  destruct (dict_get (ep_current e) key) as [curr_value|]; [|discriminate].
  rewrite H. simpl. apply IH, Hrest.
Qed.

Lemma icpw_updated_metrics_unchanged e :
  unchanged e = true -> icpw_updated_metrics e = (e, OK []).
Proof.
  intros H. unfold icpw_updated_metrics.
  rewrite (updated_metrics_loop_unchanged e _ _ _ H). destruct e; reflexivity.
Qed.

Lemma dict_set_same {V : Type} (d : list (string * V)) k v :
  dict_get d k = Some v -> dict_set d k v = d.
Proof.
  induction d as [|[k' v'] d IH]; simpl; [discriminate|].
  destruct (decide (k = k')) as [->|Hne]; intros H.
  - injection H as ->. reflexivity.
  - rewrite (IH H). reflexivity.
Qed.

Lemma create_updated_unchanged loc st endpoint :
  endpoint_at loc st = Some endpoint -> unchanged endpoint = true ->
  _create_updated_endpoint_metric_payload host clock loc st = (st, OK None).
Proof.
  intros He Hu. unfold _create_updated_endpoint_metric_payload.
  rewrite He, (icpw_updated_metrics_unchanged _ Hu).
  unfold andThen, store_endpoint. destruct loc as [device_id|]; simpl in He.
  - destruct (dict_get (_devices st) device_id) as [d|] eqn:Ed; [|discriminate].
    injection He as <-. unfold set_device_state.
    rewrite dict_set_same by (rewrite Ed; destruct d; reflexivity).
    destruct st; reflexivity.
  - injection He as <-. destruct st; reflexivity.
Qed.

Lemma for_each_fixed {A : Type} (f : A -> Action unit) (l : list A) st :
  (forall x, In x l -> f x st = (st, OK tt)) -> for_each f l st = (st, OK tt).
Proof.
  induction l as [|x l IH]; simpl; intros H; [reflexivity|].
  unfold andThen. rewrite (H x (or_introl eq_refl)). apply IH.
  intros y Hy. apply H. right. exact Hy.
Qed.

Lemma _publish_metric_updates_quiet st :
  quiet st ->
  _publish_metric_updates host clock mqtt_rc tahu_birth_metrics st = (st, OK tt).
Proof.
  intros (Hfresh & Hnode & Hdev).
  unfold _publish_metric_updates, andThen, _publish_node_metric_updates.
  rewrite Hfresh. unfold andThen.
  rewrite (create_updated_unchanged None st (_node st) eq_refl Hnode).
  unfold ret, _publish_device_metric_updates. apply for_each_fixed.
  intros device_id Hin.
  destruct (dict_get_is_Some_keys _ _ Hin) as [d Hd].
  destruct (Hdev device_id d Hd) as [Hf Hu].
  unfold publish_one_device. simpl. rewrite Hd, Hf. unfold andThen.
  rewrite (create_updated_unchanged (Some device_id) st (ds_device d));
    [reflexivity| |exact Hu].
  simpl. rewrite Hd. reflexivity.
Qed.

(** C8.  Processing a Schedule work item ends with the publication step, run
    on the state the item's body left, whether the scheduled function
    returned or raised; the function's exception still propagates unless the
    publication step raises one of its own.  Every message the step
    publishes on an NDATA or DDATA topic carries at least one metric, and
    when no endpoint has a changed metric (and every birth certificate is
    fresh) the step publishes nothing at all. *)
Theorem schedule_item_publishes_updates (time : float) (func : F)
    (repeat_sec : option float) st :
  let body := schedule_body run_func heappush time func repeat_sec st in
  let final := _publish_metric_updates host clock mqtt_rc tahu_birth_metrics (fst body) in
  _process_ScheduleQueueItem host clock run_func mqtt_rc heappush tahu_birth_metrics
    time func repeat_sec st
  = (fst final, match snd final with OK _ => snd body | Raise e => Raise e end)
  /\ (forall e, snd (run_func func st) = Raise e ->
       body = (fst (run_func func st), Raise e))
  /\ (slash_free_ids (_iface (fst body)) = true ->
       exists new, published (fst final) = (published (fst body) ++ new)%list
                   /\ Forall data_message_has_metrics new)
  /\ (quiet (fst body) -> final = (fst body, OK tt)).
Proof.
  cbv zeta. split; [|split; [|split]].
  - unfold _process_ScheduleQueueItem, try_finally.
    destruct (schedule_body _ _ _ _ _ _) as [st1 r1]. simpl.
    destruct (_publish_metric_updates _ _ _ _ _) as [st2 [[]|e]]; reflexivity.
  - intros e He. unfold schedule_body, andThen.
    destruct (run_func func st) as [st1 r]. simpl in He. subst r. reflexivity.
  - intros Hids.
    destruct (publishes_well_publish_metric_updates _ Hids) as (_ & H & _). exact H.
  - apply _publish_metric_updates_quiet.
Qed.
End EngineFacts.

Lemma schedule_item_publishes_updates_witness :
  exists new,
    published
      (fst (_publish_metric_updates example_host Z.of_nat example_mqtt_rc (fun _ => [])
              (fst (schedule_body example_run_func example_heappush 0%float true None
                      example_engine))))
    = (published (fst (schedule_body example_run_func example_heappush 0%float true None
                         example_engine)) ++ new)%list
    /\ Forall data_message_has_metrics new.
Proof.
  pose proof (schedule_item_publishes_updates example_host Z.of_nat example_run_func
                example_mqtt_rc example_heappush (fun _ => []) 0%float true None
                example_engine) as H.
  cbv zeta in H. destruct H as (_ & _ & H & _). apply H. reflexivity.
Defined.

(** The scheduled function sets [x] and raises: the change is still
    published, as one NDATA message with the one changed metric, and the
    exception propagates. *)
Example failed_item_still_publishes :
  snd (example_process true) = Raise (UserError "scheduled function failed")
  /\ published (fst (example_process true))
     = [mkPublication "spBv1.0/G/NDATA/N"
          (inl (mkPayload (Some 0) None
                  [mkMetric (Some "x") None (Some 1) (DataType.value DataType.Int64)
                     false false false empty_PropertySet (scalar_value (long_value 8))]))
          1 false].
Proof. split; vm_compute; reflexivity. Qed.

(** * Further properties of the code *)

(** ** Integer conversions ([tahu_interface.py]) *)

Lemma mod_negative (v m : Z) : - m <= v < 0 -> v mod m = v + m.
Proof. intros H. symmetry. apply (Z.mod_unique v m (-1)); lia. Qed.

(** X1.  A signed 32-bit (64-bit) integer is stored as the unsigned number
    with the same bits and read back unchanged; an integer above the
    unsigned range or below the signed range is refused by both
    conversions. *)
Theorem convert_signed_unsigned_roundtrip :
  (forall v, - 2 ^ 31 <= v < 2 ^ 31 ->
     exists u, convert_to_unsigned32 v = OK u /\ 0 <= u < 2 ^ 32
               /\ convert_to_signed32 u = OK v)
  /\ (forall v, - 2 ^ 63 <= v < 2 ^ 63 ->
        exists u, convert_to_unsigned64 v = OK u /\ 0 <= u < 2 ^ 64
                  /\ convert_to_signed64 u = OK v)
  /\ (forall v, v < - 2 ^ 31 \/ 2 ^ 32 <= v ->
        is_OK (convert_to_unsigned32 v) = false /\ is_OK (convert_to_signed32 v) = false)
  /\ (forall v, v < - 2 ^ 63 \/ 2 ^ 64 <= v ->
        is_OK (convert_to_unsigned64 v) = false /\ is_OK (convert_to_signed64 v) = false).
Proof.
  split; [|split; [|split]].
  - intros v Hv. unfold convert_to_unsigned32.
    destruct (Z.ltb_spec 0xffffffff v); [lia|].
    destruct (Z.ltb_spec 0 v).
    + exists v. split; [reflexivity|]. split; [lia|].
      unfold convert_to_signed32, reinterpret_signed.
      destruct (Z.ltb_spec 0xffffffff v); [lia|].
      destruct (Z.ltb_spec v (- 0x80000000)); [lia|].
      destruct (Z.ltb_spec v 0); [lia|].
      destruct (Z.ltb_spec v (2 ^ (32 - 1))); [reflexivity|lia].
    + destruct (Z.ltb_spec v (- 0x80000000)); [lia|].
      exists (v mod 2 ^ 32). split; [reflexivity|].
      split; [apply Z.mod_pos_bound; lia|].
      destruct (Z.eq_dec v 0) as [->|Hnz]; [reflexivity|].
      rewrite mod_negative by lia.
      unfold convert_to_signed32, reinterpret_signed.
      destruct (Z.ltb_spec 0xffffffff (v + 2 ^ 32)); [lia|].
      destruct (Z.ltb_spec (v + 2 ^ 32) (- 0x80000000)); [lia|].
      destruct (Z.ltb_spec (v + 2 ^ 32) 0); [lia|].
      destruct (Z.ltb_spec (v + 2 ^ 32) (2 ^ (32 - 1))); [lia|]. f_equal. lia.
  - intros v Hv. unfold convert_to_unsigned64.
    destruct (Z.ltb_spec 0xffffffffffffffff v); [lia|].
    destruct (Z.ltb_spec 0 v).
    + exists v. split; [reflexivity|]. split; [lia|].
      unfold convert_to_signed64, reinterpret_signed.
      destruct (Z.ltb_spec 0xffffffffffffffff v); [lia|].
      destruct (Z.ltb_spec v (- 0x8000000000000000)); [lia|].
      destruct (Z.ltb_spec v 0); [lia|].
      destruct (Z.ltb_spec v (2 ^ (64 - 1))); [reflexivity|lia].
    + destruct (Z.ltb_spec v (- 0x8000000000000000)); [lia|].
      exists (v mod 2 ^ 64). split; [reflexivity|].
      split; [apply Z.mod_pos_bound; lia|].
      destruct (Z.eq_dec v 0) as [->|Hnz]; [reflexivity|].
      rewrite mod_negative by lia.
      unfold convert_to_signed64, reinterpret_signed.
      destruct (Z.ltb_spec 0xffffffffffffffff (v + 2 ^ 64)); [lia|].
      destruct (Z.ltb_spec (v + 2 ^ 64) (- 0x8000000000000000)); [lia|].
      destruct (Z.ltb_spec (v + 2 ^ 64) 0); [lia|].
      destruct (Z.ltb_spec (v + 2 ^ 64) (2 ^ (64 - 1))); [lia|]. f_equal. lia.
  - intros v Hv. unfold convert_to_unsigned32, convert_to_signed32.
    destruct (Z.ltb_spec 0xffffffff v); [split; reflexivity|].
    destruct (Z.ltb_spec 0 v); [lia|].
    destruct (Z.ltb_spec v (- 0x80000000)); [split; reflexivity|lia].
  - intros v Hv. unfold convert_to_unsigned64, convert_to_signed64.
    destruct (Z.ltb_spec 0xffffffffffffffff v); [split; reflexivity|].
    destruct (Z.ltb_spec 0 v); [lia|].
    destruct (Z.ltb_spec v (- 0x8000000000000000)); [split; reflexivity|lia].
Qed.

Lemma convert_signed_unsigned_roundtrip_witness :
  exists u, convert_to_unsigned32 (-1) = OK u /\ 0 <= u < 2 ^ 32
            /\ convert_to_signed32 u = OK (-1).
Proof.
  destruct convert_signed_unsigned_roundtrip as [H _]. apply (H (-1)). lia.
Defined.

(** ** The sequence counter *)

(** X2.  The counter runs through 0..255 and wraps: after [n] advances from
    a value [v] of that range it holds [(v + n) mod 256], the value handed
    out is the one held before the advance, and [reset_and_advance] hands
    out 0. *)
Theorem Seq_advance_times_value (n : nat) (self : Seq) :
  0 <= seq_value self < 256 ->
  seq_value (Seq_advance_times n self) = (seq_value self + Z.of_nat n) mod 256
  /\ fst (Seq_get_and_advance (Seq_advance_times n self))
     = (seq_value self + Z.of_nat n) mod 256
  /\ Seq_advance_times 256 self = self
  /\ fst (Seq_reset_and_advance self) = 0.
Proof.
  intros Hv.
  assert (H : forall k, seq_value (Seq_advance_times k self)
                        = (seq_value self + Z.of_nat k) mod 256).
  { induction k as [|k IH].
    - simpl. rewrite Z.add_0_r, Z.mod_small by lia. reflexivity.
    - unfold Seq_advance_times in *. rewrite Nat.iter_succ. unfold Seq__advance at 1.
      cbn [seq_value]. rewrite land_0xff, IH, Zplus_mod_idemp_l. f_equal. lia. }
  split; [apply H|]. split; [apply H|]. split; [|reflexivity].
  assert (E : seq_value (Seq_advance_times 256 self) = seq_value self).
  { rewrite H. change (Z.of_nat 256) with (1 * 256).
    rewrite Z.mod_add by lia. apply Z.mod_small. lia. }
  revert E. generalize (Seq_advance_times 256 self). intros [v'] E.
  destruct self as [v]. cbn [seq_value] in E. congruence.
Qed.

Lemma Seq_advance_times_value_witness :
  seq_value (Seq_advance_times 3 (mkSeq 254)) = (254 + 3) mod 256.
Proof.
  destruct (Seq_advance_times_value 3 (mkSeq 254)) as [H _]; [simpl; lia|exact H].
Defined.

(** ** Naming conventions *)

Lemma split_prefixed (prefix base_name : string) :
  contains_char "/" prefix = false ->
  split "/" (join "/" [prefix; base_name]) = prefix :: split "/" base_name.
Proof.
  intros H. unfold join. cbn [String.concat].
  change ("/" ++ base_name) with (String.String "/" base_name).
  apply split_app, H.
Qed.

(** X3.  A command name and a template-definition name made from a base
    name are recognised as such, are not plain metrics, and give the base
    name back, whatever slashes the base name holds itself. *)
Theorem conventions_roundtrip (base_name : string) :
  make_base_name_from_command (make_command base_name) = OK base_name
  /\ is_command (make_command base_name) = true
  /\ is_metric (make_command base_name) = false
  /\ make_base_name_from_template_definition (make_template_definition base_name)
     = OK base_name
  /\ is_template_definition (make_template_definition base_name) = true
  /\ is_metric (make_template_definition base_name) = false.
Proof.
  assert (Hc : split "/" (make_command base_name)
               = COMMAND_PREFIX :: split "/" base_name)
    by (apply split_prefixed; reflexivity).
  assert (Ht : split "/" (make_template_definition base_name)
               = TEMPLATE_DEFINITION_PREFIX :: split "/" base_name)
    by (apply split_prefixed; reflexivity).
  assert (Hic : is_command (make_command base_name) = true)
    by (unfold is_command, first_field_is; rewrite Hc; reflexivity).
  assert (Hit : is_template_definition (make_template_definition base_name) = true)
    by (unfold is_template_definition, first_field_is; rewrite Ht; reflexivity).
  split; [|split; [|split; [|split; [|split]]]].
  - unfold make_base_name_from_command, base_name_after. rewrite Hc.
    rewrite String.eqb_refl. f_equal. apply join_split.
  - exact Hic.
  - unfold is_metric. rewrite Hic. apply andb_false_iff. left. apply andb_false_r.
  - unfold make_base_name_from_template_definition, base_name_after. rewrite Ht.
    rewrite String.eqb_refl. f_equal. apply join_split.
  - exact Hit.
  - unfold is_metric. rewrite Hit. apply andb_false_r.
Qed.

(** X4.  Every metric name is of exactly one kind: the bdSeq metric, a
    command, a template definition or a plain metric.  A name whose base
    name can be taken as a command's is a command; the converse fails, since
    the kind is decided without regard to case and the base name is not. *)
Theorem conventions_partition (metric_name : string) :
  (Nat.b2n (is_bdseq metric_name) + Nat.b2n (is_command metric_name)
   + Nat.b2n (is_template_definition metric_name) + Nat.b2n (is_metric metric_name)
   = 1)%nat
  /\ (is_OK (make_base_name_from_command metric_name) = true ->
      is_command metric_name = true)
  /\ (is_OK (make_base_name_from_template_definition metric_name) = true ->
      is_template_definition metric_name = true).
Proof.
  split; [|split].
  - unfold is_metric.
    destruct (is_bdseq metric_name) eqn:Eb.
    + apply String.eqb_eq in Eb. subst. reflexivity.
    + unfold is_command, is_template_definition, first_field_is.
      destruct (split "/" metric_name) as [|field0 rest]; [reflexivity|].
      destruct (String.eqb (lower field0) COMMAND_PREFIX) eqn:Ec.
      * apply String.eqb_eq in Ec. rewrite Ec. reflexivity.
      * destruct (String.eqb (lower field0) TEMPLATE_DEFINITION_PREFIX); reflexivity.
  - unfold make_base_name_from_command, base_name_after, is_command, first_field_is.
    destruct (split "/" metric_name) as [|field0 rest]; [discriminate|].
    destruct (String.eqb field0 COMMAND_PREFIX) eqn:E; [|discriminate].
    apply String.eqb_eq in E. subst. reflexivity.
  - unfold make_base_name_from_template_definition, base_name_after,
      is_template_definition, first_field_is.
    destruct (split "/" metric_name) as [|field0 rest]; [discriminate|].
    destruct (String.eqb field0 TEMPLATE_DEFINITION_PREFIX) eqn:E; [|discriminate].
    apply String.eqb_eq in E. subst. reflexivity.
Qed.

Lemma conventions_partition_witness :
  is_command "command/reset" = true.
Proof.
  destruct (conventions_partition "command/reset") as (_ & H & _). apply H. reflexivity.
Defined.

(** A name that is a command by convention and has no base name. *)
Example command_prefix_case :
  is_command "Command/reset" = true
  /\ make_base_name_from_command "Command/reset" = Raise (UserError "AssertionError").
Proof. split; reflexivity. Qed.

(** ** Topics *)

Lemma ascii_upper_idem (c : ascii) : ascii_upper (ascii_upper c) = ascii_upper c.
Proof. destruct c as [[] [] [] [] [] [] [] []]; reflexivity. Qed.

Lemma ascii_upper_reserved (x c : ascii) :
  x = "#"%char \/ x = "/"%char \/ x = "+"%char ->
  Ascii.eqb x (ascii_upper c) = Ascii.eqb x c
  /\ Ascii.eqb (ascii_upper c) x = Ascii.eqb c x.
Proof.
  intros [Hx|[Hx|Hx]]; subst x; destruct c as [[] [] [] [] [] [] [] []];
    split; reflexivity.
Qed.

Lemma upper_idem (s : string) : upper (upper s) = upper s.
Proof.
  induction s as [|c s IH]; simpl; [reflexivity|]. rewrite ascii_upper_idem, IH. reflexivity.
Qed.

Lemma contains_char_upper (x : ascii) (s : string) :
  x = "#"%char \/ x = "/"%char \/ x = "+"%char ->
  contains_char x (upper s) = contains_char x s.
Proof.
  intros Hx. induction s as [|c s IH]; simpl; [reflexivity|].
  rewrite IH. destruct (ascii_upper_reserved x c Hx) as [-> _]. reflexivity.
Qed.

Lemma upper_eqb_plus (s : string) : String.eqb (upper s) "+" = String.eqb s "+".
Proof.
  destruct s as [|c [|c' s]]; simpl; try reflexivity.
  - destruct (ascii_upper_reserved "+" c) as [_ ->]; auto.
  - destruct (ascii_upper_reserved "+" c) as [_ ->]; auto.
Qed.

Lemma validate_topic_component_upper c c' :
  validate_topic_component c = OK c' ->
  validate_topic_component (upper c) = OK (upper c).
Proof.
  unfold validate_topic_component. rewrite upper_eqb_plus.
  destruct (String.eqb c "+"); [reflexivity|].
  rewrite !contains_char_upper by auto.
  destruct (_ || _); [discriminate|reflexivity].
Qed.

Lemma validate_topic_component_slash_free c c' :
  validate_topic_component c = OK c' -> contains_char "/" c = false.
Proof.
  unfold validate_topic_component.
  destruct (String.eqb c "+") eqn:E.
  - apply String.eqb_eq in E. subst. reflexivity.
  - destruct (contains_char "#" c), (contains_char "/" c); simpl; try discriminate.
    reflexivity.
Qed.

Lemma device_topic_fields_right ns g mt n d :
  contains_char "/" ns = false -> contains_char "/" g = false ->
  contains_char "/" mt = false -> contains_char "/" n = false ->
  contains_char "/" d = false ->
  split "/" (ns ++ "/" ++ g ++ "/" ++ mt ++ "/" ++ n ++ "/" ++ d) = [ns; g; mt; n; d].
Proof.
  intros Hns Hg Hmt Hn Hd.
  change ("/" ++ g ++ "/" ++ mt ++ "/" ++ n ++ "/" ++ d)
    with (String.String "/" (g ++ String.String "/" (mt ++ String.String "/"
            (n ++ String.String "/" d)))).
  rewrite !split_app by assumption. rewrite split_slash_free by assumption. reflexivity.
Qed.

Lemma match_field_refl c : match_field c c = true.
Proof. unfold match_field. destruct (String.eqb c "+"); [reflexivity|apply String.eqb_refl]. Qed.

Lemma match_field_upper c : match_field c (upper c) = true <-> upper c = c.
Proof.
  unfold match_field. rewrite upper_eqb_plus.
  destruct (String.eqb c "+") eqn:E.
  - apply String.eqb_eq in E. subst. split; reflexivity.
  - rewrite String.eqb_eq. split; congruence.
Qed.

Ltac validated_keep :=
  repeat match goal with
  | H : bind (validate_topic_component ?c) _ = OK _ |- _ =>
      let E := fresh "E" in
      destruct (validate_topic_component c) eqn:E; simpl in H; [|discriminate];
      pose proof (validate_topic_component_OK _ _ E); subst
  end.

(** X5.  The string rebuilt from a parsed node or device topic parses to
    the same topic: one round through the parser settles a topic. *)
Theorem parse_topic_of_topic (t : string) (tp : Topic) :
  parse_topic t = OK tp ->
  is_StateTopic tp = false ->
  parse_topic (topic tp) = OK tp.
Proof.
  intros Hp Hs. unfold parse_topic in Hp.
  destruct (split "/" t) as [|f0 [|f1 [|f2 [|f3 [|f4 [|f5 r]]]]]]; try discriminate.
  - destruct (String.eqb (upper f0) "STATE"); [|discriminate].
    unfold StateTopic_init in Hp.
    destruct (validate_topic_component f1); simpl in Hp; [|discriminate].
    injection Hp as <-. discriminate.
  - unfold NodeTopic_init in Hp. validated_keep. injection Hp as <-.
    unfold parse_topic. cbn [topic].
    rewrite node_topic_fields;
      [|eauto using validate_topic_component_slash_free..
       |rewrite contains_char_upper by auto;
        eauto using validate_topic_component_slash_free
       |eauto using validate_topic_component_slash_free].
    unfold NodeTopic_init. rewrite E, E0, (validate_topic_component_upper _ _ E1), E2.
    simpl. rewrite upper_idem. reflexivity.
  - unfold DeviceTopic_init in Hp. validated_keep. injection Hp as <-.
    unfold parse_topic. cbn [topic].
    rewrite device_topic_fields_right;
      [|eauto using validate_topic_component_slash_free..
       |rewrite contains_char_upper by auto;
        eauto using validate_topic_component_slash_free
       |eauto using validate_topic_component_slash_free
       |eauto using validate_topic_component_slash_free].
    unfold DeviceTopic_init.
    rewrite E, E0, (validate_topic_component_upper _ _ E1), E2, E3.
    simpl. rewrite upper_idem. reflexivity.
Qed.

Lemma parse_topic_of_topic_witness :
  parse_topic (topic (DeviceTopic "spBv1.0" "G" "DDATA" "N" "D"))
  = OK (DeviceTopic "spBv1.0" "G" "DDATA" "N" "D").
Proof.
  apply (parse_topic_of_topic "spBv1.0/G/ddata/N/D"); reflexivity.
Defined.

(** X6.  A parsed node or device topic matches its own topic string; it
    matches the string it was parsed from exactly when the message-type
    field of that string is in upper case already. *)
Theorem Topic_match_parsed (t : string) (tp : Topic) :
  parse_topic t = OK tp ->
  is_StateTopic tp = false ->
  Topic_match tp (topic tp) = OK true
  /\ (Topic_match tp t = OK true <-> upper_message_type (split "/" t) = split "/" t).
Proof.
  intros Hp Hs. unfold parse_topic in Hp.
  destruct (split "/" t) as [|f0 [|f1 [|f2 [|f3 [|f4 [|f5 r]]]]]] eqn:Ef; try discriminate.
  - destruct (String.eqb (upper f0) "STATE"); [|discriminate].
    unfold StateTopic_init in Hp.
    destruct (validate_topic_component f1); simpl in Hp; [|discriminate].
    injection Hp as <-. discriminate.
  - unfold NodeTopic_init in Hp. validated_keep. injection Hp as <-. split.
    + unfold Topic_match. cbn [topic].
      rewrite node_topic_fields;
        [|eauto using validate_topic_component_slash_free..
         |rewrite contains_char_upper by auto;
          eauto using validate_topic_component_slash_free
         |eauto using validate_topic_component_slash_free].
      simpl. rewrite !match_field_refl. reflexivity.
    + unfold Topic_match. rewrite Ef. simpl. rewrite !match_field_refl. simpl.
      rewrite andb_true_r. split.
      * intros H. injection H as H. apply match_field_upper in H. rewrite H. reflexivity.
      * intros H. injection H as H. f_equal. apply match_field_upper. exact H.
  - unfold DeviceTopic_init in Hp. validated_keep. injection Hp as <-. split.
    + unfold Topic_match. cbn [topic].
      rewrite device_topic_fields_right;
        [|eauto using validate_topic_component_slash_free..
         |rewrite contains_char_upper by auto;
          eauto using validate_topic_component_slash_free
         |eauto using validate_topic_component_slash_free
         |eauto using validate_topic_component_slash_free].
      simpl. rewrite !match_field_refl. reflexivity.
    + unfold Topic_match. rewrite Ef. simpl. rewrite !match_field_refl. simpl.
      split.
      * intros H. injection H as H. apply andb_true_iff in H as [H _].
        apply match_field_upper in H. rewrite H. reflexivity.
      * intros H. injection H as H. f_equal.
        rewrite andb_true_r. apply match_field_upper. exact H.
Qed.

Lemma Topic_match_parsed_witness :
  Topic_match (NodeTopic "spBv1.0" "G" "NDATA" "N") "spBv1.0/G/NDATA/N" = OK true.
Proof.
  destruct (Topic_match_parsed "spBv1.0/G/ndata/N" (NodeTopic "spBv1.0" "G" "NDATA" "N"))
    as [H _]; [reflexivity|reflexivity|exact H].
Defined.

(** A topic parsed from a string with a lower-case message type does not
    match that string. *)
Example Topic_match_lower_case :
  exists tp, parse_topic "spBv1.0/G/ndata/N" = OK tp
             /\ Topic_match tp "spBv1.0/G/ndata/N" = OK false.
Proof. eexists. split; reflexivity. Qed.

(** X7.  A topic string built by [new_topic] from components that are valid
    topic components parses to the node or device topic with those
    components, the message type in upper case.  [new_topic] refuses an
    argument that holds a slash. *)
Theorem new_topic_parses (self : TahuServerInterface)
    (namespace group_id : option string) (mt : string)
    (edge_node_id device_id : option string) (ns g n t : string) :
  match namespace with Some x => x | None => _namespace self end = ns ->
  match group_id with Some x => Some x | None => _group_id self end = Some g ->
  match edge_node_id with Some x => Some x | None => _edge_node_id self end = Some n ->
  validate_topic_component ns = OK ns ->
  validate_topic_component g = OK g ->
  validate_topic_component mt = OK mt ->
  validate_topic_component n = OK n ->
  (forall d, device_id = Some d -> validate_topic_component d = OK d) ->
  new_topic self namespace group_id mt edge_node_id device_id = OK t ->
  parse_topic t
  = OK (match device_id with
        | None => NodeTopic ns g (upper mt) n
        | Some d => DeviceTopic ns g (upper mt) n d
        end)
  /\ (has_slash namespace || has_slash group_id || contains_char "/" mt
      || has_slash edge_node_id || has_slash device_id = false).
Proof.
  intros Hns Hg Hn Vns Vg Vmt Vn Vd Ht. unfold new_topic in Ht.
  destruct (has_slash namespace); [discriminate|].
  destruct (has_slash group_id); [discriminate|].
  destruct (contains_char "/" mt) eqn:Emt; [discriminate|].
  destruct (has_slash edge_node_id); [discriminate|].
  destruct (has_slash device_id) eqn:Ed; [discriminate|].
  split; [|reflexivity].
  rewrite Hns, Hg, Hn in Ht.
  pose proof (validate_topic_component_slash_free _ _ Vns) as Sns.
  pose proof (validate_topic_component_slash_free _ _ Vg) as Sg.
  pose proof (validate_topic_component_slash_free _ _ Vn) as Sn.
  destruct device_id as [d|]; injection Ht as <-; unfold parse_topic.
  - rewrite device_topic_fields by (simpl in Ed; auto).
    unfold DeviceTopic_init. rewrite Vns, Vg, Vmt, Vn, (Vd d eq_refl). reflexivity.
  - rewrite node_topic_fields by auto.
    unfold NodeTopic_init. rewrite Vns, Vg, Vmt, Vn. reflexivity.
Qed.

Lemma new_topic_parses_witness :
  parse_topic "spBv1.0/G/DDATA/N/D" = OK (DeviceTopic "spBv1.0" "G" "DDATA" "N" "D")
  /\ (has_slash None || has_slash None || contains_char "/" "DDATA"
      || has_slash None || has_slash (Some "D") = false).
Proof.
  apply (new_topic_parses (TahuServerInterface_new (Some "G") (Some "N") None)
           None None "DDATA" None (Some "D") "spBv1.0" "G" "N");
    try reflexivity.
  intros d H. injection H as <-. reflexivity.
Defined.

(** ** The metric organizer *)

(** X8.  Whatever calls an organizer has served, its alias table is
    one-to-one: two names never share an alias, every alias handed out is
    below the next one, and [get_name] inverts [get_alias]. *)
Theorem organizer_aliases_one_to_one (calls : list OrganizerCall) :
  let org := organizer_run MetricOrganizer_new calls in
  (forall name a, get_alias org name = OK a ->
     get_name org a = OK name /\ a < _next_alias org)
  /\ (forall name1 name2 a,
        get_alias org name1 = OK a -> get_alias org name2 = OK a -> name1 = name2).
Proof.
  cbv zeta.
  pose proof (organizer_run_aliases_ok calls _ MetricOrganizer_new_aliases_ok) as Hok.
  assert (Hinv : forall name a,
            get_alias (organizer_run MetricOrganizer_new calls) name = OK a ->
            get_name (organizer_run MetricOrganizer_new calls) a = OK name).
  { intros name a. apply get_name_get_alias, Hok. }
  split.
  - intros name a Ha. split; [apply Hinv, Ha|].
    destruct Hok as [_ Hlt]. rewrite List.Forall_forall in Hlt. apply Hlt.
    unfold get_alias in Ha.
    destruct (dict_get _ name) as [a'|] eqn:E; [|discriminate]. injection Ha as ->.
    apply dict_get_Some_In in E. apply in_map_iff. exists (name, a). auto.
  - intros name1 name2 a H1 H2. apply Hinv in H1, H2. congruence.
Qed.

Lemma mapM_Forall2 {A B : Type} (f : A -> result B) (l : list A) (l' : list B) :
  mapM f l = OK l' -> Forall2 (fun x y => f x = OK y) l l'.
Proof.
  revert l'. induction l as [|x l IH]; simpl; intros l' H.
  - injection H as <-. constructor.
  - destruct (f x) as [y|] eqn:E; simpl in H; [|discriminate].
    destruct (mapM f l) as [ys|]; simpl in H; [|discriminate].
    injection H as <-. constructor; [exact E|apply IH; reflexivity].
Qed.

(** X9.  [get_and_commit] hands out the metrics set since the last commit,
    in the order they were set, each named one with its name replaced by the
    alias of that name; nothing is left uncommitted, so the next call hands
    out nothing. *)
Theorem get_and_commit_drains (self self' : MetricOrganizer) (rets : list Metric) :
  get_and_commit self = (self', OK rets) ->
  Forall2 (fun metric ret =>
             match m_name metric with
             | Some n => exists a, get_alias self n = OK a
                                   /\ ret = clear_name (set_alias a metric)
             | None => ret = metric
             end) (_uncommitted_metrics self) rets
  /\ _uncommitted_metrics self' = []
  /\ get_and_commit self' = (self', OK [])
  /\ _metric_names_to_aliases self' = _metric_names_to_aliases self.
Proof.
  unfold get_and_commit at 1. intros H.
  destruct (mapM (_copy_with_alias self) (_uncommitted_metrics self)) as [rs|] eqn:E;
    [|discriminate].
  injection H as <- <-. split; [|split; [reflexivity|split; reflexivity]].
  apply mapM_Forall2 in E. eapply Forall2_impl; [exact E|].
  intros metric ret. simpl. unfold _copy_with_alias, get_alias.
  destruct (m_name metric) as [n|]; [|congruence].
  destruct (dict_get (_metric_names_to_aliases self) n) as [a|]; [|discriminate].
  intros [= <-]. eauto.
Qed.

Lemma get_and_commit_drains_witness :
  get_and_commit
    (fst (get_and_commit
            (fst (organizer_set
                    (fst (set_initial_metrics MetricOrganizer_new [example_metric "x" 1]))
                    (example_metric "x" 2) false))))
  = (fst (get_and_commit
            (fst (organizer_set
                    (fst (set_initial_metrics MetricOrganizer_new [example_metric "x" 1]))
                    (example_metric "x" 2) false))),
     OK []).
Proof.
  eapply (get_and_commit_drains
            (fst (organizer_set
                    (fst (set_initial_metrics MetricOrganizer_new [example_metric "x" 1]))
                    (example_metric "x" 2) false))).
  reflexivity.
Defined.

(** ** The interface before the first NBIRTH *)

Lemma step_before_birth self c :
  _is_born self = false -> is_New_nbirth c = false ->
  _is_born (fst (step self c)) = false
  /\ (forall o, snd (step self c) = Some o -> fst o = NDEATH \/ fst o = DDEATH).
Proof.
  intros Hb Hc. destruct c; simpl in *; try discriminate.
  - split; [exact Hb|discriminate].
  - unfold silent, unregister_device. destruct (_ !! name); split; auto; discriminate.
  - unfold silent, set_initial_node_metrics. rewrite Hb.
    destruct (_ !! ""); [|split; auto; discriminate].
    destruct (set_initial_metrics _ _) as [org' [t|e]]; split; auto; discriminate.
  - unfold silent, set_node_metric.
    destruct (_ !! ""); [|split; auto; discriminate].
    destruct (organizer_set _ _ _). split; auto; discriminate.
  - unfold silent, del_node_metric. destruct (_ !! ""); split; auto; discriminate.
  - unfold silent, register_device_class_metrics.
    destruct (set_initial_metrics _ _) as [org' [t|e]]; split; auto; discriminate.
  - unfold silent, set_initial_device_metrics.
    destruct (_ !! device); [|split; auto; discriminate].
    destruct (set_initial_metrics _ _) as [org' [t|e]]; split; auto; discriminate.
  - unfold silent, set_device_metric.
    destruct (_ !! device); [|split; auto; discriminate].
    destruct (organizer_set _ _ _). split; auto; discriminate.
  - split; [exact Hb|discriminate].
  - unfold new_dbirth. rewrite Hb. simpl. split; [exact Hb|discriminate].
  - unfold new_ndeath. destruct (_fill_in_bdseq_metric _ _); simpl; split; auto.
    + intros o [= <-]. auto.
    + discriminate.
  - unfold new_ddeath, new_seq_payload. simpl. split; [exact Hb|].
    intros o [= <-]. auto.
  - unfold new_ndata. rewrite Hb. simpl. split; [exact Hb|discriminate].
  - unfold new_ddata. rewrite Hb. simpl. split; [exact Hb|discriminate].
Qed.

(** X10.  Until [new_nbirth] is called the interface stays unborn and builds
    no birth or data payload: whatever else is called, only death payloads
    come out. *)
Theorem no_payload_before_nbirth (group_id edge_node_id : option string)
    (bdSeq0 : option Z) (calls : list Call) :
  forallb (fun c => negb (is_New_nbirth c)) calls = true ->
  _is_born (fst (run (TahuServerInterface_new group_id edge_node_id bdSeq0) calls)) = false
  /\ Forall (fun o => fst o = NDEATH \/ fst o = DDEATH)
       (snd (run (TahuServerInterface_new group_id edge_node_id bdSeq0) calls)).
Proof.
  assert (H : forall calls self, _is_born self = false ->
            forallb (fun c => negb (is_New_nbirth c)) calls = true ->
            _is_born (fst (run self calls)) = false
            /\ Forall (fun o => fst o = NDEATH \/ fst o = DDEATH) (snd (run self calls))).
  { clear calls. induction calls as [|c calls IH]; intros self Hb Hc.
    - split; [exact Hb|constructor].
    - simpl in Hc. apply andb_true_iff in Hc as [Hc Hcs]. apply negb_true_iff in Hc.
      destruct (step_before_birth self c Hb Hc) as [Hb1 Ho].
      rewrite run_cons. destruct (step self c) as [self1 out]. simpl in *.
      destruct (IH self1 Hb1 Hcs) as [Hb2 Hout].
      destruct (run self1 calls) as [self2 outs]. simpl in *.
      split; [exact Hb2|]. destruct out as [o|]; [|exact Hout].
      constructor; [apply Ho; reflexivity|exact Hout]. }
  intros Hc. apply H; [reflexivity|exact Hc].
Qed.

Lemma no_payload_before_nbirth_witness :
  _is_born (fst (run (TahuServerInterface_new (Some "G") (Some "N") (Some 0))
                   [Set_node_metric (example_metric "x" 1) true; New_ndata 5; New_ndeath]))
  = false
  /\ Forall (fun o => fst o = NDEATH \/ fst o = DDEATH)
       (snd (run (TahuServerInterface_new (Some "G") (Some "N") (Some 0))
               [Set_node_metric (example_metric "x" 1) true; New_ndata 5; New_ndeath])).
Proof.
  apply (no_payload_before_nbirth (Some "G") (Some "N") (Some 0)
           [Set_node_metric (example_metric "x" 1) true; New_ndata 5; New_ndeath]).
  reflexivity.
Defined.

Lemma organizer_aliases_one_to_one_witness :
  get_name (organizer_run MetricOrganizer_new
              [Org_set_initial_metrics [example_metric "x" 1; example_metric "y" 2];
               Org_delete "x"]) 1 = OK "y"
  /\ 1 < _next_alias (organizer_run MetricOrganizer_new
                        [Org_set_initial_metrics [example_metric "x" 1; example_metric "y" 2];
                         Org_delete "x"]).
Proof.
  destruct (organizer_aliases_one_to_one
              [Org_set_initial_metrics [example_metric "x" 1; example_metric "y" 2];
               Org_delete "x"]) as [H _].
  apply (H "y" 1). reflexivity.
Defined.

(** ** Changed metrics of an endpoint ([server_endpoint_base.py]) *)

Lemma updated_metrics_loop_snapshot e items :
  forall snapshot acc snapshot' acc',
  nodup_names (List.map fst items) = true ->
  (forall k, In k (List.map fst items) -> is_Some (dict_get snapshot k)) ->
  updated_metrics_loop e items snapshot acc = (snapshot', OK acc') ->
  dict_keys snapshot' = dict_keys snapshot
  /\ (forall k, ~ In k (List.map fst items) -> dict_get snapshot' k = dict_get snapshot k)
  /\ (forall k old, In (k, old) items ->
        exists curr, dict_get (ep_current e) k = Some curr
                     /\ dict_get snapshot' k
                        = if icpw_eq old curr then dict_get snapshot k else Some curr).
Proof.
  induction items as [|[key old] rest IH]; intros snapshot acc snapshot' acc' Hnd Hin H.
  - injection H as <- <-. split; [reflexivity|]. split; [reflexivity|]. intros k o [].
  - simpl in H. simpl in Hnd. apply nodup_names_cons in Hnd as [Hnotin Hnd].
    destruct (dict_get (ep_current e) key) as [curr|] eqn:Ec; [|discriminate].
    destruct (icpw_eq old curr) eqn:Eeq; simpl in H.
    + destruct (IH _ _ _ _ Hnd (fun k Hk => Hin k (or_intror Hk)) H) as (K1 & K2 & K3).
      split; [exact K1|]. split.
      * intros k Hk. apply K2. intros Hr. apply Hk. right. exact Hr.
      * intros k o [Heq|Hr]; [|apply K3, Hr].
        injection Heq as <- <-. exists curr. split; [exact Ec|].
        rewrite Eeq. apply K2, Hnotin.
    + assert (Hin1 : forall k, In k (List.map fst rest) ->
                is_Some (dict_get (dict_set snapshot key curr) k)).
      { intros k Hk. destruct (decide (key = k)) as [<-|Hne].
        - rewrite dict_get_set_eq. eauto.
        - rewrite dict_get_set_ne by exact Hne. apply Hin. right. exact Hk. }
      destruct (IH _ _ _ _ Hnd Hin1 H) as (K1 & K2 & K3).
      destruct (Hin key (or_introl eq_refl)) as [v0 Hv0].
      split; [rewrite K1; apply (dict_keys_set_existing _ _ _ v0 Hv0)|]. split.
      * intros k Hk. rewrite K2 by (intros Hr; apply Hk; right; exact Hr).
        apply dict_get_set_ne. intros ->. apply Hk. left. reflexivity.
      * intros k o [Heq|Hr].
        -- injection Heq as <- <-. exists curr. split; [exact Ec|].
           rewrite Eeq, (K2 _ Hnotin). apply dict_get_set_eq.
        -- destruct (K3 k o Hr) as (c & Hc & Hs). exists c. split; [exact Hc|].
           rewrite Hs. destruct (icpw_eq o c); [|reflexivity].
           apply dict_get_set_ne. intros ->. apply Hnotin.
           apply in_map_iff. exists (k, o). auto.
Qed.

Lemma updated_metrics_loop_reported e (P : string * (IcypawValue * IcypawValue) -> Prop) items :
  forall snapshot acc snapshot' acc',
  (forall key old curr, In (key, old) items ->
     dict_get (ep_current e) key = Some curr -> icpw_eq old curr = false ->
     P (ep_network_name e key, (curr, old))) ->
  Forall P acc ->
  updated_metrics_loop e items snapshot acc = (snapshot', OK acc') ->
  Forall P acc'.
Proof.
  induction items as [|[key old] rest IH]; intros snapshot acc snapshot' acc' HP Hacc H.
  - injection H as <- <-. exact Hacc.
  - simpl in H. destruct (dict_get (ep_current e) key) as [curr|] eqn:Ec; [|discriminate].
    destruct (icpw_eq old curr) eqn:Eeq; simpl in H.
    + eapply IH; [|exact Hacc|exact H]. intros k o c Hk. apply HP. right. exact Hk.
    + eapply IH; [| |exact H].
      * intros k o c Hk. apply HP. right. exact Hk.
      * apply dict_set_entries; [|exact Hacc]. apply HP; auto. left. reflexivity.
Qed.

(** X11.  [icpw_updated_metrics] reports a metric only if its current value
    differs from the value last reported, and records the current value as
    reported: when every current value equals itself (no NaN), a second call
    right after reports nothing. *)
Theorem icpw_updated_metrics_reports_once (e e' : ServerEndpoint)
    (updated : list (string * (IcypawValue * IcypawValue))) :
  nodup_names (List.map fst (ep_metric_dict e)) = true ->
  (forall key curr, dict_get (ep_current e) key = Some curr -> icpw_eq curr curr = true) ->
  icpw_updated_metrics e = (e', OK updated) ->
  Forall (fun entry =>
            exists key old,
              In (key, old) (ep_metric_dict e)
              /\ fst entry = ep_network_name e key
              /\ dict_get (ep_current e) key = Some (fst (snd entry))
              /\ snd (snd entry) = old
              /\ icpw_eq old (fst (snd entry)) = false) updated
  /\ ep_current e' = ep_current e
  /\ icpw_updated_metrics e' = (e', OK []).
Proof.
  intros Hnd Hrefl H. unfold icpw_updated_metrics in H.
  destruct (updated_metrics_loop e (ep_metric_dict e) (ep_metric_dict e) [])
    as [snapshot r] eqn:El.
  injection H as <- ->. split; [|split; [reflexivity|]].
  - eapply updated_metrics_loop_reported; [|apply List.Forall_nil|exact El].
    intros key old curr Hin Hc Heq. exists key, old. simpl. auto.
  - apply icpw_updated_metrics_unchanged. unfold unchanged. simpl.
    assert (Hsome : forall k, In k (List.map fst (ep_metric_dict e)) ->
              is_Some (dict_get (ep_metric_dict e) k)).
    { intros k Hk. destruct (dict_get_is_Some_keys _ _ Hk) as [v Hv]. eauto. }
    destruct (updated_metrics_loop_snapshot e _ _ _ _ _ Hnd Hsome El) as (K1 & _ & K3).
    apply forallb_forall. intros [k v] Hin. simpl.
    assert (Hget : dict_get snapshot k = Some v).
    { apply (dict_get_In_nodup snapshot (k, v)); [|exact Hin].
      change (List.map fst snapshot) with (dict_keys snapshot). rewrite K1. exact Hnd. }
    assert (Hk : In k (dict_keys (ep_metric_dict e))).
    { rewrite <- K1. apply in_map_iff. exists (k, v). auto. }
    apply in_map_iff in Hk as ([k0 old] & Hk0 & Hold). simpl in Hk0. subst k0.
    destruct (K3 k old Hold) as (curr & Hc & Hs). rewrite Hc.
    rewrite Hget in Hs. destruct (icpw_eq old curr) eqn:Eeq.
    + pose proof (dict_get_In_nodup (ep_metric_dict e) (k, old) Hnd Hold) as Ho.
      simpl in Ho. rewrite Ho in Hs. injection Hs as ->. exact Eeq.
    + injection Hs as ->. apply (Hrefl k curr Hc).
Qed.

Lemma icpw_updated_metrics_reports_once_witness :
  icpw_updated_metrics (fst (icpw_updated_metrics example_changed_node))
  = (fst (icpw_updated_metrics example_changed_node), OK []).
Proof.
  eapply (icpw_updated_metrics_reports_once example_changed_node _
            [("x", (Scalar (Int64 8), Scalar (Int64 7)))]).
  - reflexivity.
  - intros key curr H. simpl in H.
    destruct (decide (key = "x")); [injection H as <-; reflexivity|discriminate].
  - reflexivity.
Defined.

(** A metric that holds a NaN differs from its own last report, so it is
    reported at every call. *)
Example nan_metric_reported_again :
  snd (icpw_updated_metrics (fst (icpw_updated_metrics example_nan_node)))
  = OK [("t", (Scalar (Double PrimFloat.nan), Scalar (Double PrimFloat.nan)))].
Proof. vm_compute. reflexivity. Qed.

(** ** The payload of updates *)

Lemma set_in_metric_keeps_name host v metric m' :
  set_in_metric host v metric = OK m' ->
  m_name m' = m_name metric /\ m_timestamp m' = m_timestamp metric.
Proof.
  assert (H : forall value datatype,
            set_metric_value value datatype metric = OK m' ->
            m_name m' = m_name metric /\ m_timestamp m' = m_timestamp metric).
  { intros value datatype. unfold set_metric_value.
    destruct (set_in_tahu_object value datatype); simpl; [|discriminate].
    intros [= <-]. split; reflexivity. }
  destruct v as [s|nn fields|ty items]; simpl.
  - unfold scalar_set_in_metric. destruct s; apply H.
  - destruct (mapM _ fields); simpl; [apply H|discriminate].
  - destruct (array_to_dataset ty items); simpl; [apply H|discriminate].
Qed.

Section PayloadFacts.
Context (host : Host) (clock : nat -> Z) {F : Type}.

Lemma render_updates_names (icpw_metrics : list (string * IcypawValue)) :
  forall (st st' : ServerEngine F) tahu_metrics,
  render_updates host clock icpw_metrics st = (st', OK tahu_metrics) ->
  List.map m_name tahu_metrics = List.map (fun kv => Some (fst kv)) icpw_metrics
  /\ published st' = published st /\ _iface st' = _iface st.
Proof.
  induction icpw_metrics as [|[name v] rest IH]; intros st st' ms H.
  - injection H as <- <-. auto.
  - simpl in H. unfold andThen, new_metric, andThen, time_time, ret, lift in H.
    simpl in H.
    destruct (set_in_metric host v _) as [m|] eqn:Em; [|discriminate].
    match type of H with
    | context [render_updates host clock rest ?s] =>
        destruct (render_updates host clock rest s) as [st1 [ms1|]] eqn:Er;
          [|discriminate]
    end.
    injection H as <- <-. destruct (IH _ _ _ Er) as (Hn & Hp & Hi).
    apply set_in_metric_keeps_name in Em as [Em _].
    simpl. rewrite Em, Hn. auto.
Qed.

(** X12.  The payload the engine builds for an endpoint's changes carries
    one metric for each changed metric, in the order the changes were
    found, each under the metric's network name; it is stamped with the
    clock and carries no seq. *)
Theorem updated_payload_shape (loc : option string) (st st' : ServerEngine F)
    (endpoint endpoint' : ServerEndpoint)
    (updated : list (string * (IcypawValue * IcypawValue))) (p : Payload) :
  endpoint_at loc st = Some endpoint ->
  icpw_updated_metrics endpoint = (endpoint', OK updated) ->
  _create_updated_endpoint_metric_payload host clock loc st = (st', OK (Some p)) ->
  List.map m_name (p_metrics p) = List.map (fun kv => Some (fst kv)) updated
  /\ updated <> []
  /\ p_timestamp p = Some (clock (ticks st))
  /\ p_seq p = None
  /\ published st' = published st.
Proof.
  intros He Hu H. unfold _create_updated_endpoint_metric_payload in H.
  rewrite He, Hu in H. unfold andThen, lift in H.
  destruct (store_endpoint loc endpoint' st) as [st1 [[]|]] eqn:Es; [|discriminate].
  assert (Hst1 : published st1 = published st /\ ticks st1 = ticks st).
  { unfold store_endpoint in Es. destruct loc as [device_id|].
    - destruct (dict_get (_devices st) device_id); [|discriminate].
      injection Es as <-. auto.
    - injection Es as <-. auto. }
  destruct Hst1 as [Hp1 Ht1].
  destruct updated as [|u updated]; [discriminate|].
  cbn [List.map] in H. unfold time_time, ret in H.
  match type of H with
  | context [render_updates host clock ?l ?s] =>
      destruct (render_updates host clock l s) as [st2 [ms|]] eqn:Er; [|discriminate]
  end.
  injection H as <- <-. apply render_updates_names in Er as (Hn & Hp & _).
  split; [|split; [discriminate|split; [|split]]].
  - simpl. rewrite Hn. simpl. rewrite map_map. reflexivity.
  - simpl. rewrite Ht1. reflexivity.
  - reflexivity.
  - rewrite Hp. exact Hp1.
Qed.
End PayloadFacts.

Lemma updated_payload_shape_witness :
  List.map m_name (p_metrics example_updates_payload) = [Some "x"]
  /\ p_seq example_updates_payload = None.
Proof.
  destruct (updated_payload_shape example_host Z.of_nat None
              (fst (example_run_func false example_engine))
              (fst (_create_updated_endpoint_metric_payload example_host Z.of_nat None
                      (fst (example_run_func false example_engine))))
              example_changed_node (fst (icpw_updated_metrics example_changed_node))
              [("x", (Scalar (Int64 8), Scalar (Int64 7)))] example_updates_payload)
    as (H1 & _ & _ & H4 & _).
  - reflexivity.
  - reflexivity.
  - vm_compute. reflexivity.
  - split; [exact H1|exact H4].
Defined.

(** ** Matching endpoint names *)

Lemma _match_component_concrete a b :
  is_any a = false -> _match_component a b = NameComponent_eqb a b.
Proof.
  unfold _match_component. destruct (NameComponent_eqb a b) eqn:E; [reflexivity|].
  destruct a, b; try reflexivity; discriminate.
Qed.

Lemma NameComponent_eqb_refl a : NameComponent_eqb a a = true.
Proof. destruct a; simpl; auto using String.eqb_refl. Qed.

(** X13.  For names as the constructor builds them: a name without
    wildcards matches exactly the names equal to it; a name matches itself
    when it is concrete; a wildcard component matches any component that is
    present but not an absent one, so a filter with a wildcard device never
    matches a node; and matching against a name that holds a wildcard is
    refused. *)
Theorem ClientEndpointName_match_concrete (self other : ClientEndpointName) :
  ClientEndpointName_of_name other = OK other ->
  (has_wildcard other = true -> is_OK (ClientEndpointName_match self other) = false)
  /\ (has_wildcard other = false -> has_wildcard self = false ->
      ClientEndpointName_match self other = OK (ClientEndpointName_eqb self other))
  /\ (has_wildcard other = false ->
      ClientEndpointName_match other other = OK true)
  /\ (has_wildcard other = false ->
      cen_device_id self = comp_any -> cen_device_id other = comp_None ->
      ClientEndpointName_match self other = OK false).
Proof.
  intros Hn. unfold ClientEndpointName_match. rewrite Hn. simpl.
  split; [|split; [|split]].
  - intros ->. reflexivity.
  - intros -> Hs. unfold has_wildcard in Hs.
    apply orb_false_iff in Hs as [Hs Hd]. apply orb_false_iff in Hs as [Hg He].
    rewrite !_match_component_concrete by assumption.
    unfold ClientEndpointName_eqb. f_equal.
    destruct (NameComponent_eqb (cen_group_id self) _),
             (NameComponent_eqb (cen_edge_node_id self) _),
             (NameComponent_eqb (cen_device_id self) _); reflexivity.
  - intros Ho. rewrite Ho. unfold _match_component.
    rewrite !NameComponent_eqb_refl. reflexivity.
  - intros -> Hs Ho. rewrite Hs, Ho. reflexivity.
Qed.

Lemma ClientEndpointName_match_concrete_witness :
  ClientEndpointName_match
    (mkClientEndpointName comp_any (comp_str "N") comp_any)
    (mkClientEndpointName (comp_str "G") (comp_str "N") comp_None)
  = OK false.
Proof.
  destruct (ClientEndpointName_match_concrete
              (mkClientEndpointName comp_any (comp_str "N") comp_any)
              (mkClientEndpointName (comp_str "G") (comp_str "N") comp_None))
    as (_ & _ & _ & H); [reflexivity|]. apply H; reflexivity.
Defined.

(** ** What a received message leaves alone *)

Section ClientFrame.
Context {D : Type}.
Context (ParseFromString : string -> result Payload).
Context (_on_birth _on_death _on_data
         : Topic -> ClientEndpointName -> Payload -> D -> D * result unit).
Context (_route_message_to_user
         : Event -> Topic -> ClientEndpointName -> Payload -> D -> D * result unit).

(** X14.  A message with an empty payload, with a topic that does not
    parse, or with a payload that does not decode leaves the client as it
    was, handlers uncalled; any message leaves the fingerprints of the other
    topics alone; and a message without timestamp or seq changes no
    fingerprint at all, so it is never taken for a duplicate. *)
Theorem on_message_frame (self : IcypawClient D) (m : MQTTMessage) :
  (msg_payload m = "" \/ is_OK (parse_topic (msg_topic m)) = false
   \/ is_OK (ParseFromString (msg_payload m)) = false ->
   _on_message ParseFromString _on_birth _on_death _on_data _route_message_to_user self m
   = self)
  /\ (forall t, msg_topic m <> t ->
      _seen_messages
        (_on_message ParseFromString _on_birth _on_death _on_data _route_message_to_user
           self m) !! t
      = _seen_messages self !! t)
  /\ (forall payload, ParseFromString (msg_payload m) = OK payload ->
      p_timestamp payload = None \/ p_seq payload = None ->
      _seen_messages
        (_on_message ParseFromString _on_birth _on_death _on_data _route_message_to_user
           self m)
      = _seen_messages self).
Proof.
  split; [|split].
  - unfold _on_message, _on_message_no_try. intros [H|[H|H]].
    + rewrite H. reflexivity.
    + destruct (String.eqb (msg_payload m) ""); [reflexivity|].
      destruct (parse_topic (msg_topic m)); [discriminate|reflexivity].
    + destruct (String.eqb (msg_payload m) ""); [reflexivity|].
      destruct (parse_topic (msg_topic m)) as [tp|]; [|reflexivity].
      destruct (ClientEndpointName_of_topic tp); [|reflexivity].
      destruct (ParseFromString (msg_payload m)); [discriminate|reflexivity].
  - intros t Ht. apply _on_message_other_topic, Ht.
  - intros payload Hp Hno. unfold _on_message, _on_message_no_try.
    destruct (String.eqb (msg_payload m) ""); [reflexivity|].
    destruct (parse_topic (msg_topic m)) as [tp|]; [|reflexivity].
    destruct (ClientEndpointName_of_topic tp) as [name|]; [|reflexivity].
    rewrite Hp.
    destruct Hno as [H|H]; rewrite H; [|destruct (p_timestamp payload)];
      destruct (route_message _ _ _ _ _ _ _ _) as [data r]; reflexivity.
Qed.
End ClientFrame.

Lemma on_message_frame_witness :
  _on_message example_decoder example_table_handler example_table_handler
    example_table_handler example_user_route (mkIcypawClient ∅ [])
    (mkMQTTMessage "spBv1.0/G/NDATA/N" "")
  = mkIcypawClient ∅ [].
Proof.
  destruct (on_message_frame example_decoder example_table_handler example_table_handler
              example_table_handler example_user_route (mkIcypawClient ∅ [])
              (mkMQTTMessage "spBv1.0/G/NDATA/N" "")) as [H _].
  apply H. left. reflexivity.
Defined.

(** ** The bdSeq number, from the server to the client *)

(** X15.  The bdSeq number the interface writes is the lifetime sequence the
    client reads: from an NBIRTH payload and from an NDEATH payload alike,
    whatever aliases the client knows.  The NDEATH so built retires the
    birth with the same bdSeq and leaves a birth with the next bdSeq
    online. *)
Theorem bdSeq_read_back (self : TahuServerInterface) (b : Z) (ep : ClientEndpoint) :
  _bdSeq self = Some b ->
  (forall now self' nbirth,
     new_nbirth self now = (self', OK nbirth) ->
     _get_lifetime_sequence ep nbirth = OK (Some b))
  /\ (forall self' ndeath,
        new_ndeath self = (self', OK ndeath) ->
        _get_lifetime_sequence ep ndeath = OK (Some b)
        /\ exists ep', update_from_tahu_death ep ndeath = OK ep'
                       /\ _last_death_seq ep' = Some b
                       /\ (_last_birth_seq ep = Some b -> is_online ep' = false)
                       /\ (_last_birth_seq ep = Some (b + 1) -> is_online ep' = true)).
Proof.
  intros Hb. split.
  - intros now self' nbirth H. unfold new_nbirth in H. cbn -[get_all] in H.
    unfold _fill_in_bdseq_metric in H. cbn -[get_all] in H. rewrite Hb in H.
    destruct ((0 <=? b) && (b <? 2 ^ 64)); cbn -[get_all] in H; [|discriminate].
    destruct (_metric_organizers self !! ""); cbn -[get_all] in H; [|discriminate].
    destruct (get_all _) as [org' [ms|e]]; [|discriminate].
    injection H as _ <-. reflexivity.
  - intros self' ndeath H. unfold new_ndeath, _fill_in_bdseq_metric in H. rewrite Hb in H.
    destruct ((0 <=? b) && (b <? 2 ^ 64)); [|discriminate].
    injection H as _ <-.
    assert (Hseq : _get_lifetime_sequence ep
                     (mkPayload None None
                        [mkMetric (Some "bdSeq") None None (DataType.value DataType.UInt64)
                           false false false empty_PropertySet
                           (scalar_value (long_value b))]) = OK (Some b))
      by reflexivity.
    split; [exact Hseq|]. unfold update_from_tahu_death. cbn.
    eexists. split; [reflexivity|]. split; [reflexivity|].
    unfold is_online. simpl. split; intros ->.
    + rewrite Z.ltb_irrefl. simpl.
      destruct (b =? 255) eqn:E; [|reflexivity].
      apply Z.eqb_eq in E. subst. reflexivity.
    + assert (E : (b <? b + 1) = true) by (apply Z.ltb_lt; lia). rewrite E. reflexivity.
Qed.

Lemma bdSeq_read_back_witness :
  _get_lifetime_sequence ClientEndpoint_new (bdSeq_message 255) = OK (Some 255).
Proof.
  destruct (bdSeq_read_back (TahuServerInterface_new None None (Some 255)) 255
              ClientEndpoint_new eq_refl) as [_ K].
  apply (K (TahuServerInterface_new None None (Some 255)) (bdSeq_message 255) eq_refl).
Defined.

(** ** Writing the difference of two records and merging it back *)

Lemma diffed_names host fields decls ofields parts rfields :
  diffed host fields decls ofields parts rfields ->
  List.map fst fields = List.map fst decls
  /\ List.map fst rfields = List.map fst decls.
Proof.
  induction 1 as [|f d o fields decls ofields parts rfields Hf Ho _ _ _ [IH1 IH2]
                  |f d o m r fields decls ofields parts rfields Hf Ho _ _ _ _ _ [IH1 IH2]];
    simpl; [auto| |]; rewrite IH1, IH2, Hf, Ho; auto.
Qed.

Lemma merge_fields_diffed host fields decls ofields parts rfields :
  diffed host fields decls ofields parts rfields ->
  forall done,
    nodup_names (List.map fst decls) = true ->
    (forall d, In d decls -> ~ In (fst d) (dict_keys done)) ->
    merge_fields host (concat parts) (done ++ ofields)%list = OK (done ++ rfields)%list.
Proof.
  induction 1 as [|f d o fields decls ofields parts rfields Hf Ho Hwo Heq Hd IH
                  |f d o m r fields decls ofields parts rfields Hf Ho Hname Hm Hwr Heq Hd IH];
    intros done Hnd Hdone.
  - reflexivity.
  - simpl in Hnd. apply nodup_names_cons in Hnd as [Hnotin Hnd]. simpl.
    replace (done ++ o :: ofields)%list with ((done ++ [o]) ++ ofields)%list
      by (rewrite <- List.app_assoc; reflexivity).
    rewrite (IH (done ++ [o])%list Hnd).
    + rewrite <- List.app_assoc. reflexivity.
    + intros d' Hin. unfold dict_keys. rewrite List.map_app, in_app_iff. simpl.
      intros [Hc|[Hc|[]]].
      * apply (Hdone d'); [right; exact Hin|exact Hc].
      * apply Hnotin. rewrite <- Ho, Hc. apply in_map, Hin.
  - simpl in Hnd. apply nodup_names_cons in Hnd as [Hnotin Hnd].
    assert (Hk : ~ In (fst o) (dict_keys done)).
    { rewrite Ho. apply Hdone. left. reflexivity. }
    assert (Hfo : fst f = fst o) by congruence.
    simpl. unfold name_of at 1. rewrite Hname, Hfo.
    rewrite dict_get_app_notin by exact Hk.
    destruct o as [no vo]. simpl in *.
    destruct (decide (no = no)); [|congruence].
    rewrite Hm. simpl. unfold name_of. rewrite Hname, Hfo.
    rewrite dict_set_app_notin by exact Hk. simpl.
    destruct (decide (no = no)); [|congruence].
    replace (done ++ (no, r) :: ofields)%list with ((done ++ [(no, r)]) ++ ofields)%list
      by (rewrite <- List.app_assoc; reflexivity).
    rewrite (IH (done ++ [(no, r)])%list Hnd).
    + rewrite <- List.app_assoc. reflexivity.
    + intros d' Hin. unfold dict_keys. rewrite List.map_app, in_app_iff. simpl.
      intros [Hc|[Hc|[]]].
      * apply (Hdone d'); [right; exact Hin|exact Hc].
      * apply Hnotin. rewrite <- Ho, Hc. apply in_map, Hin.
Qed.

Lemma diffed_result host fields decls ofields parts rfields :
  diffed host fields decls ofields parts rfields ->
  nodup_names (List.map fst decls) = true ->
  fields_well_typed rfields decls = true
  /\ List.length fields = List.length rfields
  /\ forallb (fun f => match dict_get rfields (fst f) with
                        | Some v => icpw_eq (snd f) v
                        | None => false
                        end) fields = true.
Proof.
  induction 1 as [|f d o fields decls ofields parts rfields Hf Ho Hwo Heq Hd IH
                  |f d o m r fields decls ofields parts rfields Hf Ho Hname Hm Hwr Heq Hd IH];
    intros Hnd.
  - auto.
  - simpl in Hnd. apply nodup_names_cons in Hnd as [Hnotin Hnd].
    destruct (IH Hnd) as (K1 & K2 & K3). destruct (diffed_names _ _ _ _ _ _ Hd) as [N1 _].
    split; [|split].
    + simpl. rewrite Ho, String.eqb_refl, Hwo, K1. reflexivity.
    + simpl. rewrite K2. reflexivity.
    + simpl. rewrite Hf, <- Ho. destruct o as [no vo]. simpl in *.
      destruct (decide (no = no)); [|congruence]. rewrite Heq. simpl.
      apply forallb_forall. intros f' Hin. rewrite forallb_forall in K3.
      destruct (decide (fst f' = no)) as [Hc|_]; [|apply K3, Hin].
      exfalso. apply Hnotin. rewrite <- Ho, <- Hc, <- N1. apply in_map, Hin.
  - simpl in Hnd. apply nodup_names_cons in Hnd as [Hnotin Hnd].
    destruct (IH Hnd) as (K1 & K2 & K3). destruct (diffed_names _ _ _ _ _ _ Hd) as [N1 _].
    split; [|split].
    + simpl. rewrite Ho, String.eqb_refl, Hwr, K1. reflexivity.
    + simpl. rewrite K2. reflexivity.
    + simpl. rewrite Hf, <- Ho.
      destruct (decide (fst o = fst o)); [|congruence]. rewrite Heq. simpl.
      apply forallb_forall. intros f' Hin. rewrite forallb_forall in K3.
      destruct (decide (fst f' = fst o)) as [Hc|_]; [|apply K3, Hin].
      exfalso. apply Hnotin. rewrite <- Ho, <- Hc, <- N1. apply in_map, Hin.
Qed.

Lemma set_difference_general host self :
  forall cls other metric,
    well_typed self cls = true -> well_typed other cls = true ->
    class_wf cls = true -> datetime_free cls = true -> nan_free self = true ->
    exists m' r,
      set_difference_in_metric host self other metric = OK m'
      /\ m_name m' = m_name metric
      /\ merge_with_metric host m' other = OK r
      /\ well_typed r cls = true
      /\ icpw_eq self r = true.
Proof.
  induction self as [s|nn fields IHf|e items] using IcypawValue_nested_ind;
    intros cls other metric Hwt Hwo Hwf Hdf Hnan.
  - destruct (roundtrip_general host (Scalar s) cls Hwt Hwf Hdf metric)
      as (m' & Hset & Hname & Hget).
    exists m', (Scalar s). split; [exact Hset|]. split; [exact Hname|].
    split; [apply Hget, Hwo|]. split; [exact Hwt|].
    apply (icpw_eq_refl _ cls Hwt Hwf Hnan).
  - destruct cls as [|nn' decls|]; try discriminate.
    destruct other as [|nn0 ofields|]; try discriminate.
    rewrite well_typed_Struct in Hwt, Hwo.
    apply andb_true_iff in Hwt as [Hnn Hfields]. apply String.eqb_eq in Hnn. subst nn'.
    apply andb_true_iff in Hwo as [Hnn0 Hofields]. apply String.eqb_eq in Hnn0. subst nn0.
    simpl in Hwf. apply andb_true_iff in Hwf as [Hnd Hwfs]. simpl in Hdf, Hnan.
    assert (Hlook : forall o, In o ofields -> dict_get ofields (fst o) = Some (snd o)).
    { intros o Hin. apply dict_get_In_nodup; [|exact Hin].
      rewrite (fields_well_typed_names _ _ Hofields). exact Hnd. }
    assert (Henc : forall ofull,
               (forall o, In o ofields -> dict_get ofull (fst o) = Some (snd o)) ->
               exists parts rfields,
               mapM (fun f =>
                       do ov <- other_field (Struct nn ofull) (fst f);
                       if negb (icpw_eq (snd f) ov)
                       then do cur_metric <-
                              set_difference_in_metric host (snd f) ov
                                (set_name (fst f) Metric_new);
                            OK [cur_metric]
                       else OK []) fields = OK parts
               /\ diffed host fields decls ofields parts rfields).
    { intros ofull. clear Hnd Hlook.
      revert decls ofields Hfields Hofields Hwfs Hdf Hnan.
      induction IHf as [|f fields Hf _ IH];
        intros [|d decls] [|o ofields] Hfields Hofields Hwfs Hdf Hnan Hlook;
        simpl in Hfields, Hofields; try discriminate.
      - exists [], []. split; [reflexivity|constructor].
      - apply andb_true_iff in Hfields as [Hfd Hrest].
        apply andb_true_iff in Hfd as [Hn Hv]. apply String.eqb_eq in Hn.
        apply andb_true_iff in Hofields as [Hod Horest].
        apply andb_true_iff in Hod as [Hno Hvo]. apply String.eqb_eq in Hno.
        simpl in Hwfs, Hdf, Hnan. apply andb_true_iff in Hwfs as [Hwfd Hwfs].
        apply andb_true_iff in Hwfd as [Hwfd _]. apply andb_true_iff in Hdf as [Hdfd Hdf].
        apply andb_true_iff in Hnan as [Hnanf Hnan].
        destruct (IH decls ofields Hrest Horest Hwfs Hdf Hnan
                    (fun o' Hin => Hlook o' (or_intror Hin)))
          as (parts & rfields & Hm & Hdiff).
        assert (Hl : dict_get ofull (fst f) = Some (snd o)).
        { rewrite Hn, <- Hno. apply Hlook. left. reflexivity. }
        cbn [mapM]. unfold other_field at 1. rewrite Hl. cbn [bind].
        destruct (icpw_eq (snd f) (snd o)) eqn:Eeq; cbn [negb].
        + exists ([] :: parts), (o :: rfields). cbn [bind]. rewrite Hm. cbn [bind].
          split; [reflexivity|]. apply diffed_same; auto.
        + destruct (Hf _ (snd o) (set_name (fst f) Metric_new) Hv Hvo Hwfd Hdfd Hnanf)
            as (m & r & Hset & Hname & Hmerge & Hwr & Hreq).
          exists ([m] :: parts), ((fst o, r) :: rfields).
          rewrite Hset. cbn [bind]. rewrite Hm. cbn [bind].
          split; [reflexivity|]. apply diffed_changed; auto. }
    destruct (Henc ofields Hlook) as (parts & rfields & Hm & Hdiff).
    destruct (diffed_result _ _ _ _ _ _ Hdiff Hnd) as (R1 & R2 & R3).
    exists (set_value (template_value (mkTemplate (concat parts) (Some nn) None))
              (set_datatype (DataType.value DataType.Template) metric)),
           (Struct nn rfields).
    split; [|split; [reflexivity|split; [|split]]].
    + cbn [set_difference_in_metric]. rewrite Hm. reflexivity.
    + rewrite merge_with_metric_Struct. simpl.
      pose proof (merge_fields_diffed host _ _ _ _ _ Hdiff [] Hnd) as Hmf.
      simpl in Hmf. rewrite Hmf; [reflexivity|]. intros d _ [].
    + rewrite well_typed_Struct, String.eqb_refl, R1. reflexivity.
    + cbn [icpw_eq]. rewrite R2, Nat.eqb_refl, R3. reflexivity.
  - destruct (roundtrip_general host (Array e items) cls Hwt Hwf Hdf metric)
      as (m' & Hset & Hname & Hget).
    exists m', (Array e items). split; [exact Hset|]. split; [exact Hname|].
    split; [apply Hget, Hwo|]. split; [exact Hwt|].
    apply (icpw_eq_refl _ cls Hwt Hwf Hnan).
Qed.

(** X16.  Writing the difference between a value and another value of its
    class and merging that metric into the other value gives a value equal
    to the first: a record travels as the fields that changed and arrives
    whole.  (Classes without [DateTime]; the value holds no NaN.) *)
Theorem set_difference_merges_back (host : Host) (cls : IcypawClass)
    (self other : IcypawValue) (metric : Metric) :
  well_typed self cls = true -> well_typed other cls = true ->
  class_wf cls = true -> datetime_free cls = true -> nan_free self = true ->
  exists m' r,
    set_difference_in_metric host self other metric = OK m'
    /\ merge_with_metric host m' other = OK r
    /\ well_typed r cls = true
    /\ icpw_eq self r = true.
Proof.
  intros Hwt Hwo Hwf Hdf Hnan.
  destruct (set_difference_general host self cls other metric Hwt Hwo Hwf Hdf Hnan)
    as (m' & r & H1 & _ & H2 & H3 & H4).
  exists m', r. auto.
Qed.

Lemma set_difference_merges_back_witness :
  exists m' r,
    set_difference_in_metric example_host
      (Struct "foo" [("x", Scalar (Int64 9)); ("y", Scalar (String_ "hello"))])
      (Struct "foo" [("x", Scalar (Int64 7)); ("y", Scalar (String_ "hello"))])
      Metric_new = OK m'
    /\ merge_with_metric example_host m'
         (Struct "foo" [("x", Scalar (Int64 7)); ("y", Scalar (String_ "hello"))]) = OK r
    /\ well_typed r example_foo_class = true
    /\ icpw_eq (Struct "foo" [("x", Scalar (Int64 9)); ("y", Scalar (String_ "hello"))]) r
       = true.
Proof.
  apply (set_difference_merges_back example_host example_foo_class); reflexivity.
Defined.

(** The difference names the changed field only. *)
Example set_difference_names_changed_field :
  set_difference_in_metric example_host
    (Struct "foo" [("x", Scalar (Int64 9)); ("y", Scalar (String_ "hello"))])
    (Struct "foo" [("x", Scalar (Int64 7)); ("y", Scalar (String_ "hello"))])
    Metric_new
  = OK example_foo_update_unaliased.
Proof. reflexivity. Qed.

(** ** What a merge refuses *)

Lemma merge_fields_unknown host submetrics :
  forall fields,
    Exists (fun sub => dict_get fields (name_of sub) = None) submetrics ->
    is_OK (merge_fields host submetrics fields) = false.
Proof.
  induction submetrics as [|sub rest IH]; intros fields Hex.
  - inversion Hex.
  - simpl. destruct (dict_get fields (name_of sub)) as [field|] eqn:E; [|reflexivity].
    destruct (merge_with_metric host sub field) as [field'|]; [|reflexivity].
    simpl. apply IH. apply Exists_cons in Hex as [Hc|Hex]; [congruence|].
    eapply Exists_impl; [exact Hex|]. intros sub' Hn. simpl in Hn.
    rewrite dict_get_set_ne; [exact Hn|]. intros Heq. rewrite Heq in E. congruence.
Qed.

(** X17.  Merging never adds a field to a record: a template that names a
    field the record does not have is refused, even when that name comes
    after fields that do exist; and a metric that carries no template leaves
    the record as it is. *)
Theorem merge_refuses_unknown_field (host : Host) (metric : Metric) (nn : string)
    (fields : list (string * IcypawValue)) :
  (forall t, m_value metric = template_value t ->
     Exists (fun sub => dict_get fields (name_of sub) = None) (t_metrics t) ->
     is_OK (merge_with_metric host metric (Struct nn fields)) = false)
  /\ ((forall t, m_value metric <> template_value t) ->
      merge_with_metric host metric (Struct nn fields) = OK (Struct nn fields)).
Proof.
  split.
  - intros t Ht Hex. rewrite merge_with_metric_Struct, Ht.
    pose proof (merge_fields_unknown host _ _ Hex) as H.
    destruct (merge_fields host (t_metrics t) fields); [discriminate|reflexivity].
  - intros Hno. rewrite merge_with_metric_Struct.
    destruct (m_value metric) as [| | |t]; try reflexivity. exfalso. apply (Hno t eq_refl).
Qed.

Lemma merge_refuses_unknown_field_witness :
  is_OK (merge_with_metric example_host
           (mkMetric None None None (DataType.value DataType.Template) false false false
              empty_PropertySet
              (template_value
                 (mkTemplate [example_metric "x" 9; example_metric "z" 1] (Some "foo") None)))
           (Struct "foo" [("x", Scalar (Int64 7)); ("y", Scalar (String_ "hello"))]))
  = false.
Proof.
  eapply (proj1 (merge_refuses_unknown_field example_host _ "foo" _)); [reflexivity|].
  simpl. apply Exists_cons. right. apply Exists_cons. left. reflexivity.
Defined.

(** ** Data messages at the client *)

Lemma update_from_tahu_fresh host entry metric entry' :
  update_from_tahu host entry metric = OK entry' -> cem_is_fresh entry' = true.
Proof.
  unfold update_from_tahu.
  destruct (merge_with_metric_opt _ _ _ _); simpl; [|discriminate].
  intros [= <-]. reflexivity.
Qed.

Lemma classic_in_names self (message_metrics : list Metric) (name : string) :
  (exists metric, In metric message_metrics /\ _get_metric_name self metric = OK name)
  \/ (forall metric, In metric message_metrics -> _get_metric_name self metric <> OK name).
Proof.
  induction message_metrics as [|m rest IH].
  - right. intros metric [].
  - destruct IH as [(m' & Hin & Hn)|Hnone]; [left; exists m'; split; [right|]; auto|].
    destruct (_get_metric_name self m) as [n|e] eqn:E.
    + destruct (decide (n = name)) as [->|Hne].
      * left. exists m. split; [left; reflexivity|exact E].
      * right. intros metric [<-|Hin]; [rewrite E; congruence|apply Hnone, Hin].
    + right. intros metric [<-|Hin]; [rewrite E; discriminate|apply Hnone, Hin].
Qed.

(** X18.  When [update_from_tahu_data] returns, the table has the same
    metrics in the same order, every metric the message names, by name or
    by alias, has been updated and is fresh, and every other entry is as it
    was. *)
Theorem update_from_tahu_data_frame (host : Host) (self : ClientEndpoint)
    (message_metrics : list Metric) :
  forall metrics metrics',
    update_from_tahu_data host self metrics message_metrics = OK metrics' ->
    dict_keys metrics' = dict_keys metrics
    /\ (forall name,
          (forall metric, In metric message_metrics ->
             _get_metric_name self metric <> OK name) ->
          dict_get metrics' name = dict_get metrics name)
    /\ (forall metric, In metric message_metrics ->
          exists name entry',
            _get_metric_name self metric = OK name
            /\ dict_get metrics' name = Some entry'
            /\ cem_is_fresh entry' = true).
Proof.
  induction message_metrics as [|metric rest IH]; intros metrics metrics' H.
  - injection H as <-. split; [reflexivity|]. split; [reflexivity|]. intros m [].
  - simpl in H.
    destruct (_get_metric_name self metric) as [name|] eqn:En; simpl in H; [|discriminate].
    destruct (dict_get metrics name) as [entry|] eqn:Ee; [|discriminate].
    destruct (update_from_tahu host entry (set_name name metric)) as [entry'|] eqn:Eu;
      simpl in H; [|discriminate].
    destruct (IH _ _ H) as (K1 & K2 & K3).
    split; [|split].
    + rewrite K1. eapply dict_keys_set_existing. exact Ee.
    + intros k Hk. rewrite K2 by (intros m Hm; apply Hk; right; exact Hm).
      apply dict_get_set_ne. intros ->. apply (Hk metric); [left; reflexivity|exact En].
    + intros m [<-|Hm]; [|apply K3, Hm].
      exists name.
      destruct (classic_in_names self rest name) as [(m' & Hm' & Hn')|Hnone].
      * destruct (K3 m' Hm') as (name' & e' & Hn & He & Hf).
        rewrite Hn' in Hn. injection Hn as <-. eauto.
      * exists entry'. split; [exact En|]. split.
        -- rewrite K2 by exact Hnone. apply dict_get_set_eq.
        -- eapply update_from_tahu_fresh. exact Eu.
Qed.

Lemma update_from_tahu_data_frame_witness :
  match update_from_tahu_data example_host example_endpoint [("foo", example_foo_entry)]
          [example_foo_update] with
  | OK metrics' => dict_keys metrics' = ["foo"]
  | Raise _ => False
  end.
Proof.
  destruct (update_from_tahu_data example_host example_endpoint
              [("foo", example_foo_entry)] [example_foo_update]) as [metrics'|e] eqn:E.
  - destruct (update_from_tahu_data_frame example_host example_endpoint
                [example_foo_update] _ _ E) as [K _]. exact K.
  - vm_compute in E. discriminate.
Defined.

(** ** The template written for a record *)

Lemma field_metrics_names host (fields : list (string * IcypawValue)) metrics :
  mapM (fun f => set_in_metric host (snd f) (set_name (fst f) Metric_new)) fields
  = OK metrics ->
  List.map m_name metrics = List.map (fun f => Some (fst f)) fields.
Proof.
  revert metrics. induction fields as [|f fields IH]; simpl; intros metrics H.
  - injection H as <-. reflexivity.
  - destruct (set_in_metric host (snd f) _) as [m|] eqn:Em; simpl in H; [|discriminate].
    destruct (mapM _ fields) as [ms|]; simpl in H; [|discriminate].
    injection H as <-. apply set_in_metric_keeps_name in Em as [Em _].
    simpl. rewrite Em, (IH ms eq_refl). reflexivity.
Qed.

(** X19.  A record is written as a Template metric: the metric keeps its
    own name, alias and timestamp, takes the Template datatype, and carries
    a template instance that refers to the record's network name and holds
    one submetric per field, in field order, each named after its field. *)
Theorem Struct_set_in_metric_shape (host : Host) (nn : string)
    (fields : list (string * IcypawValue)) (metric m' : Metric) :
  set_in_metric host (Struct nn fields) metric = OK m' ->
  m_name m' = m_name metric /\ m_alias m' = m_alias metric
  /\ m_timestamp m' = m_timestamp metric
  /\ m_datatype m' = DataType.value DataType.Template
  /\ exists t,
       m_value m' = template_value t
       /\ t_template_ref t = Some nn
       /\ t_is_definition t = None
       /\ List.map m_name (t_metrics t) = List.map (fun f => Some (fst f)) fields.
Proof.
  cbn [set_in_metric]. intros H.
  destruct (mapM _ fields) as [metrics|] eqn:Em; simpl in H; [|discriminate].
  injection H as <-. repeat (split; [reflexivity|]).
  eexists. split; [reflexivity|]. split; [reflexivity|]. split; [reflexivity|].
  simpl. apply (field_metrics_names host fields metrics Em).
Qed.

Lemma Struct_set_in_metric_shape_witness :
  exists t,
    m_value example_foo_full = template_value t
    /\ t_template_ref t = Some "foo"
    /\ t_is_definition t = None
    /\ List.map m_name (t_metrics t) = [Some "x"; Some "y"].
Proof.
  destruct (Struct_set_in_metric_shape example_host "foo"
              [("x", Scalar (Int64 9)); ("y", Scalar (String_ "hello"))]
              Metric_new example_foo_full eq_refl) as (_ & _ & _ & _ & H).
  exact H.
Defined.

(** ** The schedule across a Schedule work item *)

Section ScheduleFacts.
Context (host : Host) (clock : nat -> Z) {F : Type}.
Context (run_func : F -> ServerEngine F -> ServerEngine F * result unit).
Context (mqtt_rc : list Publication -> Publication -> Z).
Context (heappush : list (float * QueueItem F) -> float * QueueItem F
                    -> list (float * QueueItem F)).
Context (tahu_birth_metrics : ServerEndpoint -> list Metric).

Implicit Types (st : ServerEngine F).

Lemma keeps_schedule_ret {A : Type} (a : A) : keeps_schedule (ret (F := F) a).
Proof. intros st. reflexivity. Qed.

Lemma keeps_schedule_lift {A : Type} (r : result A) : keeps_schedule (lift (F := F) r).
Proof. intros st. reflexivity. Qed.

Lemma keeps_schedule_andThen {A B : Type} (m : Action A) (k : A -> Action B) :
  keeps_schedule m -> (forall a, keeps_schedule (k a)) ->
  keeps_schedule (andThen (F := F) m k).
Proof.
  intros Hm Hk st. unfold andThen. pose proof (Hm st) as H1.
  destruct (m st) as [st1 [a|e]]; simpl in *; [|exact H1].
  rewrite (Hk a st1). exact H1.
Qed.

Lemma keeps_schedule_time_time : keeps_schedule (time_time clock (F := F)).
Proof. intros st. reflexivity. Qed.

Lemma keeps_schedule_on_iface {A : Type}
    (f : TahuServerInterface -> TahuServerInterface * result A) :
  keeps_schedule (on_iface (F := F) f).
Proof. intros st. unfold on_iface. destruct (f (_iface st)). reflexivity. Qed.

Lemma keeps_schedule_store_endpoint loc e : keeps_schedule (store_endpoint (F := F) loc e).
Proof.
  intros st. unfold store_endpoint. destruct loc as [device_id|]; [|reflexivity].
  destruct (dict_get (_devices st) device_id); reflexivity.
Qed.

Lemma keeps_schedule_publish topic payload qos retain :
  keeps_schedule (publish (F := F) mqtt_rc topic payload qos retain).
Proof.
  intros st. unfold publish.
  destruct (_ =? MQTT_ERR_SUCCESS); [reflexivity|].
  destruct (_ =? MQTT_ERR_NO_CONN); reflexivity.
Qed.

Lemma keeps_schedule_for_each {A : Type} (f : A -> Action unit) (l : list A) :
  (forall x, keeps_schedule (f x)) -> keeps_schedule (for_each (F := F) f l).
Proof.
  intros Hf. induction l as [|x l IH]; simpl.
  - apply keeps_schedule_ret.
  - apply keeps_schedule_andThen; [apply Hf|]. intros _. exact IH.
Qed.

Lemma keeps_schedule_render_updates icpw_metrics :
  keeps_schedule (render_updates host clock (F := F) icpw_metrics).
Proof.
  induction icpw_metrics as [|[name v] rest IH]; simpl.
  - apply keeps_schedule_ret.
  - apply keeps_schedule_andThen.
    { unfold new_metric. apply keeps_schedule_andThen; [apply keeps_schedule_time_time|].
      intros now. apply keeps_schedule_ret. }
    intros tm. apply keeps_schedule_andThen; [apply keeps_schedule_lift|].
    intros m. apply keeps_schedule_andThen; [exact IH|].
    intros ms. apply keeps_schedule_ret.
Qed.

Lemma keeps_schedule_at {A : Type} (m : Action A) st :
  keeps_schedule m -> _scheduled_events (fst (m st)) = _scheduled_events st.
Proof. intros H. apply H. Qed.

Lemma keeps_schedule_create_updated loc :
  keeps_schedule (_create_updated_endpoint_metric_payload host clock (F := F) loc).
Proof.
  intros st. unfold _create_updated_endpoint_metric_payload.
  destruct (endpoint_at loc st) as [endpoint|]; [|reflexivity].
  destruct (icpw_updated_metrics endpoint) as [endpoint' r].
  apply keeps_schedule_at.
  apply keeps_schedule_andThen; [apply keeps_schedule_store_endpoint|]. intros _.
  apply keeps_schedule_andThen; [apply keeps_schedule_lift|]. intros updated.
  destruct (List.map _ updated); [apply keeps_schedule_ret|].
  apply keeps_schedule_andThen; [apply keeps_schedule_time_time|]. intros now.
  apply keeps_schedule_andThen; [apply keeps_schedule_render_updates|]. intros ms.
  apply keeps_schedule_ret.
Qed.

Lemma keeps_schedule_rebirth_node :
  keeps_schedule (_rebirth_node clock (F := F) mqtt_rc tahu_birth_metrics).
Proof.
  intros st. unfold _rebirth_node. apply keeps_schedule_at.
  apply keeps_schedule_andThen.
  { apply keeps_schedule_for_each. intros metric. apply keeps_schedule_on_iface. }
  intros _. apply keeps_schedule_andThen; [apply keeps_schedule_on_iface|].
  intros names. apply keeps_schedule_andThen.
  { apply keeps_schedule_for_each. intros name. apply keeps_schedule_on_iface. }
  intros _. apply keeps_schedule_andThen; [apply keeps_schedule_time_time|].
  intros now. apply keeps_schedule_andThen; [apply keeps_schedule_on_iface|].
  intros nbirth. apply keeps_schedule_andThen; [intros st1; reflexivity|].
  intros t. apply keeps_schedule_publish.
Qed.

Lemma keeps_schedule_rebirth_device device_id :
  keeps_schedule (_rebirth_device clock (F := F) mqtt_rc tahu_birth_metrics device_id).
Proof.
  intros st. unfold _rebirth_device.
  destruct (endpoint_at (Some device_id) st) as [device|]; [|reflexivity].
  apply keeps_schedule_at. apply keeps_schedule_andThen.
  { apply keeps_schedule_for_each. intros metric. apply keeps_schedule_on_iface. }
  intros _. apply keeps_schedule_andThen; [apply keeps_schedule_time_time|].
  intros now. apply keeps_schedule_andThen; [apply keeps_schedule_on_iface|].
  intros dbirth. apply keeps_schedule_andThen; [intros st1; reflexivity|].
  intros t. apply keeps_schedule_publish.
Qed.

Lemma keeps_schedule_publish_metric_updates :
  keeps_schedule (_publish_metric_updates host clock (F := F) mqtt_rc tahu_birth_metrics).
Proof.
  unfold _publish_metric_updates. apply keeps_schedule_andThen.
  - intros st. unfold _publish_node_metric_updates.
    destruct (_fresh_birth_certificate (_node st)); apply keeps_schedule_at.
    + apply keeps_schedule_andThen; [apply keeps_schedule_create_updated|].
      intros [p|]; [|apply keeps_schedule_ret].
      apply keeps_schedule_andThen; [intros st1; reflexivity|].
      intros t. apply keeps_schedule_publish.
    + apply keeps_schedule_andThen; [apply keeps_schedule_rebirth_node|].
      intros _ st1. reflexivity.
  - intros _ st. unfold _publish_device_metric_updates. apply keeps_schedule_at.
    apply keeps_schedule_for_each. intros device_id st1. unfold publish_one_device.
    destruct (endpoint_at (Some device_id) st1) as [device|]; [|reflexivity].
    destruct (_fresh_birth_certificate device); apply keeps_schedule_at.
    + apply keeps_schedule_andThen; [apply keeps_schedule_create_updated|].
      intros [p|]; [|apply keeps_schedule_ret].
      apply keeps_schedule_andThen; [intros st2; reflexivity|].
      intros t. apply keeps_schedule_publish.
    + apply keeps_schedule_andThen; [apply keeps_schedule_rebirth_device|].
      intros _ st2. destruct (endpoint_at (Some device_id) st2) as [d|]; [|reflexivity].
      apply keeps_schedule_store_endpoint.
Qed.

(** X20.  Processing a Schedule work item changes the schedule of pending
    events only as the scheduled function itself does, plus one insertion
    when the function returned and the item repeats: the item again, due at
    its own due time plus the period (not at the time of processing).  An
    item whose function raised is not scheduled again. *)
Theorem schedule_item_reschedules (time : float) (func : F) (repeat_sec : option float)
    st :
  _scheduled_events
    (fst (_process_ScheduleQueueItem host clock run_func mqtt_rc heappush
            tahu_birth_metrics time func repeat_sec st))
  = match snd (run_func func st), repeat_sec with
    | OK _, Some period =>
        heappush (_scheduled_events (fst (run_func func st)))
          (PrimFloat.add time period,
           mkQueueItem (PrimFloat.add time period) (SchedulePayload func (Some period)))
    | _, _ => _scheduled_events (fst (run_func func st))
    end.
Proof.
  unfold _process_ScheduleQueueItem, try_finally.
  destruct (schedule_body run_func heappush time func repeat_sec st) as [st1 r1] eqn:Eb.
  pose proof (keeps_schedule_publish_metric_updates st1) as Hk.
  destruct (_publish_metric_updates host clock mqtt_rc tahu_birth_metrics st1)
    as [st2 [[]|e]]; simpl in *; rewrite Hk; clear Hk;
    unfold schedule_body, andThen in Eb;
    destruct (run_func func st) as [st' [[]|e']]; simpl;
    try (injection Eb as <- _; destruct repeat_sec; reflexivity);
    destruct repeat_sec; injection Eb as <- _; reflexivity.
Qed.
End ScheduleFacts.

(** The failing function of the example engine, scheduled to repeat, is
    gone from the schedule after one run; the one that returns is due
    again. *)
Example failed_item_not_rescheduled :
  _scheduled_events
    (fst (_process_ScheduleQueueItem example_host Z.of_nat example_run_func
            example_mqtt_rc example_heappush (fun _ => []) 10%float true (Some 5%float)
            example_engine)) = []
  /\ List.map fst
       (_scheduled_events
          (fst (_process_ScheduleQueueItem example_host Z.of_nat example_run_func
                  example_mqtt_rc example_heappush (fun _ => []) 10%float false
                  (Some 5%float) example_engine))) = [15%float].
Proof. split; vm_compute; reflexivity. Qed.
